(** * LightMCP: pay-per-SMS over Lightning

    A shallow embedding of [src/server.py], the stand-alone MCP server, and
    further down, in [Smithery], of its variant
    [src/src/mcp_server/server.py], which reads its configuration from the
    session instead of the process environment.

    - Python values are an inductive type; [dict] literals are association
      lists in insertion order; the module-level registry [pending_sms] is a
      finite map.
    - A tool body is a computation in a small state-and-exception monad.  The
      state survives a raised exception, as the interpreter's heap does.
    - The outside world (process environment, the OpenNode HTTP endpoint, the
      Twilio client, the QR rasteriser) is not code of this repository.  A
      tool call receives the answers of the outside world as arguments, and
      every outbound request is appended to a log kept in the state.
    - The tools of the stand-alone server are first modelled as called with
      [ctx=None], the declared default, so the [if ctx: await ctx.info(...)]
      lines do nothing; the two tools that write to the registry are
      modelled again with their context in [Hosted], at the end.  One call
      runs to completion before the next one starts. *)

From Stdlib Require Import ZArith Floats Ascii.
From stdpp Require Import gmap strings list fin_maps pretty.

#[local] Set Warnings "-register-all,-inexact-float".
#[local] Open Scope string_scope.

(** ** Python values *)

(** What [response.json()] yields.  JSON numbers are restricted to integers:
    the only float the server handles is its own price.  A str is held as
    its UTF-8 encoding, so a str with a lone surrogate, which has none, is
    not among these values. *)
Inductive json :=
| JNull
| JBool (b : bool)
| JInt (z : Z)
| JStr (s : string)
| JArr (l : list json)
| JObj (d : list (string * json)).

(** Values stored in the dicts the server builds: JSON data, or the price. *)
Inductive pyval :=
| PJson (j : json)
| PFloat (f : float).

Abbreviation PNone := (PJson JNull).
Abbreviation PBool b := (PJson (JBool b)).
Abbreviation PStr s := (PJson (JStr s)).

(** [dict[str, Any]], in insertion order. *)
Abbreviation pydict := (list (string * pyval)).

(** Exceptions that can travel through the tool bodies. *)
Inductive exn :=
| ValueError (msg : string)
| KeyError (k : string)
| TypeError (msg : string)
| AttributeError (msg : string)
| HTTPStatusError (status_code : Z) (text : string)
| JSONDecodeError
| LibraryError (cls msg : string).

Module Dict.

(** [d[k]] / [k in d] on an association list: the first binding counts. *)
Fixpoint get {V} (k : string) (d : list (string * V)) : option V :=
  match d with
  | [] => None
  | (k', v) :: d' => if decide (k' = k) then Some v else get k d'
  end.

(** [d[k] = v]: replaces the value of an existing key in place, appends a
    new key at the end. *)
Fixpoint set {V} (k : string) (v : V) (d : list (string * V)) : list (string * V) :=
  match d with
  | [] => [(k, v)]
  | (k', v') :: d' =>
      if decide (k' = k) then (k, v) :: d' else (k', v') :: set k v d'
  end.

End Dict.

(** [v[k]] for a string subscript [k]. *)
Definition subscript (v : json) (k : string) : exn + json :=
  match v with
  | JObj d =>
      match Dict.get k d with
      | Some x => inr x
      | None => inl (KeyError k)
      end
  | JArr _ => inl (TypeError "list indices must be integers or slices, not str")
  | JStr _ => inl (TypeError "string indices must be integers, not 'str'")
  | JNull => inl (TypeError "'NoneType' object is not subscriptable")
  | JBool _ => inl (TypeError "'bool' object is not subscriptable")
  | JInt _ => inl (TypeError "'int' object is not subscriptable")
  end.

(** [v.get(k)]: only a dict has the method; a missing key gives [None]. *)
Definition dot_get (v : json) (k : string) : exn + json :=
  match v with
  | JObj d => inr (default JNull (Dict.get k d))
  | _ => inl (AttributeError "object has no attribute 'get'")
  end.

(** Truth value of an object ([if x], [not x]). *)
Definition truthy (v : pyval) : bool :=
  match v with
  | PJson JNull => false
  | PJson (JBool b) => b
  | PJson (JInt z) => negb (z =? 0)%Z
  | PJson (JStr s) => negb (String.eqb s "")
  | PJson (JArr l) => match l with [] => false | _ => true end
  | PJson (JObj d) => match d with [] => false | _ => true end
  | PFloat f => negb (PrimFloat.eqb f 0%float)
  end.

(** [type(v).__name__]. *)
Definition type_name (v : pyval) : string :=
  match v with
  | PJson JNull => "NoneType"
  | PJson (JBool _) => "bool"
  | PJson (JInt _) => "int"
  | PJson (JStr _) => "str"
  | PJson (JArr _) => "list"
  | PJson (JObj _) => "dict"
  | PFloat _ => "float"
  end.

(** [v != s] for a string literal [s]: anything that is not a str differs. *)
Definition ne_str (v : json) (s : string) : bool :=
  match v with
  | JStr s' => negb (String.eqb s' s)
  | _ => true
  end.

(** Keys of [pending_sms].  [None], bools, ints and strs are hashable, and
    [True == 1], [False == 0] name the same key; lists and dicts are not. *)
Inductive key := KNone | KInt (z : Z) | KStr (s : string).

#[global] Instance key_eq_dec : EqDecision key.
Proof. solve_decision. Defined.

Definition key_enc (k : key) : unit + Z + string :=
  match k with KNone => inl (inl tt) | KInt z => inl (inr z) | KStr s => inr s end.

Definition key_dec (x : unit + Z + string) : key :=
  match x with inl (inl _) => KNone | inl (inr z) => KInt z | inr s => KStr s end.

#[global] Instance key_countable : Countable key.
Proof. apply (inj_countable' key_enc key_dec). by intros []. Defined.

Definition hashable (v : json) : exn + key :=
  match v with
  | JNull => inr KNone
  | JBool b => inr (KInt (if b then 1 else 0))
  | JInt z => inr (KInt z)
  | JStr s => inr (KStr s)
  | JArr _ => inl (TypeError "unhashable type: 'list'")
  | JObj _ => inl (TypeError "unhashable type: 'dict'")
  end.

(** ** The outside world *)

(** One outbound request, as logged. *)
Inductive event :=
| HttpPost (url : string) (json_payload headers : pydict)
| HttpGet (url : string) (headers : pydict)
| TwilioCreate (account_sid auth_token : string) (body from_ to : pyval).

(** What an HTTP request comes back with: the client raises (transport
    fault, timeout), or there is a response with its status code, its text
    and, when the text is JSON, the parsed document. *)
Inductive http_outcome :=
| HttpRaises (e : exn)
| HttpResponse (status_code : Z) (text : string) (document : option json).

(** What [twilio.messages.create] comes back with: a message, of which the
    server reads [sid] only, or an exception (provider rejection, transport
    fault).  The SDK declares [sid] as [Optional[str]] and takes it from the
    provider's JSON answer as it is; the server does not look at it. *)
Inductive twilio_outcome :=
| TwilioRaises (e : exn)
| TwilioMessage (sid : json).

(** [Image(data=..., format=...)] of the MCP library. *)
Record Image := { image_data : string; image_format : string }.

(** ** State and control *)

Record world := World {
  pending_sms : gmap key pydict;   (* charge_id -> request_info *)
  outbound : list event            (* requests sent so far, oldest first *)
}.

Definition startup : world := World ∅ [].

(** A computation: runs on a world, returns or raises, leaves a world. *)
Definition M (A : Type) : Type := world -> (exn + A) * world.

Definition ret {A} (a : A) : M A := fun w => (inr a, w).
Definition raise {A} (e : exn) : M A := fun w => (inl e, w).

Definition bind {A B} (c : M A) (k : A -> M B) : M B :=
  fun w =>
    match c w with
    | (inr a, w') => k a w'
    | (inl e, w') => (inl e, w')
    end.

(** A pure step that may raise. *)
Definition lift {A} (r : exn + A) : M A :=
  match r with inr a => ret a | inl e => raise e end.

(** [try: body except Exception as e: handler(e)]. *)
Definition try_except {A} (body : M A) (handler : exn -> M A) : M A :=
  fun w =>
    match body w with
    | (inl e, w') => handler e w'
    | r => r
    end.

Declare Scope py_scope.
Delimit Scope py_scope with py.
Notation "x <- c ;; k" := (bind c (fun x => k))
  (at level 100, c at next level, k at level 200, only parsing) : py_scope.
Notation "c ;; k" := (bind c (fun _ => k))
  (at level 100, k at level 200, only parsing) : py_scope.
#[local] Open Scope py_scope.

Definition send (ev : event) : M unit :=
  fun w => (inr tt, World (pending_sms w) (outbound w ++ [ev])).

(** [len(pending_sms)]. *)
Definition registry_len : M nat := fun w => (inr (size (pending_sms w)), w).

(** [k in pending_sms]. *)
Definition registry_contains (k : key) : M bool :=
  fun w => (inr (bool_decide (is_Some (pending_sms w !! k))), w).

(** [pending_sms[k] = d]. *)
Definition registry_setitem (k : key) (d : pydict) : M unit :=
  fun w => (inr tt, World (<[k := d]> (pending_sms w)) (outbound w)).

(** [pending_sms[charge_id][field]], also through an alias
    [sms_request = pending_sms[charge_id]]: the dict object is shared, so
    the read sees the registry as it is now. *)
Definition registry_getfield (charge_id field : string) : M pyval :=
  fun w =>
    match pending_sms w !! KStr charge_id with
    | None => (inl (KeyError charge_id), w)
    | Some d =>
        match Dict.get field d with
        | None => (inl (KeyError field), w)
        | Some v => (inr v, w)
        end
    end.

(** [pending_sms[charge_id][field] = v]. *)
Definition registry_setfield (charge_id field : string) (v : pyval) : M unit :=
  fun w =>
    match pending_sms w !! KStr charge_id with
    | None => (inl (KeyError charge_id), w)
    | Some d =>
        (inr tt,
         World (<[KStr charge_id := Dict.set field v d]> (pending_sms w)) (outbound w))
    end.

(** ** Library calls the server makes *)

(** [os.environ]; [os.getenv(k)] is the lookup. *)
Abbreviation environ := (gmap string string).

(** [not v] for the result of [os.getenv]: unset or empty. *)
Definition unset (v : option string) : bool :=
  match v with
  | None => true
  | Some s => String.eqb s ""
  end.

(** The response object of httpx. *)
Record response := Response {
  status_code : Z;
  text : string;
  document : option json
}.

Definition arrive (net : http_outcome) : M response :=
  match net with
  | HttpRaises e => raise e
  | HttpResponse c t d => ret (Response c t d)
  end.

(** [await client.post(url, json=payload, headers=headers, timeout=30.0)]:
    the request is handed to the HTTP library and logged, and the library
    comes back with the response of the provider or with an exception,
    its own included (a request it cannot encode, a timeout). *)
Definition client_post (net : http_outcome) (url : string) (payload headers : pydict)
  : M response :=
  send (HttpPost url payload headers) ;; arrive net.

(** [await client.get(url, headers=headers, timeout=30.0)]. *)
Definition client_get (net : http_outcome) (url : string) (headers : pydict)
  : M response :=
  send (HttpGet url headers) ;; arrive net.

(** [response.raise_for_status()]: anything but a 2xx status raises. *)
Definition raise_for_status (r : response) : M unit :=
  if ((200 <=? status_code r) && (status_code r <=? 299))%Z
  then ret tt
  else raise (HTTPStatusError (status_code r) (text r)).

(** [response.json()]. *)
Definition response_json (r : response) : M json :=
  match document r with
  | Some j => ret j
  | None => raise JSONDecodeError
  end.

(** [urllib.parse.quote(string, safe=safe)] on a str seen as its UTF-8
    bytes: letters, digits and [_.-~] are never quoted, the characters of
    [safe] are not quoted either, every other byte becomes [%XX]. *)
Definition always_safe (a : ascii) : bool :=
  let n := nat_of_ascii a in
  (((48 <=? n) && (n <=? 57)) || ((65 <=? n) && (n <=? 90))
   || ((97 <=? n) && (n <=? 122))
   || (n =? 95) || (n =? 46) || (n =? 45) || (n =? 126))%nat.

Definition hex_digit (n : nat) : ascii :=
  (if n <? 10 then ascii_of_nat (48 + n) else ascii_of_nat (55 + n))%nat.

Definition percent (a : ascii) : string :=
  let n := nat_of_ascii a in
  String "%"%char
    (String (hex_digit (n / 16)%nat) (String (hex_digit (n mod 16)%nat) "")).

Fixpoint mem_ascii (a : ascii) (s : string) : bool :=
  match s with
  | EmptyString => false
  | String b s' => Ascii.eqb a b || mem_ascii a s'
  end.

Fixpoint quote_bytes (s safe : string) : string :=
  match s with
  | EmptyString => ""
  | String a s' =>
      (if always_safe a || mem_ascii a safe then String a "" else percent a)
      +:+ quote_bytes s' safe
  end.

Definition quote (v : pyval) (safe : string) : exn + string :=
  match v with
  | PStr s => inr (quote_bytes s safe)
  | _ => inl (TypeError "quote_from_bytes() expected bytes")
  end.

(** The [Client] object of the Twilio SDK: it only holds the credentials. *)
Record TwilioClient := { account_sid : string; auth_token : string }.

(** [twilio.messages.create(body=..., from_=..., to=...)]. *)
Definition messages_create (tw : twilio_outcome) (twilio : TwilioClient)
    (body from_ to : pyval) : M json :=
  send (TwilioCreate (account_sid twilio) (auth_token twilio) body from_ to) ;;
  match tw with
  | TwilioRaises e => raise e
  | TwilioMessage sid => ret sid
  end.

(** ** The server *)

Section Server.

(** Python's [float(s)]: the parsed number, or the exception it raises. *)
Variable py_float : string -> exn + float.

(** Python's [repr(v)]. *)
Variable py_repr : json -> string.

(** The qrcode pipeline of [generate_qr_code] ([QRCode(version=None,
    error_correction=ERROR_CORRECT_Q, box_size=12, border=4)], [add_data],
    [make(fit=True)], [make_image], [save] as PNG): the bytes of the
    picture, or the exception the library raises. *)
Variable qr_png : pyval -> exn + string.

(** [str(v)], as an f-string field formats it: a str is itself, anything
    else is its [repr]. *)
Definition py_str (v : json) : string :=
  match v with
  | JStr s => s
  | _ => py_repr v
  end.

Definition get_sms_price (env : environ) : exn + float :=
  py_float (default "0.10" (env !! "SMS_PRICE_USD")).

Definition get_opennode_headers (env : environ) : exn + pydict :=
  let api_key := env !! "OPENNODE_API_KEY" in
  if unset api_key then inl (ValueError "OPENNODE_API_KEY not set")
  else inr [("Authorization", PStr (default "" api_key));
            ("Content-Type", PStr "application/json")].

Definition get_twilio_client (env : environ) : exn + TwilioClient :=
  let account_sid := env !! "TWILIO_ACCOUNT_SID" in
  let auth_token := env !! "TWILIO_AUTH_TOKEN" in
  if unset account_sid || unset auth_token
  then inl (ValueError "TWILIO credentials not set")
  else inr {| account_sid := default "" account_sid;
              auth_token := default "" auth_token |}.

Definition generate_qr_code (data : pyval) : exn + Image :=
  match qr_png data with
  | inr png => inr {| image_data := png; image_format := "png" |}
  | inl e => inl e
  end.

(** The two [except] clauses shared by [create_sms_payment] and
    [pay_and_send_sms]: an [HTTPStatusError] leaves as a [ValueError] with
    the provider's status code and text, anything else is re-raised. *)
Definition surfaced (e : exn) : exn :=
  match e with
  | HTTPStatusError code body =>
      ValueError ("OpenNode API error: " +:+ pretty code +:+ " - " +:+ body)
  | _ => e
  end.

Definition except_opennode {A} (e : exn) : M A := raise (surfaced e).

(** [ValueError(f"Charge {charge_id} not found")]. *)
Definition NotFound (charge_id : string) : exn :=
  ValueError ("Charge " +:+ charge_id +:+ " not found").

Definition not_found {A} (charge_id : string) : M A := raise (NotFound charge_id).

Definition create_sms_payment (env : environ) (net : http_outcome)
    (phone_number message user_id : string) : M pydict :=
  try_except
    (price <- lift (get_sms_price env) ;;
     n <- registry_len ;;
     let payload :=
       [("amount", PFloat price);
        ("currency", PStr "USD");
        ("description", PStr ("SMS to " +:+ phone_number));
        ("auto_settle", PBool false);
        ("order_id", PStr ("sms-" +:+ user_id +:+ "-" +:+ pretty n))] in
     headers <- lift (get_opennode_headers env) ;;
     response <- client_post net "https://api.opennode.com/v1/charges" payload headers ;;
     raise_for_status response ;;
     charge <- response_json response ;;
     (* charge_id = charge["data"]["id"] *)
     data <- lift (subscript charge "data") ;;
     charge_id <- lift (subscript data "id") ;;
     (* lightning_invoice = charge["data"]["lightning_invoice"]["payreq"] *)
     data <- lift (subscript charge "data") ;;
     invoice <- lift (subscript data "lightning_invoice") ;;
     lightning_invoice <- lift (subscript invoice "payreq") ;;
     (* pending_sms[charge_id] = {...}: the dict is built first, and reads
        charge["data"]["hosted_checkout_url"]; then the key is hashed *)
     data <- lift (subscript charge "data") ;;
     hosted_checkout_url <- lift (subscript data "hosted_checkout_url") ;;
     k <- lift (hashable charge_id) ;;
     registry_setitem k
       [("user_id", PStr user_id);
        ("phone_number", PStr phone_number);
        ("message", PStr message);
        ("amount", PFloat price);
        ("lightning_invoice", PJson lightning_invoice);
        ("hosted_checkout_url", PJson hosted_checkout_url);
        ("status", PStr "pending");
        ("sent", PBool false)] ;;
     (* return {...}: reads charge["data"]["hosted_checkout_url"] again and
        charge["data"]["lightning_invoice"]["expires_at"] *)
     data <- lift (subscript charge "data") ;;
     hosted_checkout_url <- lift (subscript data "hosted_checkout_url") ;;
     data <- lift (subscript charge "data") ;;
     invoice <- lift (subscript data "lightning_invoice") ;;
     expires_at <- lift (subscript invoice "expires_at") ;;
     ret [("charge_id", PJson charge_id);
          ("amount", PFloat price);
          ("currency", PStr "USD");
          ("phone_number", PStr phone_number);
          ("lightning_invoice", PJson lightning_invoice);
          ("hosted_checkout_url", PJson hosted_checkout_url);
          ("expires_at", PJson expires_at);
          ("instructions",
           PStr "Call get_sms_qr(charge_id) to get QR code, then pay_and_send_sms(charge_id)")])
    except_opennode.

Definition get_sms_qr (charge_id : string) : M Image :=
  present <- registry_contains (KStr charge_id) ;;
  if negb present then not_found charge_id else
  lightning_invoice <- registry_getfield charge_id "lightning_invoice" ;;
  lift (generate_qr_code lightning_invoice).

Definition generate_lightning_deep_link (invoice : pyval) : exn + string :=
  match quote invoice "" with
  | inr quoted => inr ("lightning:" +:+ quoted)
  | inl e => inl e
  end.

(** The page of [get_sms_qr_with_link], an f-string with three holes: the
    deep link, the script line run after the delay, and the link shown in
    the fallback block. *)
Definition dq : string := String (ascii_of_nat 34) "".
Definition nl : string := String (ascii_of_nat 10) "".

Definition html_page (deep_link fallback link : string) : string :=
  String.concat nl [
    "";
    "    <!doctype html>";
    "    <html>";
    "      <head>";
    "        <meta name=" +:+ dq +:+ "viewport" +:+ dq +:+ " content=" +:+ dq +:+ "width=device-width,initial-scale=1" +:+ dq +:+ "/>";
    "        <title>Pay with Lightning</title>";
    "        <script>";
    "          function openWallet() {";
    "            // Try to open via lightning: URI scheme";
    "            window.location = " +:+ dq +:+ deep_link +:+ dq +:+ ";";
    "            // On many mobile browsers this will open a wallet; if not, we let fallback occur below.";
    "            // After a short delay, redirect to hosted checkout if available.";
    "            setTimeout(function() {";
    "              " +:+ fallback;
    "            }, 1200);";
    "          }";
    "          // On load, attempt automatically (useful in mobile webview)";
    "          window.addEventListener('load', function() {";
    "            openWallet();";
    "          });";
    "        </script>";
    "        <style>body { font-family: sans-serif; text-align:center; padding:20px; }</style>";
    "      </head>";
    "      <body>";
    "        <h2>Pay with Lightning</h2>";
    "        <p>Tap the button below if your wallet didn't open automatically.</p>";
    "        <p><a href=" +:+ dq +:+ deep_link +:+ dq +:+ " style=" +:+ dq +:+ "display:inline-block;padding:12px 18px;background:#111;color:#fff;border-radius:8px;text-decoration:none;" +:+ dq +:+ ">Open wallet</a></p>";
    "        <div id=" +:+ dq +:+ "fallback" +:+ dq +:+ " style=" +:+ dq +:+ "display:none;" +:+ dq +:+ ">";
    "          <p>If your wallet doesn't open, use this link:</p>";
    "          <p><a href=" +:+ dq +:+ link +:+ dq +:+ ">" +:+ link +:+ "</a></p>";
    "        </div>";
    "        <hr/>";
    "        <p style=" +:+ dq +:+ "font-size:0.85em;color:#666;" +:+ dq +:+ ">Or scan the QR code shown by the app.</p>";
    "      </body>";
    "    </html>";
    "    "
  ].

(** The holes filled in.  [("'" + hosted_checkout + "'")] is evaluated only
    when [hosted_checkout] is true, and raises unless it is a str. *)
Definition html_snippet (deep_link : string) (hosted_checkout : pyval)
  : exn + string :=
  if truthy hosted_checkout then
    match hosted_checkout with
    | PStr url =>
        inr (html_page deep_link ("window.location = " +:+ "'" +:+ url +:+ "'" +:+ ";") url)
    | _ =>
        inl (TypeError ("can only concatenate str (not " +:+ dq
                        +:+ type_name hosted_checkout +:+ dq +:+ ") to str"))
    end
  else
    inr (html_page deep_link
           "document.getElementById('fallback').style.display='block';"
           deep_link).

(** [pending_sms[charge_id]]: the lookup alone, for its [KeyError]. *)
Definition registry_getitem (charge_id : string) : M unit :=
  fun w =>
    match pending_sms w !! KStr charge_id with
    | None => (inl (KeyError charge_id), w)
    | Some _ => (inr tt, w)
    end.

(** [pending_sms[charge_id].get(field, None)]. *)
Definition registry_getfield_or_none (charge_id field : string) : M pyval :=
  fun w =>
    match pending_sms w !! KStr charge_id with
    | None => (inl (KeyError charge_id), w)
    | Some d => (inr (default PNone (Dict.get field d)), w)
    end.

Definition get_sms_qr_with_link (charge_id : string) : M pydict :=
  present <- registry_contains (KStr charge_id) ;;
  if negb present then not_found charge_id else
  (* data = pending_sms[charge_id]; invoice = data["lightning_invoice"] *)
  registry_getitem charge_id ;;
  invoice <- registry_getfield charge_id "lightning_invoice" ;;
  image <- lift (generate_qr_code invoice) ;;
  deep_link <- lift (generate_lightning_deep_link invoice) ;;
  (* hosted_checkout = data.get("hosted_checkout_url", None) *)
  hosted_checkout <- registry_getfield_or_none charge_id "hosted_checkout_url" ;;
  html <- lift (html_snippet deep_link hosted_checkout) ;;
  ret [("deep_link", PStr deep_link);
       ("hosted_checkout_url", hosted_checkout);
       ("mobile_html", PStr html);
       ("instructions", PStr "Scan QR separately, or tap deep_link to open a wallet.")].

Definition pay_and_send_sms (env : environ) (net : http_outcome)
    (tw : twilio_outcome) (charge_id : string) : M pydict :=
  present <- registry_contains (KStr charge_id) ;;
  if negb present then not_found charge_id else
  try_except
    (headers <- lift (get_opennode_headers env) ;;
     response <- client_get net ("https://api.opennode.com/v1/charge/" +:+ charge_id) headers ;;
     raise_for_status response ;;
     charge <- response_json response ;;
     (* status = charge["data"]["status"] *)
     data <- lift (subscript charge "data") ;;
     status <- lift (subscript data "status") ;;
     (* sms_request = pending_sms[charge_id] *)
     registry_getitem charge_id ;;
     if ne_str status "paid" then
       ret [("charge_id", PStr charge_id);
            ("status", PJson status);
            ("paid", PBool false);
            ("sms_sent", PBool false);
            ("message",
             PStr ("Payment not received yet (status: " +:+ py_str status +:+ ")"))]
     else
     sent <- registry_getfield charge_id "sent" ;;
     if negb (truthy sent) then
       twilio <- lift (get_twilio_client env) ;;
       let from_number := env !! "TWILIO_PHONE_NUMBER" in
       if unset from_number then raise (ValueError "TWILIO_PHONE_NUMBER not set") else
       let from_number := PStr (default "" from_number) in
       (* sms = twilio.messages.create(body=sms_request["message"],
                from_=from_number, to=sms_request["phone_number"]) *)
       body <- registry_getfield charge_id "message" ;;
       to <- registry_getfield charge_id "phone_number" ;;
       sid <- messages_create tw twilio body from_number to ;;
       (* Mark as sent *)
       registry_setfield charge_id "sent" (PBool true) ;;
       registry_setfield charge_id "status" (PStr "completed") ;;
       registry_setfield charge_id "sms_sid" (PJson sid) ;;
       (* return {...}: reads sms_request["phone_number"] and
          charge["data"].get("paid_at") *)
       to <- registry_getfield charge_id "phone_number" ;;
       data <- lift (subscript charge "data") ;;
       paid_at <- lift (dot_get data "paid_at") ;;
       ret [("charge_id", PStr charge_id);
            ("status", PStr "completed");
            ("paid", PBool true);
            ("sms_sent", PBool true);
            ("sms_sid", PJson sid);
            ("to", to);
            ("from", from_number);
            ("paid_at", PJson paid_at);
            ("message", PStr "Payment received and SMS sent successfully!")]
     else
       ret [("charge_id", PStr charge_id);
            ("status", PStr "completed");
            ("paid", PBool true);
            ("sms_sent", PBool true);
            ("message", PStr "SMS already sent for this payment")])
    except_opennode.

Definition check_charge_status (env : environ) (net : http_outcome)
    (charge_id : string) : M pydict :=
  present <- registry_contains (KStr charge_id) ;;
  if negb present then not_found charge_id else
  (* sms_request = pending_sms[charge_id] *)
  registry_getitem charge_id ;;
  try_except
    (headers <- lift (get_opennode_headers env) ;;
     response <- client_get net ("https://api.opennode.com/v1/charge/" +:+ charge_id) headers ;;
     raise_for_status response ;;
     charge <- response_json response ;;
     data <- lift (subscript charge "data") ;;
     payment_status <- lift (subscript data "status") ;;
     sms_sent <- registry_getfield charge_id "sent" ;;
     phone_number <- registry_getfield charge_id "phone_number" ;;
     amount <- registry_getfield charge_id "amount" ;;
     data <- lift (subscript charge "data") ;;
     created_at <- lift (subscript data "created_at") ;;
     data <- lift (subscript charge "data") ;;
     paid_at <- lift (dot_get data "paid_at") ;;
     ret [("charge_id", PStr charge_id);
          ("payment_status", PJson payment_status);
          ("sms_sent", sms_sent);
          ("phone_number", phone_number);
          ("amount", amount);
          ("created_at", PJson created_at);
          ("paid_at", PJson paid_at)])
    raise.

(** ** Runs of the server *)

(** One tool invocation, with what the outside world answers during it. *)
Inductive call :=
| CreateSmsPayment (env : environ) (net : http_outcome)
    (phone_number message user_id : string)
| GetSmsQr (charge_id : string)
| GetSmsQrWithLink (charge_id : string)
| PayAndSendSms (env : environ) (net : http_outcome) (tw : twilio_outcome)
    (charge_id : string)
| CheckChargeStatus (env : environ) (net : http_outcome) (charge_id : string).

(** The world a call leaves behind, whether it returned or raised. *)
Definition serve (c : call) (w : world) : world :=
  match c with
  | CreateSmsPayment env net phone_number message user_id =>
      snd (create_sms_payment env net phone_number message user_id w)
  | GetSmsQr charge_id => snd (get_sms_qr charge_id w)
  | GetSmsQrWithLink charge_id => snd (get_sms_qr_with_link charge_id w)
  | PayAndSendSms env net tw charge_id =>
      snd (pay_and_send_sms env net tw charge_id w)
  | CheckChargeStatus env net charge_id =>
      snd (check_charge_status env net charge_id w)
  end.

(** The worlds the server can be in: it starts with an empty registry and
    serves calls one after the other. *)
Inductive reachable : world -> Prop :=
| reachable_startup : reachable startup
| reachable_serve c w : reachable w -> reachable (serve c w).

Definition serve_all (cs : list call) : world :=
  fold_left (fun w c => serve c w) cs startup.

(** How often the Delivery Adapter was invoked. *)
Definition is_twilio_create (ev : event) : bool :=
  match ev with
  | TwilioCreate _ _ _ _ _ => true
  | _ => false
  end.

Definition delivered (log : list event) : nat :=
  length (List.filter is_twilio_create log).

Definition deliveries (w : world) : nat := delivered (outbound w).

(** The request record of a charge, as [create_sms_payment] writes it
    ([receipt = None]) and as [pay_and_send_sms] leaves it after a
    delivery with receipt id [sid] ([receipt = Some sid]). *)
Definition request_fields (user_id phone_number message : string) (price : float)
    (lightning_invoice hosted_checkout_url : json) (status : string) (sent : bool)
  : pydict :=
  [("user_id", PStr user_id);
   ("phone_number", PStr phone_number);
   ("message", PStr message);
   ("amount", PFloat price);
   ("lightning_invoice", PJson lightning_invoice);
   ("hosted_checkout_url", PJson hosted_checkout_url);
   ("status", PStr status);
   ("sent", PBool sent)].

Definition request_info (user_id phone_number message : string) (price : float)
    (lightning_invoice hosted_checkout_url : json) (receipt : option json)
  : pydict :=
  match receipt with
  | None =>
      request_fields user_id phone_number message price
        lightning_invoice hosted_checkout_url "pending" false
  | Some sid =>
      (request_fields user_id phone_number message price
         lightning_invoice hosted_checkout_url "completed" true
       ++ [("sms_sid", PJson sid)])%list
  end.

Definition well_formed (d : pydict) : Prop :=
  exists user_id phone_number message price lightning_invoice hosted_checkout_url receipt,
    d = request_info user_id phone_number message price
          lightning_invoice hosted_checkout_url receipt.

Definition registry_ok (w : world) : Prop :=
  forall k d, pending_sms w !! k = Some d -> well_formed d.

(** A status code for which [raise_for_status] returns. *)
Definition success (code : Z) : Prop := (200 <= code <= 299)%Z.

(** The provider answers the request with a 2xx response whose JSON
    document is [charge], with [charge["data"] = data]. *)
Definition answers (net : http_outcome) (charge data : json) : Prop :=
  exists code body,
    net = HttpResponse code body (Some charge)
    /\ success code
    /\ subscript charge "data" = inr data.

(** The provider query reports the payment status [status]. *)
Definition reports (net : http_outcome) (status : json) : Prop :=
  exists charge data,
    answers net charge data /\ subscript data "status" = inr status.

(** ** Names for what the statements below mention *)

(** The three assignments of [pay_and_send_sms] on a record. *)
Definition mark_sent (sid : json) (d : pydict) : pydict :=
  Dict.set "sms_sid" (PJson sid)
    (Dict.set "status" (PStr "completed") (Dict.set "sent" (PBool true) d)).

(** [v.get(k)] where it is known to return, [None] standing for the
    [AttributeError] of a value that is no dict. *)
Definition member_or_none (v : json) (k : string) : json :=
  match dot_get v k with
  | inr x => x
  | inl _ => JNull
  end.

(** The URL of the status query. *)
Definition charge_url (charge_id : string) : string :=
  "https://api.opennode.com/v1/charge/" +:+ charge_id.

(** The URL of the creation request. *)
Definition charges_url : string := "https://api.opennode.com/v1/charges".

(** The body of the request [create_sms_payment] posts. *)
Definition charge_payload (price : float) (phone_number user_id : string) (n : nat)
  : pydict :=
  [("amount", PFloat price);
   ("currency", PStr "USD");
   ("description", PStr ("SMS to " +:+ phone_number));
   ("auto_settle", PBool false);
   ("order_id", PStr ("sms-" +:+ user_id +:+ "-" +:+ pretty n))].

(** ** Reasoning about runs *)

(** Unfolds the tools and the monad, and reduces what has become a redex;
    a run then stops at the first test it cannot decide. *)
Ltac exec :=
  lazy beta iota zeta delta
    [create_sms_payment get_sms_qr get_sms_qr_with_link pay_and_send_sms
     check_charge_status
     bind ret raise lift try_except except_opennode not_found
     registry_len registry_contains registry_setitem registry_getitem
     registry_getfield registry_getfield_or_none registry_setfield
     client_post client_get arrive send raise_for_status response_json
     messages_create negb fst snd];
  cbn [pending_sms outbound status_code text document].

(** Decides the test a run has stopped at with a fact of the context. *)
Ltac settle :=
  match goal with
  | H : ?x = _ |- context [match ?x with _ => _ end] => rewrite H
  end.

(** Follows a run as far as the facts of the context decide its tests. *)
Ltac run := repeat (exec; settle); exec.

Lemma success_test code :
  success code -> ((200 <=? code) && (code <=? 299))%Z = true.
Proof.
  unfold success. intros [Hlo Hhi].
  apply andb_true_intro. split; apply Z.leb_le; assumption.
Qed.

Lemma failure_test code :
  ~ success code -> ((200 <=? code) && (code <=? 299))%Z = false.
Proof.
  unfold success. intros Hno. apply andb_false_iff.
  destruct (Z.leb_spec 200 code); [right | left; reflexivity].
  apply Z.leb_gt. lia.
Qed.

Lemma contains_present (w : world) k d :
  pending_sms w !! k = Some d ->
  bool_decide (is_Some (pending_sms w !! k)) = true.
Proof. intros ->. by apply bool_decide_eq_true_2. Qed.

Lemma contains_absent (w : world) k :
  pending_sms w !! k = None ->
  bool_decide (is_Some (pending_sms w !! k)) = false.
Proof. intros ->. apply bool_decide_eq_false_2. by intros [? ?]. Qed.

(** *** Computations that leave an observation of the world alone *)

Definition keeps {A T} (obs : world -> T) (c : M A) : Prop :=
  forall w, obs (snd (c w)) = obs w.

Lemma keeps_ret {A T} (obs : world -> T) (a : A) : keeps obs (ret a).
Proof. intros w. reflexivity. Qed.

Lemma keeps_raise {A T} (obs : world -> T) e : keeps obs (@raise A e).
Proof. intros w. reflexivity. Qed.

Lemma keeps_lift {A T} (obs : world -> T) (r : exn + A) : keeps obs (lift r).
Proof. destruct r; intros w; reflexivity. Qed.

Lemma keeps_bind {A B T} (obs : world -> T) (c : M A) (k : A -> M B) :
  keeps obs c -> (forall a, keeps obs (k a)) -> keeps obs (bind c k).
Proof.
  intros Hc Hk w. unfold bind. specialize (Hc w).
  destruct (c w) as [[e | a] w1]; cbn in *.
  - exact Hc.
  - rewrite Hk. exact Hc.
Qed.

Lemma keeps_try_except {A T} (obs : world -> T) (body : M A) handler :
  keeps obs body -> (forall e, keeps obs (handler e)) ->
  keeps obs (try_except body handler).
Proof.
  intros Hb Hh w. unfold try_except. specialize (Hb w).
  destruct (body w) as [[e | a] w1]; cbn in *.
  - rewrite Hh. exact Hb.
  - exact Hb.
Qed.

Lemma keeps_except_opennode {A T} (obs : world -> T) e :
  keeps obs (@except_opennode A e).
Proof. intros w. reflexivity. Qed.

Lemma keeps_not_found {A T} (obs : world -> T) charge_id :
  keeps obs (@not_found A charge_id).
Proof. intros w. reflexivity. Qed.

Lemma keeps_registry_len {T} (obs : world -> T) : keeps obs registry_len.
Proof. intros w. reflexivity. Qed.

Lemma keeps_registry_contains {T} (obs : world -> T) k :
  keeps obs (registry_contains k).
Proof. intros w. reflexivity. Qed.

Lemma keeps_registry_getitem {T} (obs : world -> T) charge_id :
  keeps obs (registry_getitem charge_id).
Proof. intros w. unfold registry_getitem. by destruct (_ !! _). Qed.

Lemma keeps_registry_getfield {T} (obs : world -> T) charge_id field :
  keeps obs (registry_getfield charge_id field).
Proof.
  intros w. unfold registry_getfield.
  destruct (_ !! _); [destruct (Dict.get _ _) |]; reflexivity.
Qed.

Lemma keeps_registry_getfield_or_none {T} (obs : world -> T) charge_id field :
  keeps obs (registry_getfield_or_none charge_id field).
Proof. intros w. unfold registry_getfield_or_none. by destruct (_ !! _). Qed.

Lemma keeps_arrive {T} (obs : world -> T) net : keeps obs (arrive net).
Proof. destruct net; intros w; reflexivity. Qed.

Lemma keeps_raise_for_status {T} (obs : world -> T) r :
  keeps obs (raise_for_status r).
Proof. intros w. unfold raise_for_status. by destruct (_ && _). Qed.

Lemma keeps_response_json {T} (obs : world -> T) r : keeps obs (response_json r).
Proof. intros w. unfold response_json. by destruct (document r). Qed.

Lemma delivered_app l1 l2 : delivered (l1 ++ l2) = delivered l1 + delivered l2.
Proof. unfold delivered. by rewrite List.filter_app, length_app. Qed.

(** Sending a request does not touch the registry... *)
Lemma send_keeps_registry ev : keeps pending_sms (send ev).
Proof. intros w. reflexivity. Qed.

(** ... and an HTTP request is no delivery. *)
Lemma send_keeps_deliveries ev :
  is_twilio_create ev = false -> keeps deliveries (send ev).
Proof.
  intros Hev w. unfold deliveries, send. cbn [snd outbound].
  rewrite delivered_app. unfold delivered at 2. cbn. rewrite Hev. cbn. lia.
Qed.

Lemma setitem_keeps_deliveries k d : keeps deliveries (registry_setitem k d).
Proof. intros w. reflexivity. Qed.

Lemma setfield_keeps_deliveries charge_id field v :
  keeps deliveries (registry_setfield charge_id field v).
Proof. intros w. unfold registry_setfield. by destruct (_ !! _). Qed.

Create HintDb keeps discriminated.
#[local] Hint Resolve keeps_ret keeps_raise keeps_lift keeps_except_opennode
  keeps_not_found keeps_registry_len keeps_registry_contains
  keeps_registry_getitem keeps_registry_getfield
  keeps_registry_getfield_or_none keeps_arrive keeps_raise_for_status
  keeps_response_json send_keeps_registry send_keeps_deliveries
  setitem_keeps_deliveries setfield_keeps_deliveries : keeps.

(** Walks down a tool body, leaving the steps no hint covers. *)
Ltac keeps_walk :=
  repeat (intros;
    lazymatch goal with
    | |- keeps _ (bind _ _) => apply keeps_bind
    | |- keeps _ (try_except _ _) => apply keeps_try_except
    | |- keeps _ (if ?b then _ else _) => destruct b
    | |- keeps _ (match ?x with _ => _ end) => destruct x
    | |- _ => solve [auto with keeps]
    end).

Lemma client_post_keeps_registry net url payload headers :
  keeps pending_sms (client_post net url payload headers).
Proof. unfold client_post. keeps_walk. Qed.

Lemma client_get_keeps_registry net url headers :
  keeps pending_sms (client_get net url headers).
Proof. unfold client_get. keeps_walk. Qed.

Lemma client_post_keeps_deliveries net url payload headers :
  keeps deliveries (client_post net url payload headers).
Proof. unfold client_post. keeps_walk. Qed.

Lemma client_get_keeps_deliveries net url headers :
  keeps deliveries (client_get net url headers).
Proof. unfold client_get. keeps_walk. Qed.

Lemma messages_create_keeps_registry tw twilio body from_ to :
  keeps pending_sms (messages_create tw twilio body from_ to).
Proof. unfold messages_create. keeps_walk. Qed.

#[local] Hint Resolve client_post_keeps_registry client_get_keeps_registry
  client_post_keeps_deliveries client_get_keeps_deliveries
  messages_create_keeps_registry : keeps.

(** The three tools that only look things up. *)
Lemma get_sms_qr_keeps {T} (obs : world -> T) charge_id :
  keeps obs (get_sms_qr charge_id).
Proof. unfold get_sms_qr. keeps_walk. Qed.

Lemma get_sms_qr_with_link_keeps {T} (obs : world -> T) charge_id :
  keeps obs (get_sms_qr_with_link charge_id).
Proof. unfold get_sms_qr_with_link. keeps_walk. Qed.

Lemma check_charge_status_keeps_registry env net charge_id :
  keeps pending_sms (check_charge_status env net charge_id).
Proof. unfold check_charge_status. keeps_walk. Qed.

Lemma check_charge_status_keeps_deliveries env net charge_id :
  keeps deliveries (check_charge_status env net charge_id).
Proof. unfold check_charge_status. keeps_walk. Qed.

Lemma create_sms_payment_keeps_deliveries env net phone_number message user_id :
  keeps deliveries (create_sms_payment env net phone_number message user_id).
Proof. unfold create_sms_payment. keeps_walk. Qed.

(** *** The shape of the registry *)

Definition preserves {A} (c : M A) : Prop :=
  forall w, registry_ok w -> registry_ok (snd (c w)).

Lemma keeps_preserves {A} (c : M A) : keeps pending_sms c -> preserves c.
Proof. intros Hc w Hw k d. rewrite Hc. apply Hw. Qed.

Lemma preserves_bind {A B} (c : M A) (k : A -> M B) :
  preserves c -> (forall a, preserves (k a)) -> preserves (bind c k).
Proof.
  intros Hc Hk w Hw. unfold bind. specialize (Hc w Hw).
  destruct (c w) as [[e | a] w1]; cbn in *.
  - exact Hc.
  - apply Hk, Hc.
Qed.

Lemma preserves_try_except {A} (body : M A) handler :
  preserves body -> (forall e, preserves (handler e)) ->
  preserves (try_except body handler).
Proof.
  intros Hb Hh w Hw. unfold try_except. specialize (Hb w Hw).
  destruct (body w) as [[e | a] w1]; cbn in *.
  - apply Hh, Hb.
  - exact Hb.
Qed.

(** [create_sms_payment] stores a record of the expected shape. *)
Lemma preserves_setitem k user_id phone_number message price invoice hosted :
  preserves
    (registry_setitem k
       [("user_id", PStr user_id);
        ("phone_number", PStr phone_number);
        ("message", PStr message);
        ("amount", PFloat price);
        ("lightning_invoice", PJson invoice);
        ("hosted_checkout_url", PJson hosted);
        ("status", PStr "pending");
        ("sent", PBool false)]).
Proof.
  intros w Hw k' d. unfold registry_setitem. cbn.
  rewrite lookup_insert. case_decide.
  - intros [= <-].
    by exists user_id, phone_number, message, price, invoice, hosted, None.
  - apply Hw.
Qed.

Lemma mark_sent_request_info user_id phone_number message price invoice hosted
    receipt sid :
  mark_sent sid
    (request_info user_id phone_number message price invoice hosted receipt)
  = request_info user_id phone_number message price invoice hosted (Some sid).
Proof. destruct receipt; reflexivity. Qed.

Lemma mark_sent_well_formed sid d : well_formed d -> well_formed (mark_sent sid d).
Proof.
  intros (user_id & phone_number & message & price & invoice & hosted & receipt & ->).
  rewrite mark_sent_request_info.
  by exists user_id, phone_number, message, price, invoice, hosted, (Some sid).
Qed.

(** Run together, the three assignments replace the record by its marked
    version; they raise at once when the charge is not registered. *)
Lemma mark_sent_run {A} charge_id sid (rest : M A) w :
  (registry_setfield charge_id "sent" (PBool true) ;;
   registry_setfield charge_id "status" (PStr "completed") ;;
   registry_setfield charge_id "sms_sid" (PJson sid) ;;
   rest) w
  = match pending_sms w !! KStr charge_id with
    | None => (inl (KeyError charge_id), w)
    | Some d =>
        rest (World (<[KStr charge_id := mark_sent sid d]> (pending_sms w))
                (outbound w))
    end.
Proof.
  unfold bind, registry_setfield.
  destruct (pending_sms w !! KStr charge_id) as [d |] eqn:Hd; [| reflexivity].
  cbn [pending_sms outbound]. rewrite lookup_insert_eq.
  cbn [pending_sms outbound]. rewrite lookup_insert_eq.
  cbn [pending_sms outbound]. rewrite !insert_insert_eq. reflexivity.
Qed.

Lemma preserves_mark_sent {A} charge_id sid (rest : M A) :
  preserves rest ->
  preserves
    (registry_setfield charge_id "sent" (PBool true) ;;
     registry_setfield charge_id "status" (PStr "completed") ;;
     registry_setfield charge_id "sms_sid" (PJson sid) ;;
     rest).
Proof.
  intros Hrest w Hw. rewrite mark_sent_run.
  destruct (pending_sms w !! KStr charge_id) as [d |] eqn:Hd; [| exact Hw].
  apply Hrest. intros k d'. cbn. rewrite lookup_insert. case_decide.
  - intros [= <-]. apply mark_sent_well_formed. by apply (Hw (KStr charge_id)).
  - apply Hw.
Qed.

Ltac preserves_walk :=
  repeat (intros;
    lazymatch goal with
    | |- preserves (bind (registry_setfield _ _ _) _) => apply preserves_mark_sent
    | |- preserves (bind (registry_setitem _ _) _) =>
        apply preserves_bind; [apply preserves_setitem |]
    | |- preserves (bind _ _) => apply preserves_bind
    | |- preserves (try_except _ _) => apply preserves_try_except
    | |- preserves (if ?b then _ else _) => destruct b
    | |- preserves (match ?x with _ => _ end) => destruct x
    | |- _ => solve [apply keeps_preserves; auto with keeps]
    end).

Lemma create_sms_payment_preserves env net phone_number message user_id :
  preserves (create_sms_payment env net phone_number message user_id).
Proof. unfold create_sms_payment. preserves_walk. Qed.

Lemma pay_and_send_sms_preserves env net tw charge_id :
  preserves (pay_and_send_sms env net tw charge_id).
Proof. unfold pay_and_send_sms. preserves_walk. Qed.

Lemma serve_preserves c w : registry_ok w -> registry_ok (serve c w).
Proof.
  destruct c; cbn [serve].
  - apply create_sms_payment_preserves.
  - apply keeps_preserves, get_sms_qr_keeps.
  - apply keeps_preserves, get_sms_qr_with_link_keeps.
  - apply pay_and_send_sms_preserves.
  - apply keeps_preserves, check_charge_status_keeps_registry.
Qed.

(** Every record of a reachable registry was written by
    [create_sms_payment] and, at most, marked by [pay_and_send_sms]. *)
Lemma reachable_registry_ok w : reachable w -> registry_ok w.
Proof.
  induction 1 as [| c w _ IH].
  - intros k d. cbn. by rewrite lookup_empty.
  - by apply serve_preserves.
Qed.

Lemma serve_all_reachable cs : reachable (serve_all cs).
Proof.
  unfold serve_all. generalize startup reachable_startup.
  induction cs as [| c cs IH]; intros w Hw; cbn.
  - exact Hw.
  - apply IH. by constructor.
Qed.

(** ** Lookups of an unknown charge *)

(** C5.  For a charge id that is not a key of the registry, each of the
    four lookup-based tools ([get_sms_qr], [get_sms_qr_with_link],
    [pay_and_send_sms], [check_charge_status]) raises the not-found
    error [ValueError("Charge <id> not found")], and does so before
    touching the world. *)
Theorem unknown_charge_not_found env net tw charge_id w :
  pending_sms w !! KStr charge_id = None ->
  get_sms_qr charge_id w = (inl (NotFound charge_id), w)
  /\ get_sms_qr_with_link charge_id w = (inl (NotFound charge_id), w)
  /\ pay_and_send_sms env net tw charge_id w = (inl (NotFound charge_id), w)
  /\ check_charge_status env net charge_id w = (inl (NotFound charge_id), w).
Proof.
  intros Habsent. apply contains_absent in Habsent.
  repeat split; run; reflexivity.
Qed.

(** ** Fulfilment *)

(** What the query of [pay_and_send_sms] and [check_charge_status] does
    when the provider answers: the request is logged, the document and
    its [data] member are at hand. *)
Lemma success_of_answers net charge data :
  answers net charge data ->
  exists code body,
    net = HttpResponse code body (Some charge)
    /\ ((200 <=? code) && (code <=? 299))%Z = true
    /\ subscript charge "data" = inr data.
Proof.
  intros (code & body & -> & Hcode & Hdata).
  exists code, body. auto using success_test.
Qed.

(** C7.  For a registered charge whose provider query reports a status
    other than the literal "paid", [pay_and_send_sms] returns the report
    [paid=False, sms_sent=False] carrying that status, the registry is
    exactly what it was (this entry and every other one), and the
    Delivery Adapter is not invoked: the only request sent is the query. *)
Theorem unpaid_report_without_effects env net tw charge_id w d headers status :
  pending_sms w !! KStr charge_id = Some d ->
  get_opennode_headers env = inr headers ->
  reports net status ->
  ne_str status "paid" = true ->
  let run := pay_and_send_sms env net tw charge_id w in
  fst run =
    inr [("charge_id", PStr charge_id);
         ("status", PJson status);
         ("paid", PBool false);
         ("sms_sent", PBool false);
         ("message",
          PStr ("Payment not received yet (status: " +:+ py_str status +:+ ")"))]
  /\ pending_sms (snd run) = pending_sms w
  /\ deliveries (snd run) = deliveries w
  /\ outbound (snd run) =
       (outbound w ++ [HttpGet (charge_url charge_id) headers])%list.
Proof.
  intros Hd Hheaders (charge & data & Hnet & Hstatus) Hne.
  apply success_of_answers in Hnet as (code & body & -> & Hcode & Hdata).
  assert (Hrun : pay_and_send_sms env (HttpResponse code body (Some charge)) tw charge_id w
    = (inr [("charge_id", PStr charge_id);
            ("status", PJson status);
            ("paid", PBool false);
            ("sms_sent", PBool false);
            ("message",
             PStr ("Payment not received yet (status: " +:+ py_str status +:+ ")"))],
       World (pending_sms w)
         (outbound w ++ [HttpGet (charge_url charge_id) headers]))).
  { pose proof (contains_present _ _ _ Hd) as Hpresent.
    unfold charge_url. run. reflexivity. }
  cbv zeta. rewrite Hrun. cbn [fst snd pending_sms outbound].
  repeat split.
  unfold deliveries. cbn [outbound]. rewrite delivered_app. cbn. lia.
Qed.

(** *** Reading a record after an assignment to it *)

Lemma get_set_eq {V} k (v : V) d : Dict.get k (Dict.set k v d) = Some v.
Proof.
  induction d as [| [k' v'] d IH]; cbn.
  - by rewrite decide_True.
  - destruct (decide (k' = k)) as [-> | Hne]; cbn.
    + by rewrite decide_True.
    + by rewrite decide_False.
Qed.

Lemma get_set_ne {V} k k0 (v : V) d :
  k0 <> k -> Dict.get k (Dict.set k0 v d) = Dict.get k d.
Proof.
  intros Hne. induction d as [| [k' v'] d IH]; cbn.
  - by rewrite decide_False.
  - destruct (decide (k' = k0)) as [-> | Hne']; cbn.
    + by rewrite !decide_False.
    + destruct (decide (k' = k)); [reflexivity | exact IH].
Qed.

Lemma get_mark_sent_other k sid d :
  k <> "sent" -> k <> "status" -> k <> "sms_sid" ->
  Dict.get k (mark_sent sid d) = Dict.get k d.
Proof.
  intros H1 H2 H3. unfold mark_sent.
  rewrite !get_set_ne by congruence. reflexivity.
Qed.

Lemma get_mark_sent_sid sid d : Dict.get "sms_sid" (mark_sent sid d) = Some (PJson sid).
Proof. apply get_set_eq. Qed.

Lemma dot_get_after_subscript v k0 x k :
  subscript v k0 = inr x -> dot_get v k = inr (member_or_none v k).
Proof. destruct v; cbn; try discriminate. reflexivity. Qed.

(** *** The paths of [pay_and_send_sms] through a paid charge *)

Lemma paid_is_paid : ne_str (JStr "paid") "paid" = false.
Proof. reflexivity. Qed.

(** The provider reports "paid" and the record is not marked as sent: the
    message goes out to the Delivery Adapter.  When the adapter raises,
    the exception leaves the tool and the registry is as before; when it
    returns a receipt id, the record is marked with it. *)
Lemma pay_delivers env net tw charge_id w d headers charge data twilio
    from_number sent body to :
  pending_sms w !! KStr charge_id = Some d ->
  Dict.get "sent" d = Some sent -> truthy sent = false ->
  Dict.get "message" d = Some body ->
  Dict.get "phone_number" d = Some to ->
  get_opennode_headers env = inr headers ->
  answers net charge data ->
  subscript data "status" = inr (JStr "paid") ->
  get_twilio_client env = inr twilio ->
  env !! "TWILIO_PHONE_NUMBER" = Some from_number ->
  unset (Some from_number) = false ->
  let log :=
    (outbound w
     ++ [HttpGet (charge_url charge_id) headers;
         TwilioCreate (account_sid twilio) (auth_token twilio)
           body (PStr from_number) to])%list in
  pay_and_send_sms env net tw charge_id w =
    match tw with
    | TwilioRaises e => (inl (surfaced e), World (pending_sms w) log)
    | TwilioMessage sid =>
        (inr [("charge_id", PStr charge_id);
              ("status", PStr "completed");
              ("paid", PBool true);
              ("sms_sent", PBool true);
              ("sms_sid", PJson sid);
              ("to", to);
              ("from", PStr from_number);
              ("paid_at", PJson (member_or_none data "paid_at"));
              ("message", PStr "Payment received and SMS sent successfully!")],
         World (<[KStr charge_id := mark_sent sid d]> (pending_sms w)) log)
    end.
Proof.
  intros Hd Hsent Hfalse Hbody Hto Hheaders Hnet Hstatus Htwilio Hfrom Hset log.
  apply success_of_answers in Hnet as (code & text & -> & Hcode & Hdata).
  pose proof (contains_present _ _ _ Hd) as Hpresent.
  pose proof (dot_get_after_subscript _ _ _ "paid_at" Hstatus) as Hpaid_at.
  pose proof paid_is_paid as Hpaid.
  assert (Hnumber : unset (env !! "TWILIO_PHONE_NUMBER") = false)
    by (rewrite Hfrom; exact Hset).
  subst log. unfold charge_url. run.
  rewrite Hfrom, <- app_assoc. cbn [app default].
  destruct tw as [e | sid]; [reflexivity |].
  repeat (exec;
    first [settle | rewrite lookup_insert_eq
          | fold (mark_sent sid d); rewrite get_mark_sent_other by discriminate ]).
  exec. rewrite !insert_insert_eq. reflexivity.
Qed.

(** The provider reports "paid" and the record is already marked as sent:
    nothing is sent and nothing is written; the report carries no receipt
    id. *)
Lemma pay_already_sent env net tw charge_id w d headers sent :
  pending_sms w !! KStr charge_id = Some d ->
  Dict.get "sent" d = Some sent -> truthy sent = true ->
  get_opennode_headers env = inr headers ->
  reports net (JStr "paid") ->
  pay_and_send_sms env net tw charge_id w =
    (inr [("charge_id", PStr charge_id);
          ("status", PStr "completed");
          ("paid", PBool true);
          ("sms_sent", PBool true);
          ("message", PStr "SMS already sent for this payment")],
     World (pending_sms w) (outbound w ++ [HttpGet (charge_url charge_id) headers])).
Proof.
  intros Hd Hsent Htrue Hheaders (charge & data & Hnet & Hstatus).
  apply success_of_answers in Hnet as (code & text & -> & Hcode & Hdata).
  pose proof (contains_present _ _ _ Hd) as Hpresent.
  pose proof paid_is_paid as Hpaid.
  unfold charge_url. run. reflexivity.
Qed.

Lemma get_mark_sent_sent sid d : Dict.get "sent" (mark_sent sid d) = Some (PBool true).
Proof.
  unfold mark_sent. rewrite !get_set_ne by discriminate. apply get_set_eq.
Qed.

Lemma delivered_after_delivery log url headers sid token body from_ to :
  delivered (log ++ [HttpGet url headers; TwilioCreate sid token body from_ to])
  = S (delivered log).
Proof. rewrite delivered_app. cbn. lia. Qed.

Lemma delivered_after_query log url headers :
  delivered (log ++ [HttpGet url headers]) = delivered log.
Proof. rewrite delivered_app. cbn. lia. Qed.

(** A well-formed record that is not marked as sent is as
    [create_sms_payment] wrote it. *)
Lemma unsent_record d :
  well_formed d -> Dict.get "sent" d = Some (PBool false) ->
  exists user_id phone_number message price invoice hosted,
    d = request_info user_id phone_number message price invoice hosted None.
Proof.
  intros (user_id & phone_number & message & price & invoice & hosted & receipt & ->).
  destruct receipt as [sid |]; [discriminate |]. intros _.
  by exists user_id, phone_number, message, price, invoice, hosted.
Qed.

(** C3.  A registered charge is paid and its message has not been sent.
    When the send of the Delivery Adapter raises, [pay_and_send_sms]
    raises too and the registry is exactly what it was: the record still
    has [sent=False], status "pending" and no [sms_sid].  A following
    [pay_and_send_sms] for which the provider again reports "paid"
    therefore invokes the Delivery Adapter once more. *)
Theorem failed_delivery_is_retried env net tw net' tw' charge_id w d headers
    twilio from_number e :
  reachable w ->
  pending_sms w !! KStr charge_id = Some d ->
  Dict.get "sent" d = Some (PBool false) ->
  get_opennode_headers env = inr headers ->
  get_twilio_client env = inr twilio ->
  env !! "TWILIO_PHONE_NUMBER" = Some from_number ->
  unset (Some from_number) = false ->
  reports net (JStr "paid") ->
  reports net' (JStr "paid") ->
  tw = TwilioRaises e ->
  let run1 := pay_and_send_sms env net tw charge_id w in
  let run2 := pay_and_send_sms env net' tw' charge_id (snd run1) in
  fst run1 = inl (surfaced e)
  /\ pending_sms (snd run1) = pending_sms w
  /\ pending_sms (snd run1) !! KStr charge_id = Some d
  /\ Dict.get "status" d = Some (PStr "pending")
  /\ Dict.get "sms_sid" d = None
  /\ deliveries (snd run1) = S (deliveries w)
  /\ deliveries (snd run2) = S (deliveries (snd run1)).
Proof.
  intros Hreach Hd Hsent Hheaders Htwilio Hfrom Hset
    (charge & data & Hnet & Hstatus) (charge' & data' & Hnet' & Hstatus') ->.
  destruct (unsent_record d) as
    (user_id & phone_number & message & price & invoice & hosted & Hshape);
    [by apply (reachable_registry_ok w Hreach (KStr charge_id)) | exact Hsent |].
  assert (Hbody : Dict.get "message" d = Some (PStr message)) by (by subst d).
  assert (Hto : Dict.get "phone_number" d = Some (PStr phone_number)) by (by subst d).
  pose proof (pay_delivers env net (TwilioRaises e) charge_id w d _ _ _ _ _ _ _ _
    Hd Hsent eq_refl Hbody Hto Hheaders Hnet Hstatus Htwilio Hfrom Hset) as Hrun1.
  cbv zeta in Hrun1. cbv zeta. rewrite Hrun1. cbn [fst snd].
  set (w1 := World _ _).
  pose proof (pay_delivers env net' tw' charge_id w1 d _ _ _ _ _ _ _ _
    Hd Hsent eq_refl Hbody Hto Hheaders Hnet' Hstatus' Htwilio Hfrom Hset) as Hrun2.
  cbv zeta in Hrun2.
  split; [reflexivity |]. split; [reflexivity |]. split; [exact Hd |].
  split; [by subst d |]. split; [by subst d |].
  split.
  - unfold deliveries. cbn [w1 outbound]. apply delivered_after_delivery.
  - rewrite Hrun2. unfold deliveries.
    destruct tw'; cbn [snd outbound]; apply delivered_after_delivery.
Qed.

(** C1, as the code has it.  A registered, paid charge gets its message
    delivered by a first [pay_and_send_sms], whose report carries
    [sms_sent=True] and the receipt id.  A second call for which the
    provider still reports "paid" returns [sms_sent=True] with status
    "completed" but no [sms_sid] field: the receipt id stays recorded in
    the registry entry only, which the second call leaves as it is.  The
    Delivery Adapter is invoked once across both calls. *)
Theorem second_fulfilment_sends_nothing env net tw env' net' tw' charge_id w d
    headers headers' twilio from_number sid :
  reachable w ->
  pending_sms w !! KStr charge_id = Some d ->
  Dict.get "sent" d = Some (PBool false) ->
  get_opennode_headers env = inr headers ->
  get_twilio_client env = inr twilio ->
  env !! "TWILIO_PHONE_NUMBER" = Some from_number ->
  unset (Some from_number) = false ->
  reports net (JStr "paid") ->
  tw = TwilioMessage sid ->
  get_opennode_headers env' = inr headers' ->
  reports net' (JStr "paid") ->
  let run1 := pay_and_send_sms env net tw charge_id w in
  let run2 := pay_and_send_sms env' net' tw' charge_id (snd run1) in
  (exists report1,
     fst run1 = inr report1
     /\ Dict.get "sms_sent" report1 = Some (PBool true)
     /\ Dict.get "sms_sid" report1 = Some (PJson sid))
  /\ fst run2 =
       inr [("charge_id", PStr charge_id);
            ("status", PStr "completed");
            ("paid", PBool true);
            ("sms_sent", PBool true);
            ("message", PStr "SMS already sent for this payment")]
  /\ pending_sms (snd run2) = pending_sms (snd run1)
  /\ (exists d2,
        pending_sms (snd run2) !! KStr charge_id = Some d2
        /\ Dict.get "sms_sid" d2 = Some (PJson sid))
  /\ deliveries (snd run2) = S (deliveries w).
Proof.
  intros Hreach Hd Hsent Hheaders Htwilio Hfrom Hset
    (charge & data & Hnet & Hstatus) -> Hheaders' Hnet'.
  destruct (unsent_record d) as
    (user_id & phone_number & message & price & invoice & hosted & Hshape);
    [by apply (reachable_registry_ok w Hreach (KStr charge_id)) | exact Hsent |].
  assert (Hbody : Dict.get "message" d = Some (PStr message)) by (by subst d).
  assert (Hto : Dict.get "phone_number" d = Some (PStr phone_number)) by (by subst d).
  pose proof (pay_delivers env net (TwilioMessage sid) charge_id w d _ _ _ _ _ _ _ _
    Hd Hsent eq_refl Hbody Hto Hheaders Hnet Hstatus Htwilio Hfrom Hset) as Hrun1.
  cbv zeta in Hrun1. cbv zeta. rewrite Hrun1. cbn [fst snd].
  set (w1 := World _ _).
  assert (Hd1 : pending_sms w1 !! KStr charge_id = Some (mark_sent sid d))
    by apply lookup_insert_eq.
  rewrite (pay_already_sent env' net' tw' charge_id w1 _ _ _
             Hd1 (get_mark_sent_sent sid d) eq_refl Hheaders' Hnet').
  cbn [fst snd pending_sms].
  split; [eexists; split; [reflexivity | split; reflexivity] |].
  split; [reflexivity |]. split; [reflexivity |].
  split.
  - exists (mark_sent sid d). split; [exact Hd1 | apply get_mark_sent_sid].
  - unfold deliveries. cbn [w1 outbound].
    rewrite delivered_after_query. apply delivered_after_delivery.
Qed.

(** ** The registry invariant *)

(** C9.  In every reachable world, each record is in one of two states:
    as created ([sent=False], status "pending", no [sms_sid]) or as
    marked after a delivery ([sent=True], status "completed", the key
    [sms_sid] present, with the sid of Twilio's message, whatever it is, as
    its value).  Hence [sent] is [True] exactly when the status is
    "completed", and [sms_sid] is present exactly when [sent] is [True]. *)
Theorem sent_status_receipt_agree w k d :
  reachable w ->
  pending_sms w !! k = Some d ->
  (Dict.get "sent" d = Some (PBool true)
     <-> Dict.get "status" d = Some (PStr "completed"))
  /\ (is_Some (Dict.get "sms_sid" d) <-> Dict.get "sent" d = Some (PBool true))
  /\ ((Dict.get "sent" d = Some (PBool false)
       /\ Dict.get "status" d = Some (PStr "pending")
       /\ Dict.get "sms_sid" d = None)
      \/ (Dict.get "sent" d = Some (PBool true)
          /\ Dict.get "status" d = Some (PStr "completed")
          /\ exists sid, Dict.get "sms_sid" d = Some (PJson sid))).
Proof.
  intros Hreach Hd.
  destruct (reachable_registry_ok w Hreach k d Hd) as
    (user_id & phone_number & message & price & invoice & hosted & receipt & ->).
  destruct receipt as [sid |].
  - split; [split; reflexivity |]. split; [split; [reflexivity | by eexists] |].
    right. split; [reflexivity |]. split; [reflexivity | by exists sid].
  - split; [split; discriminate |].
    split; [split; [intros [? [=]] | discriminate] |].
    left. repeat split.
Qed.

(** ** Status and presentation *)

(** C8.  For a registered charge, [check_charge_status] never changes
    the registry and never invokes the Delivery Adapter, whatever the
    provider answers.  When the provider query succeeds, the result is
    made of the record's [sent], [phone_number] and [amount] fields and
    of the status, [created_at] and [paid_at] of the query, which this
    call has sent. *)
Theorem check_charge_status_is_read_only env net charge_id w d :
  pending_sms w !! KStr charge_id = Some d ->
  let run := check_charge_status env net charge_id w in
  pending_sms (snd run) = pending_sms w
  /\ deliveries (snd run) = deliveries w
  /\ forall headers charge data payment_status created_at sms_sent phone_number amount,
       get_opennode_headers env = inr headers ->
       answers net charge data ->
       subscript data "status" = inr payment_status ->
       subscript data "created_at" = inr created_at ->
       Dict.get "sent" d = Some sms_sent ->
       Dict.get "phone_number" d = Some phone_number ->
       Dict.get "amount" d = Some amount ->
       fst run =
         inr [("charge_id", PStr charge_id);
              ("payment_status", PJson payment_status);
              ("sms_sent", sms_sent);
              ("phone_number", phone_number);
              ("amount", amount);
              ("created_at", PJson created_at);
              ("paid_at", PJson (member_or_none data "paid_at"))]
       /\ outbound (snd run) =
            (outbound w ++ [HttpGet (charge_url charge_id) headers])%list.
Proof.
  intros Hd run. subst run.
  split; [apply check_charge_status_keeps_registry |].
  split; [apply check_charge_status_keeps_deliveries |].
  intros headers charge data payment_status created_at sms_sent phone_number amount
    Hheaders Hnet Hstatus Hcreated Hsent Hphone Hamount.
  apply success_of_answers in Hnet as (code & text & -> & Hcode & Hdata).
  pose proof (contains_present _ _ _ Hd) as Hpresent.
  pose proof (dot_get_after_subscript _ _ _ "paid_at" Hstatus) as Hpaid_at.
  unfold charge_url. run. split; reflexivity.
Qed.

Lemma html_snippet_returns deep_link hosted :
  (truthy hosted = true -> exists url, hosted = PStr url) ->
  exists html, html_snippet deep_link hosted = inr html.
Proof.
  intros Hstr. unfold html_snippet.
  destruct (truthy hosted) eqn:Htruthy; [| by eexists].
  destruct Hstr as [url ->]; [reflexivity |]. by eexists.
Qed.

(** C10.  For a registered charge, whenever [get_sms_qr_with_link]
    returns, its [deep_link] is "lightning:" followed by the stored
    invoice quoted with [safe=''], and its [hosted_checkout_url] is the
    one stored in the record; nothing in the world changes.  It does
    return when the stored invoice is a str the QR pipeline accepts and
    the stored checkout URL is a str or false. *)
Theorem deep_link_quotes_stored_invoice charge_id w d :
  pending_sms w !! KStr charge_id = Some d ->
  let hosted := default PNone (Dict.get "hosted_checkout_url" d) in
  (forall result w',
     get_sms_qr_with_link charge_id w = (inr result, w') ->
     exists invoice,
       Dict.get "lightning_invoice" d = Some (PStr invoice)
       /\ Dict.get "deep_link" result
          = Some (PStr ("lightning:" +:+ quote_bytes invoice ""))
       /\ Dict.get "hosted_checkout_url" result = Some hosted
       /\ w' = w)
  /\ (forall invoice png,
        Dict.get "lightning_invoice" d = Some (PStr invoice) ->
        qr_png (PStr invoice) = inr png ->
        (truthy hosted = true -> exists url, hosted = PStr url) ->
        exists html,
          get_sms_qr_with_link charge_id w =
            (inr [("deep_link", PStr ("lightning:" +:+ quote_bytes invoice ""));
                  ("hosted_checkout_url", hosted);
                  ("mobile_html", PStr html);
                  ("instructions",
                   PStr "Scan QR separately, or tap deep_link to open a wallet.")],
             w)).
Proof.
  intros Hd hosted. subst hosted.
  pose proof (contains_present _ _ _ Hd) as Hpresent.
  split.
  - intros result w'.
    run.
    destruct (Dict.get "lightning_invoice" d) as [invoice |]; [| by intros [=]].
    exec. unfold generate_qr_code.
    destruct (qr_png invoice) as [e | png]; [by intros [=] |].
    exec. unfold generate_lightning_deep_link.
    destruct invoice as [[| | | invoice | |] |]; try (by intros [=]).
    cbn [quote]. run.
    destruct (html_snippet _ _) as [e | html]; [by intros [=] |].
    exec. intros [= <- <-]. exists invoice. repeat split.
  - intros invoice png Hinvoice Hpng Hstr.
    destruct (html_snippet_returns ("lightning:" +:+ quote_bytes invoice "") _ Hstr)
      as [html Hhtml].
    exists html.
    run. unfold generate_qr_code. run.
    unfold generate_lightning_deep_link. cbn [quote]. run. reflexivity.
Qed.

(** ** Charge creation *)

(** The provider answers the creation request with a document from which
    the id, the invoice and the checkout URL can be read, and the id is
    hashable: the record is written under the id.  Only then is
    [expires_at] read; when that lookup raises, the tool raises with the
    record already in the registry. *)
Lemma create_stores env net phone_number message user_id w price headers charge
    data charge_id invoice_obj lightning_invoice hosted k :
  get_sms_price env = inr price ->
  get_opennode_headers env = inr headers ->
  answers net charge data ->
  subscript data "id" = inr charge_id ->
  subscript data "lightning_invoice" = inr invoice_obj ->
  subscript invoice_obj "payreq" = inr lightning_invoice ->
  subscript data "hosted_checkout_url" = inr hosted ->
  hashable charge_id = inr k ->
  create_sms_payment env net phone_number message user_id w =
    (match subscript invoice_obj "expires_at" with
     | inr expires_at =>
         inr [("charge_id", PJson charge_id);
              ("amount", PFloat price);
              ("currency", PStr "USD");
              ("phone_number", PStr phone_number);
              ("lightning_invoice", PJson lightning_invoice);
              ("hosted_checkout_url", PJson hosted);
              ("expires_at", PJson expires_at);
              ("instructions",
               PStr "Call get_sms_qr(charge_id) to get QR code, then pay_and_send_sms(charge_id)")]
     | inl e => inl (surfaced e)
     end,
     World
       (<[k := request_info user_id phone_number message price
                 lightning_invoice hosted None]> (pending_sms w))
       (outbound w
        ++ [HttpPost charges_url
              (charge_payload price phone_number user_id (size (pending_sms w)))
              headers])).
Proof.
  intros Hprice Hheaders Hnet Hid Hinvoice Hpayreq Hhosted Hkey.
  apply success_of_answers in Hnet as (code & text & -> & Hcode & Hdata).
  unfold charges_url, charge_payload. run.
  destruct (subscript invoice_obj "expires_at"); reflexivity.
Qed.

(** C2, as the code has it.  [create_sms_payment] makes no check for an
    existing key: when the provider returns an id that is already a key
    of the registry, the call succeeds, and the record under that key is
    replaced by a new pending one.  No other record changes and the
    registry does not grow. *)
Theorem create_replaces_existing_record env net phone_number message user_id w
    price headers charge data charge_id invoice_obj lightning_invoice hosted
    expires_at k old :
  pending_sms w !! k = Some old ->
  get_sms_price env = inr price ->
  get_opennode_headers env = inr headers ->
  answers net charge data ->
  subscript data "id" = inr charge_id ->
  subscript data "lightning_invoice" = inr invoice_obj ->
  subscript invoice_obj "payreq" = inr lightning_invoice ->
  subscript data "hosted_checkout_url" = inr hosted ->
  subscript invoice_obj "expires_at" = inr expires_at ->
  hashable charge_id = inr k ->
  let run := create_sms_payment env net phone_number message user_id w in
  let record :=
    request_info user_id phone_number message price lightning_invoice hosted None in
  (exists result,
     fst run = inr result /\ Dict.get "charge_id" result = Some (PJson charge_id))
  /\ pending_sms (snd run) !! k = Some record
  /\ (forall k', k' <> k -> pending_sms (snd run) !! k' = pending_sms w !! k')
  /\ size (pending_sms (snd run)) = size (pending_sms w).
Proof.
  intros Hold Hprice Hheaders Hnet Hid Hinvoice Hpayreq Hhosted Hexpires Hkey.
  cbv zeta.
  rewrite (create_stores env net phone_number message user_id w _ _ _ _ _ _ _ _ _
             Hprice Hheaders Hnet Hid Hinvoice Hpayreq Hhosted Hkey).
  rewrite Hexpires. cbn [fst snd pending_sms].
  split; [eexists; split; reflexivity |].
  split; [apply lookup_insert_eq |].
  split; [intros k' Hne; by apply lookup_insert_ne |].
  by apply map_size_insert_Some.
Qed.

(** When the document has no [expires_at], the tool raises [KeyError]
    after the record has been written. *)
Lemma create_fails_after_store env net phone_number message user_id w price
    headers charge data charge_id invoice_obj lightning_invoice hosted k e :
  get_sms_price env = inr price ->
  get_opennode_headers env = inr headers ->
  answers net charge data ->
  subscript data "id" = inr charge_id ->
  subscript data "lightning_invoice" = inr invoice_obj ->
  subscript invoice_obj "payreq" = inr lightning_invoice ->
  subscript data "hosted_checkout_url" = inr hosted ->
  hashable charge_id = inr k ->
  subscript invoice_obj "expires_at" = inl e ->
  let run := create_sms_payment env net phone_number message user_id w in
  fst run = inl (surfaced e)
  /\ pending_sms (snd run) !! k =
       Some (request_info user_id phone_number message price
               lightning_invoice hosted None).
Proof.
  intros Hprice Hheaders Hnet Hid Hinvoice Hpayreq Hhosted Hkey Hexpires.
  cbv zeta.
  rewrite (create_stores env net phone_number message user_id w _ _ _ _ _ _ _ _ _
             Hprice Hheaders Hnet Hid Hinvoice Hpayreq Hhosted Hkey).
  rewrite Hexpires. cbn [fst snd pending_sms].
  split; [reflexivity | apply lookup_insert_eq].
Qed.

(** A failure of the creation request itself (the client raises, the
    status is not 2xx, the body is not JSON) leaves the registry as it
    was. *)
Lemma create_upstream_failure env net phone_number message user_id w :
  match net with
  | HttpRaises _ => True
  | HttpResponse code _ document => ~ success code \/ document = None
  end ->
  let run := create_sms_payment env net phone_number message user_id w in
  (exists e, fst run = inl e) /\ pending_sms (snd run) = pending_sms w.
Proof.
  intros Hnet. cbv zeta. exec.
  destruct (get_sms_price env) as [e | price]; exec; [by eauto |].
  destruct (get_opennode_headers env) as [e | headers]; exec; [by eauto |].
  destruct net as [e | code body document]; exec; [by eauto |].
  destruct Hnet as [Hcode | ->].
  - rewrite (failure_test _ Hcode). exec. by eauto.
  - destruct (_ && _); exec; by eauto.
Qed.

(** Conversely, a failed creation without a context that has changed the
    registry failed at the [expires_at] lookup: every other failure happens
    before the store. *)
Lemma create_failure_writes_only_for_expiry env net phone_number message user_id w e :
  let run := create_sms_payment env net phone_number message user_id w in
  fst run = inl e ->
  pending_sms (snd run) = pending_sms w
  \/ exists charge data invoice_obj e',
       answers net charge data
       /\ subscript data "lightning_invoice" = inr invoice_obj
       /\ subscript invoice_obj "expires_at" = inl e'
       /\ e = surfaced e'.
Proof.
  cbv zeta. exec.
  destruct (get_sms_price env) as [e0 | price]; exec; [by left |].
  destruct (get_opennode_headers env) as [e0 | headers]; exec; [by left |].
  destruct net as [e0 | code body document]; exec; [by left |].
  destruct ((200 <=? code) && (code <=? 299))%Z eqn:Hcode; exec; [| by left].
  destruct document as [charge |]; exec; [| by left].
  destruct (subscript charge "data") as [e0 | data] eqn:Hdata; exec; [by left |].
  destruct (subscript data "id") as [e0 | charge_id]; exec; [by left |].
  destruct (subscript data "lightning_invoice") as [e0 | invoice_obj] eqn:Hinvoice;
    exec; [by left |].
  destruct (subscript invoice_obj "payreq") as [e0 | lightning_invoice]; exec; [by left |].
  destruct (subscript data "hosted_checkout_url") as [e0 | hosted]; exec; [by left |].
  destruct (hashable charge_id) as [e0 | k]; exec; [by left |].
  destruct (subscript invoice_obj "expires_at") as [e0 | expires_at] eqn:Hexpires;
    exec; [| by intros [=]].
  intros [= <-]. right. exists charge, data, invoice_obj, e0.
  split; [| by auto].
  exists code, body. split; [reflexivity |]. split; [| exact Hdata].
  apply andb_prop in Hcode as [Hlo Hhi]. unfold success.
  split; by apply Z.leb_le.
Qed.


(** ** Every path of [pay_and_send_sms] *)

Lemma ne_str_false v s : ne_str v s = false -> v = JStr s.
Proof.
  destruct v; cbn; try discriminate.
  intros Heq. apply negb_false_iff, String.eqb_eq in Heq. by subst.
Qed.

Lemma deliveries_after_query w url headers :
  deliveries (World (pending_sms w) (outbound w ++ [HttpGet url headers]))
  = deliveries w.
Proof. apply delivered_after_query. Qed.

(** Closes a branch in which the call has sent the status query at most. *)
Ltac no_delivery :=
  run; left; split; [reflexivity |];
  split; [first [reflexivity | apply deliveries_after_query] |];
  intros report [= <-]; reflexivity.

(** Whatever the environment, the provider and Twilio answer, and whatever
    the registry holds, a call of [pay_and_send_sms] either leaves the
    registry and the number of deliveries alone, and then returns no
    receipt id, or it has found the charge
    paid and its record unsent and has invoked the Delivery Adapter once:
    then the exception of the adapter leaves the tool and the registry is as
    before, or the record is marked with the receipt id the call returns. *)
Lemma pay_and_send_sms_paths env net tw charge_id w :
  let run := pay_and_send_sms env net tw charge_id w in
  (pending_sms (snd run) = pending_sms w
   /\ deliveries (snd run) = deliveries w
   /\ forall report, fst run = inr report -> Dict.get "sms_sid" report = None)
  \/ exists d sent,
       pending_sms w !! KStr charge_id = Some d
       /\ Dict.get "sent" d = Some sent /\ truthy sent = false
       /\ reports net (JStr "paid")
       /\ deliveries (snd run) = S (deliveries w)
       /\ match tw with
          | TwilioRaises e =>
              fst run = inl (surfaced e)
              /\ pending_sms (snd run) = pending_sms w
          | TwilioMessage sid =>
              pending_sms (snd run) = <[KStr charge_id := mark_sent sid d]> (pending_sms w)
              /\ exists report,
                   fst run = inr report
                   /\ Dict.get "sms_sent" report = Some (PBool true)
                   /\ Dict.get "sms_sid" report = Some (PJson sid)
          end.
Proof.
  cbv zeta.
  destruct (pending_sms w !! KStr charge_id) as [d |] eqn:Hd.
  2:{ apply contains_absent in Hd. no_delivery. }
  pose proof (contains_present _ _ _ Hd) as Hpresent.
  destruct (get_opennode_headers env) as [e0 | headers] eqn:Hheaders; [no_delivery |].
  destruct net as [e0 | code body document]; [no_delivery |].
  destruct ((200 <=? code) && (code <=? 299))%Z eqn:Hcode; [| no_delivery].
  destruct document as [charge |]; [| no_delivery].
  destruct (subscript charge "data") as [e0 | data] eqn:Hdata; [no_delivery |].
  destruct (subscript data "status") as [e0 | status] eqn:Hstatus; [no_delivery |].
  destruct (ne_str status "paid") eqn:Hne; [no_delivery |].
  apply ne_str_false in Hne as ->.
  destruct (Dict.get "sent" d) as [sent |] eqn:Hsent; [| pose proof paid_is_paid; no_delivery].
  destruct (truthy sent) eqn:Htruthy; [pose proof paid_is_paid; no_delivery |].
  destruct (get_twilio_client env) as [e0 | twilio] eqn:Htwilio;
    [pose proof paid_is_paid; no_delivery |].
  destruct (unset (env !! "TWILIO_PHONE_NUMBER")) eqn:Hnumber;
    [pose proof paid_is_paid; no_delivery |].
  destruct (env !! "TWILIO_PHONE_NUMBER") as [from_number |] eqn:Hfrom; [| discriminate].
  destruct (Dict.get "message" d) as [body0 |] eqn:Hbody.
  2:{ pose proof paid_is_paid. rewrite <- Hfrom in Hnumber. no_delivery. }
  destruct (Dict.get "phone_number" d) as [to |] eqn:Hto.
  2:{ pose proof paid_is_paid. rewrite <- Hfrom in Hnumber. no_delivery. }
  assert (Hnet : answers (HttpResponse code body (Some charge)) charge data).
  { exists code, body. split; [reflexivity |]. split; [| exact Hdata].
    apply andb_prop in Hcode as [Hlo Hhi]. unfold success.
    split; by apply Z.leb_le. }
  pose proof (pay_delivers env _ tw charge_id w d _ _ _ _ _ _ _ _
    Hd Hsent Htruthy Hbody Hto Hheaders Hnet Hstatus Htwilio Hfrom Hnumber) as Hrun.
  cbv zeta in Hrun. rewrite Hrun.
  right. exists d, sent.
  split; [reflexivity |]. split; [exact Hsent |]. split; [exact Htruthy |].
  split; [by exists charge, data |].
  split; [destruct tw; apply delivered_after_delivery |].
  destruct tw as [e | sid]; cbn [fst snd pending_sms].
  - by split.
  - split; [reflexivity |]. eexists. split; [reflexivity |]. by split.
Qed.

(** X1.  [pay_and_send_sms] invokes the Delivery Adapter at most once per
    call, and only for a charge the provider has just reported as "paid"
    whose record is not marked as sent. *)
Theorem delivery_requires_payment env net tw charge_id w :
  let run := pay_and_send_sms env net tw charge_id w in
  deliveries (snd run) = deliveries w
  \/ (deliveries (snd run) = S (deliveries w)
      /\ reports net (JStr "paid")
      /\ exists d sent,
           pending_sms w !! KStr charge_id = Some d
           /\ Dict.get "sent" d = Some sent
           /\ truthy sent = false).
Proof.
  cbv zeta.
  destruct (pay_and_send_sms_paths env net tw charge_id w)
    as [(_ & Hsame & _) | (d & sent & Hd & Hsent & Hfalse & Hpaid & Hone & _)].
  - by left.
  - right. split; [exact Hone |]. split; [exact Hpaid |]. by exists d, sent.
Qed.

(** X3.  Once the record of a charge is marked as sent, no call of
    [pay_and_send_sms] for that charge sends anything or writes anything,
    whatever the provider and Twilio would answer. *)
Theorem completed_charge_is_never_resent env net tw charge_id w d sent :
  pending_sms w !! KStr charge_id = Some d ->
  Dict.get "sent" d = Some sent ->
  truthy sent = true ->
  let run := pay_and_send_sms env net tw charge_id w in
  pending_sms (snd run) = pending_sms w /\ deliveries (snd run) = deliveries w.
Proof.
  intros Hd Hsent Htrue. cbv zeta.
  destruct (pay_and_send_sms_paths env net tw charge_id w)
    as [(Hsame & Hnone & _) | (d' & sent' & Hd' & Hsent' & Hfalse & _)]; [by split |].
  congruence.
Qed.

(** X4.  [pay_and_send_sms] touches one record at most, that of its own
    charge, and in it only the fields [sent], [status] and [sms_sid]:
    every other record is what it was, no key appears or disappears, and
    the recipient, the message, the price, the invoice and the checkout URL
    of the charge keep their values. *)
Theorem pay_and_send_sms_frame env net tw charge_id w :
  let run := pay_and_send_sms env net tw charge_id w in
  (forall k, k <> KStr charge_id -> pending_sms (snd run) !! k = pending_sms w !! k)
  /\ (pending_sms w !! KStr charge_id = None ->
      pending_sms (snd run) !! KStr charge_id = None)
  /\ (forall d,
        pending_sms w !! KStr charge_id = Some d ->
        exists d',
          pending_sms (snd run) !! KStr charge_id = Some d'
          /\ forall field,
               field <> "sent" -> field <> "status" -> field <> "sms_sid" ->
               Dict.get field d' = Dict.get field d).
Proof.
  cbv zeta.
  destruct (pay_and_send_sms_paths env net tw charge_id w)
    as [(Hsame & _) | (d & sent & Hd & _ & _ & _ & _ & Htw)].
  - rewrite Hsame. split; [done |]. split; [done |]. intros d Hd. by exists d.
  - destruct tw as [e | sid].
    + destruct Htw as [_ Hsame]. rewrite Hsame.
      split; [done |]. split; [done |]. intros d0 Hd0. by exists d0.
    + destruct Htw as [Hmarked _]. rewrite Hmarked.
      split; [intros k Hk; by apply lookup_insert_ne |].
      split; [intros Hnone; congruence |].
      intros d0 Hd0. assert (d0 = d) as -> by congruence.
      exists (mark_sent sid d). split; [apply lookup_insert_eq |].
      intros field H1 H2 H3. by apply get_mark_sent_other.
Qed.

(** ** Every path of [create_sms_payment] *)

(** Closes a branch in which the creation has failed before the store. *)
Ltac no_record := run; left; split; [by eexists | reflexivity].

(** A call of [create_sms_payment] either raises with the registry as it
    was, or it has read the id, the invoice and the checkout URL off the
    answer of the provider and has stored the pending record under the id;
    it then returns, unless the lookup of [expires_at] raises. *)
Lemma create_sms_payment_paths env net phone_number message user_id w :
  let run := create_sms_payment env net phone_number message user_id w in
  ((exists e, fst run = inl e) /\ pending_sms (snd run) = pending_sms w)
  \/ exists price charge data charge_id invoice_obj lightning_invoice hosted k,
       get_sms_price env = inr price
       /\ answers net charge data
       /\ subscript data "id" = inr charge_id
       /\ subscript data "lightning_invoice" = inr invoice_obj
       /\ subscript invoice_obj "payreq" = inr lightning_invoice
       /\ subscript data "hosted_checkout_url" = inr hosted
       /\ hashable charge_id = inr k
       /\ pending_sms (snd run)
          = <[k := request_info user_id phone_number message price
                     lightning_invoice hosted None]> (pending_sms w)
       /\ fst run
          = match subscript invoice_obj "expires_at" with
            | inr expires_at =>
                inr [("charge_id", PJson charge_id);
                     ("amount", PFloat price);
                     ("currency", PStr "USD");
                     ("phone_number", PStr phone_number);
                     ("lightning_invoice", PJson lightning_invoice);
                     ("hosted_checkout_url", PJson hosted);
                     ("expires_at", PJson expires_at);
                     ("instructions",
                      PStr "Call get_sms_qr(charge_id) to get QR code, then pay_and_send_sms(charge_id)")]
            | inl e => inl (surfaced e)
            end.
Proof.
  cbv zeta.
  destruct (get_sms_price env) as [e0 | price] eqn:Hprice; [no_record |].
  destruct (get_opennode_headers env) as [e0 | headers] eqn:Hheaders; [no_record |].
  destruct net as [e0 | code body document]; [no_record |].
  destruct ((200 <=? code) && (code <=? 299))%Z eqn:Hcode; [| no_record].
  destruct document as [charge |]; [| no_record].
  destruct (subscript charge "data") as [e0 | data] eqn:Hdata; [no_record |].
  destruct (subscript data "id") as [e0 | charge_id] eqn:Hid; [no_record |].
  destruct (subscript data "lightning_invoice") as [e0 | invoice_obj] eqn:Hinvoice;
    [no_record |].
  destruct (subscript invoice_obj "payreq") as [e0 | lightning_invoice] eqn:Hpayreq;
    [no_record |].
  destruct (subscript data "hosted_checkout_url") as [e0 | hosted] eqn:Hhosted;
    [no_record |].
  destruct (hashable charge_id) as [e0 | k] eqn:Hkey; [no_record |].
  assert (Hnet : answers (HttpResponse code body (Some charge)) charge data).
  { exists code, body. split; [reflexivity |]. split; [| exact Hdata].
    apply andb_prop in Hcode as [Hlo Hhi]. unfold success.
    split; by apply Z.leb_le. }
  rewrite (create_stores env _ phone_number message user_id w _ _ _ _ _ _ _ _ _
             Hprice Hheaders Hnet Hid Hinvoice Hpayreq Hhosted Hkey).
  right. exists price, charge, data, charge_id, invoice_obj, lightning_invoice, hosted, k.
  cbn [fst snd pending_sms]. repeat (split; [done |]). reflexivity.
Qed.

(** X5.  A call of [create_sms_payment] that returns has stored a pending
    record under the id it returns: the record holds the user, the
    recipient and the message given, and the price, the invoice and the
    checkout URL of the returned dict, with [sent=False] and no [sms_sid].
    No other record of the registry has changed. *)
Theorem create_registers_returned_charge env net phone_number message user_id w result :
  let run := create_sms_payment env net phone_number message user_id w in
  fst run = inr result ->
  exists charge_id k price lightning_invoice hosted,
    Dict.get "charge_id" result = Some (PJson charge_id)
    /\ Dict.get "amount" result = Some (PFloat price)
    /\ Dict.get "lightning_invoice" result = Some (PJson lightning_invoice)
    /\ Dict.get "hosted_checkout_url" result = Some (PJson hosted)
    /\ hashable charge_id = inr k
    /\ pending_sms (snd run) !! k
       = Some (request_info user_id phone_number message price
                 lightning_invoice hosted None)
    /\ forall k', k' <> k -> pending_sms (snd run) !! k' = pending_sms w !! k'.
Proof.
  cbv zeta. intros Hresult.
  destruct (create_sms_payment_paths env net phone_number message user_id w)
    as [[[e He] _] |
        (price & charge & data & charge_id & invoice_obj & lightning_invoice & hosted & k
         & _ & _ & _ & _ & _ & _ & Hkey & Hstored & Hfst)].
  - rewrite He in Hresult. discriminate.
  - rewrite Hfst in Hresult.
    destruct (subscript invoice_obj "expires_at") as [e | expires_at]; [discriminate |].
    injection Hresult as <-.
    exists charge_id, k, price, lightning_invoice, hosted.
    repeat (split; [reflexivity |]). split; [exact Hkey |].
    rewrite Hstored. split; [apply lookup_insert_eq |].
    intros k' Hk'. by apply lookup_insert_ne.
Qed.

Lemma headers_need_api_key env :
  unset (env !! "OPENNODE_API_KEY") = true ->
  get_opennode_headers env = inl (ValueError "OPENNODE_API_KEY not set").
Proof. intros Hunset. unfold get_opennode_headers. by rewrite Hunset. Qed.

(** X7.  Without [OPENNODE_API_KEY] (unset or empty) no request leaves the
    server, whatever the registry holds: [create_sms_payment] raises with
    the world untouched, and so do [pay_and_send_sms] and
    [check_charge_status], with [ValueError("OPENNODE_API_KEY not set")]
    for a registered charge and the not-found error for any other. *)
Theorem missing_api_key_sends_nothing env :
  unset (env !! "OPENNODE_API_KEY") = true ->
  (forall net phone_number message user_id w,
     create_sms_payment env net phone_number message user_id w
     = (inl match get_sms_price env with
            | inl e => surfaced e
            | inr _ => ValueError "OPENNODE_API_KEY not set"
            end, w))
  /\ (forall net tw charge_id w,
        let e :=
          match pending_sms w !! KStr charge_id with
          | Some _ => ValueError "OPENNODE_API_KEY not set"
          | None => NotFound charge_id
          end in
        pay_and_send_sms env net tw charge_id w = (inl e, w)
        /\ check_charge_status env net charge_id w = (inl e, w)).
Proof.
  intros Hunset.
  pose proof (headers_need_api_key env Hunset) as Hheaders.
  split.
  - intros net phone_number message user_id w.
    destruct (get_sms_price env) as [e | price] eqn:Hprice; run; reflexivity.
  - intros net tw charge_id w. cbv zeta.
    destruct (pending_sms w !! KStr charge_id) as [d |] eqn:Hd.
    + pose proof (contains_present _ _ _ Hd) as Hpresent.
      split; run; reflexivity.
    + pose proof (contains_absent _ _ Hd) as Habsent.
      split; run; reflexivity.
Qed.

(** X8.  The Twilio settings are read only once the provider has reported
    the charge as paid.  When the account SID or the auth token is missing
    the call raises [ValueError("TWILIO credentials not set")]; when only
    the sender number is missing it raises
    [ValueError("TWILIO_PHONE_NUMBER not set")].  Either way the status
    query is the only request sent, the Delivery Adapter is not invoked and
    the registry is unchanged. *)
Theorem missing_twilio_settings_block_delivery env net tw charge_id w d sent headers :
  pending_sms w !! KStr charge_id = Some d ->
  Dict.get "sent" d = Some sent ->
  truthy sent = false ->
  get_opennode_headers env = inr headers ->
  reports net (JStr "paid") ->
  let no_credentials :=
    unset (env !! "TWILIO_ACCOUNT_SID") || unset (env !! "TWILIO_AUTH_TOKEN") in
  no_credentials || unset (env !! "TWILIO_PHONE_NUMBER") = true ->
  pay_and_send_sms env net tw charge_id w
  = (inl (ValueError (if no_credentials then "TWILIO credentials not set"
                      else "TWILIO_PHONE_NUMBER not set")),
     World (pending_sms w) (outbound w ++ [HttpGet (charge_url charge_id) headers])).
Proof.
  intros Hd Hsent Hfalse Hheaders (charge & data & Hnet & Hstatus) no_credentials Hmissing.
  apply success_of_answers in Hnet as (code & text & -> & Hcode & Hdata).
  pose proof (contains_present _ _ _ Hd) as Hpresent.
  pose proof paid_is_paid as Hpaid.
  unfold charge_url. subst no_credentials.
  destruct (unset (env !! "TWILIO_ACCOUNT_SID") || unset (env !! "TWILIO_AUTH_TOKEN"))
    eqn:Hcredentials.
  - assert (Htwilio : get_twilio_client env = inl (ValueError "TWILIO credentials not set"))
      by (unfold get_twilio_client; by rewrite Hcredentials).
    run. reflexivity.
  - assert (Htwilio : exists twilio, get_twilio_client env = inr twilio)
      by (unfold get_twilio_client; rewrite Hcredentials; by eexists).
    destruct Htwilio as [twilio Htwilio].
    cbn [orb] in Hmissing. run. reflexivity.
Qed.

(** X9.  A response of the provider with a status code outside 2xx: from
    [create_sms_payment], on any registry, and from [pay_and_send_sms] for
    a registered charge it leaves as
    [ValueError("OpenNode API error: <code> - <text>")], from
    [check_charge_status] as the [HTTPStatusError] itself.  The request has
    been sent, the registry is unchanged, nothing is delivered. *)
Theorem provider_error_status_surfaces env code body document headers :
  ~ success code ->
  get_opennode_headers env = inr headers ->
  let net := HttpResponse code body document in
  let error := ValueError ("OpenNode API error: " +:+ pretty code +:+ " - " +:+ body) in
  (forall price phone_number message user_id w,
     get_sms_price env = inr price ->
     create_sms_payment env net phone_number message user_id w
     = (inl error,
        World (pending_sms w)
          (outbound w
           ++ [HttpPost charges_url
                 (charge_payload price phone_number user_id (size (pending_sms w)))
                 headers])))
  /\ (forall tw charge_id w,
        is_Some (pending_sms w !! KStr charge_id) ->
        let asked :=
          World (pending_sms w)
            (outbound w ++ [HttpGet (charge_url charge_id) headers]) in
        pay_and_send_sms env net tw charge_id w = (inl error, asked)
        /\ check_charge_status env net charge_id w
           = (inl (HTTPStatusError code body), asked)).
Proof.
  intros Hcode Hheaders. cbv zeta.
  apply failure_test in Hcode.
  unfold charges_url, charge_payload, charge_url.
  split.
  - intros price phone_number message user_id w Hprice. run. reflexivity.
  - intros tw charge_id w [d Hd].
    pose proof (contains_present _ _ _ Hd) as Hpresent.
    split; run; reflexivity.
Qed.

(** ** Tools one after the other *)

(** The status of a registered charge whose record has the three fields
    the tool reads, when the provider answers the query. *)
Lemma check_charge_status_returns env net charge_id w d headers charge data
    payment_status created_at sms_sent phone_number amount :
  pending_sms w !! KStr charge_id = Some d ->
  get_opennode_headers env = inr headers ->
  answers net charge data ->
  subscript data "status" = inr payment_status ->
  subscript data "created_at" = inr created_at ->
  Dict.get "sent" d = Some sms_sent ->
  Dict.get "phone_number" d = Some phone_number ->
  Dict.get "amount" d = Some amount ->
  fst (check_charge_status env net charge_id w)
  = inr [("charge_id", PStr charge_id);
         ("payment_status", PJson payment_status);
         ("sms_sent", sms_sent);
         ("phone_number", phone_number);
         ("amount", amount);
         ("created_at", PJson created_at);
         ("paid_at", PJson (member_or_none data "paid_at"))].
Proof.
  intros Hd Hheaders Hnet Hstatus Hcreated Hsent Hphone Hamount.
  apply success_of_answers in Hnet as (code & text & -> & Hcode & Hdata).
  pose proof (contains_present _ _ _ Hd) as Hpresent.
  pose proof (dot_get_after_subscript _ _ _ "paid_at" Hstatus) as Hpaid_at.
  run. reflexivity.
Qed.

(** X10.  Creation, then status.  After [create_sms_payment] has returned
    a charge id that is a str, [check_charge_status] for that id finds the
    charge and, when the provider answers the query, reports
    [sms_sent=False] together with the recipient given at creation and the
    amount the creation returned. *)
Theorem created_charge_reports_unsent env net phone_number message user_id w result
    charge_id env' net' headers charge data payment_status created_at :
  let created := create_sms_payment env net phone_number message user_id w in
  fst created = inr result ->
  Dict.get "charge_id" result = Some (PStr charge_id) ->
  get_opennode_headers env' = inr headers ->
  answers net' charge data ->
  subscript data "status" = inr payment_status ->
  subscript data "created_at" = inr created_at ->
  exists amount,
    Dict.get "amount" result = Some amount
    /\ fst (check_charge_status env' net' charge_id (snd created))
       = inr [("charge_id", PStr charge_id);
              ("payment_status", PJson payment_status);
              ("sms_sent", PBool false);
              ("phone_number", PStr phone_number);
              ("amount", amount);
              ("created_at", PJson created_at);
              ("paid_at", PJson (member_or_none data "paid_at"))].
Proof.
  cbv zeta. intros Hresult Hid Hheaders Hnet Hstatus Hcreated.
  destruct (create_sms_payment_paths env net phone_number message user_id w)
    as [[[e He] _] |
        (price & charge0 & data0 & id0 & invoice_obj & lightning_invoice & hosted & k
         & _ & _ & _ & _ & _ & _ & Hkey & Hstored & Hfst)].
  { rewrite He in Hresult. discriminate. }
  rewrite Hfst in Hresult.
  destruct (subscript invoice_obj "expires_at") as [e | expires_at]; [discriminate |].
  injection Hresult as <-. injection Hid as ->. injection Hkey as <-.
  exists (PFloat price). split; [reflexivity |].
  eapply check_charge_status_returns; try eassumption.
  - rewrite Hstored. apply lookup_insert_eq.
  - reflexivity.
  - reflexivity.
  - reflexivity.
Qed.

(** X11.  Creation, then presentation.  After [create_sms_payment] has
    returned a charge id that is a str, [get_sms_qr] for that id hands the
    invoice the creation returned to the QR pipeline, and returns its
    picture as a PNG image or raises what the pipeline raises; the world
    is left as the creation left it. *)
Theorem created_charge_has_qr env net phone_number message user_id w result charge_id :
  let created := create_sms_payment env net phone_number message user_id w in
  fst created = inr result ->
  Dict.get "charge_id" result = Some (PStr charge_id) ->
  exists invoice,
    Dict.get "lightning_invoice" result = Some invoice
    /\ get_sms_qr charge_id (snd created)
       = (match qr_png invoice with
          | inr png => inr {| image_data := png; image_format := "png" |}
          | inl e => inl e
          end, snd created).
Proof.
  cbv zeta. intros Hresult Hid.
  destruct (create_sms_payment_paths env net phone_number message user_id w)
    as [[[e He] _] |
        (price & charge0 & data0 & id0 & invoice_obj & lightning_invoice & hosted & k
         & _ & _ & _ & _ & _ & _ & Hkey & Hstored & Hfst)].
  { rewrite He in Hresult. discriminate. }
  rewrite Hfst in Hresult.
  destruct (subscript invoice_obj "expires_at") as [e | expires_at]; [discriminate |].
  injection Hresult as <-. injection Hid as ->. injection Hkey as <-.
  exists (PJson lightning_invoice). split; [reflexivity |].
  set (w1 := snd _) in *.
  assert (Hd : pending_sms w1 !! KStr charge_id
               = Some (request_info user_id phone_number message price
                         lightning_invoice hosted None))
    by (rewrite Hstored; apply lookup_insert_eq).
  pose proof (contains_present _ _ _ Hd) as Hpresent.
  assert (Hinvoice : Dict.get "lightning_invoice"
                       (request_info user_id phone_number message price
                          lightning_invoice hosted None)
                     = Some (PJson lightning_invoice)) by reflexivity.
  run. unfold generate_qr_code.
  destruct (qr_png (PJson lightning_invoice)); reflexivity.
Qed.

(** X12.  Delivery, then status.  In a reachable world, after
    [pay_and_send_sms] has returned a report with a receipt id,
    [check_charge_status] for the same charge reports [sms_sent=True]
    whenever the provider answers the query. *)
Theorem delivered_charge_reports_sent env net tw charge_id w report sid
    env' net' headers charge data payment_status created_at :
  reachable w ->
  let paid := pay_and_send_sms env net tw charge_id w in
  fst paid = inr report ->
  Dict.get "sms_sid" report = Some sid ->
  get_opennode_headers env' = inr headers ->
  answers net' charge data ->
  subscript data "status" = inr payment_status ->
  subscript data "created_at" = inr created_at ->
  exists phone_number amount,
    fst (check_charge_status env' net' charge_id (snd paid))
    = inr [("charge_id", PStr charge_id);
           ("payment_status", PJson payment_status);
           ("sms_sent", PBool true);
           ("phone_number", phone_number);
           ("amount", amount);
           ("created_at", PJson created_at);
           ("paid_at", PJson (member_or_none data "paid_at"))].
Proof.
  intros Hreach. cbv zeta. intros Hreport Hsid Hheaders Hnet Hstatus Hcreated.
  set (w1 := snd (pay_and_send_sms env net tw charge_id w)).
  assert (Hok : registry_ok w1)
    by (apply pay_and_send_sms_preserves; by apply reachable_registry_ok).
  assert (Hmarked : exists d,
             pending_sms w1 !! KStr charge_id = Some d
             /\ Dict.get "sent" d = Some (PBool true)).
  { subst w1.
    destruct (pay_and_send_sms_paths env net tw charge_id w)
      as [(_ & _ & Hnone) | (d & sent & _ & _ & _ & _ & _ & Htw)].
    - rewrite (Hnone report Hreport) in Hsid. discriminate.
    - destruct tw as [e | sid'].
      + destruct Htw as [Hraised _]. rewrite Hraised in Hreport. discriminate.
      + destruct Htw as [Hstored _]. exists (mark_sent sid' d).
        split; [rewrite Hstored; apply lookup_insert_eq | apply get_mark_sent_sent]. }
  destruct Hmarked as (d & Hd & Hsent).
  destruct (Hok _ _ Hd) as
    (user_id & phone_number & message & price & invoice & hosted & receipt & ->).
  exists (PStr phone_number), (PFloat price).
  eapply check_charge_status_returns; try eassumption.
  all: by destruct receipt.
Qed.

(** ** Whole runs *)

(** The world after serving the calls [cs] from the world [w]. *)
Definition serve_from (w : world) (cs : list call) : world :=
  fold_left (fun w c => serve c w) cs w.

(** The payment status a provider answer carries, if it carries one: the
    answer has a 2xx status code and its document has [data] and, in it,
    [status]. *)
Definition reported_status (net : http_outcome) : option json :=
  match net with
  | HttpResponse code _ (Some charge) =>
      if ((200 <=? code) && (code <=? 299))%Z then
        match subscript charge "data" with
        | inr data =>
            match subscript data "status" with
            | inr status => Some status
            | inl _ => None
            end
        | inl _ => None
        end
      else None
  | _ => None
  end.

(** A call of [pay_and_send_sms] during which the provider reports "paid". *)
Definition confirms_payment (c : call) : bool :=
  match c with
  | PayAndSendSms _ net _ _ =>
      match reported_status net with
      | Some status => negb (ne_str status "paid")
      | None => false
      end
  | _ => false
  end.

Lemma reported_status_of_reports net status :
  reports net status -> reported_status net = Some status.
Proof.
  intros (charge & data & Hnet & Hstatus).
  apply success_of_answers in Hnet as (code & text & -> & Hcode & Hdata).
  cbn. by rewrite Hcode, Hdata, Hstatus.
Qed.

Lemma serve_deliveries c w :
  deliveries (serve c w) <= deliveries w + (if confirms_payment c then 1 else 0).
Proof.
  destruct c as [env net phone_number message user_id | charge_id | charge_id
                | env net tw charge_id | env net charge_id]; cbn [serve confirms_payment].
  - rewrite create_sms_payment_keeps_deliveries. lia.
  - rewrite (get_sms_qr_keeps deliveries). lia.
  - rewrite (get_sms_qr_with_link_keeps deliveries). lia.
  - destruct (pay_and_send_sms_paths env net tw charge_id w)
      as [(_ & Hsame & _) | (d & sent & _ & _ & _ & Hpaid & Hone & _)].
    + rewrite Hsame. lia.
    + rewrite Hone, (reported_status_of_reports _ _ Hpaid). cbn. lia.
  - rewrite check_charge_status_keeps_deliveries. lia.
Qed.

Lemma serve_from_deliveries cs w :
  deliveries (serve_from w cs)
  <= deliveries w + length (List.filter confirms_payment cs).
Proof.
  revert w. induction cs as [| c cs IH]; intros w; cbn.
  - lia.
  - specialize (IH (serve c w)). unfold serve_from in IH.
    pose proof (serve_deliveries c w) as Hstep.
    destruct (confirms_payment c); cbn [length]; lia.
Qed.

(** X13.  Over a whole run from startup, the Delivery Adapter is invoked at
    most as many times as there are [pay_and_send_sms] calls during which
    the provider reported "paid": no message goes out on any other call. *)
Theorem deliveries_bounded_by_confirmed_payments cs :
  deliveries (serve_all cs) <= length (List.filter confirms_payment cs).
Proof. apply (serve_from_deliveries cs startup). Qed.

Lemma serve_keeps_keys c w k :
  is_Some (pending_sms w !! k) -> is_Some (pending_sms (serve c w) !! k).
Proof.
  intros Hk.
  destruct c as [env net phone_number message user_id | charge_id | charge_id
                | env net tw charge_id | env net charge_id]; cbn [serve].
  - destruct (create_sms_payment_paths env net phone_number message user_id w)
      as [[_ Hsame] |
          (price & charge & data & id & invoice_obj & invoice & hosted & k'
           & _ & _ & _ & _ & _ & _ & _ & Hstored & _)].
    + by rewrite Hsame.
    + rewrite Hstored, lookup_insert. case_decide; [by eexists | exact Hk].
  - by rewrite (get_sms_qr_keeps pending_sms).
  - by rewrite (get_sms_qr_with_link_keeps pending_sms).
  - destruct (pay_and_send_sms_paths env net tw charge_id w)
      as [(Hsame & _) | (d & sent & _ & _ & _ & _ & _ & Htw)].
    + by rewrite Hsame.
    + destruct tw as [e | sid].
      * destruct Htw as [_ Hsame]. by rewrite Hsame.
      * destruct Htw as [Hstored _].
        rewrite Hstored, lookup_insert. case_decide; [by eexists | exact Hk].
  - by rewrite check_charge_status_keeps_registry.
Qed.

(** X14.  No tool removes a record: a charge that is registered stays
    registered through every later call, so a lookup of its id never
    raises the not-found error again. *)
Theorem registered_charges_stay_registered w cs k :
  is_Some (pending_sms w !! k) ->
  is_Some (pending_sms (serve_from w cs) !! k).
Proof.
  revert w. induction cs as [| c cs IH]; intros w Hk; cbn.
  - exact Hk.
  - apply IH. by apply serve_keeps_keys.
Qed.

(** ** Where a stored sid comes from *)









(** ** The deep link *)

(** Every character of [s] passes the test [p]. *)
Fixpoint all_chars (p : ascii -> bool) (s : string) : bool :=
  match s with
  | EmptyString => true
  | String a s' => p a && all_chars p s'
  end.

Lemma append_cons a s t : String a s +:+ t = String a (s +:+ t).
Proof. reflexivity. Qed.

Lemma append_empty t : "" +:+ t = t.
Proof. reflexivity. Qed.

Lemma all_chars_app p s t :
  all_chars p (s +:+ t) = all_chars p s && all_chars p t.
Proof.
  induction s as [| a s IH]; [reflexivity |].
  rewrite append_cons. cbn [all_chars]. by rewrite IH, andb_assoc.
Qed.

Lemma hex_digit_safe n : n < 16 -> always_safe (hex_digit n) = true.
Proof.
  intros Hn. do 16 (destruct n as [| n]; [reflexivity |]). lia.
Qed.

Lemma hex_digit_inj n m : n < 16 -> m < 16 -> hex_digit n = hex_digit m -> n = m.
Proof.
  intros Hn Hm.
  do 16 (destruct n as [| n];
         [do 16 (destruct m as [| m]; [first [reflexivity | discriminate] |]); lia |]).
  lia.
Qed.

Lemma nat_of_ascii_bound a : nat_of_ascii a < 256.
Proof. destruct a as [[] [] [] [] [] [] [] []]; vm_compute; lia. Qed.

Lemma percent_inj a b : percent a = percent b -> a = b.
Proof.
  pose proof (nat_of_ascii_bound a) as Ha.
  pose proof (nat_of_ascii_bound b) as Hb.
  assert (Hahi : nat_of_ascii a / 16 < 16) by (apply Nat.Div0.div_lt_upper_bound; lia).
  assert (Hbhi : nat_of_ascii b / 16 < 16) by (apply Nat.Div0.div_lt_upper_bound; lia).
  assert (Halo : nat_of_ascii a mod 16 < 16) by (apply Nat.mod_upper_bound; lia).
  assert (Hblo : nat_of_ascii b mod 16 < 16) by (apply Nat.mod_upper_bound; lia).
  pose proof (Nat.div_mod_eq (nat_of_ascii a) 16) as Hasplit.
  pose proof (Nat.div_mod_eq (nat_of_ascii b) 16) as Hbsplit.
  unfold percent. cbv zeta.
  generalize dependent (nat_of_ascii a / 16). generalize dependent (nat_of_ascii a mod 16).
  generalize dependent (nat_of_ascii b / 16). generalize dependent (nat_of_ascii b mod 16).
  intros blo Hblo bhi Hbhi Hbsplit alo Halo ahi Hahi Hasplit Heq.
  injection Heq as Hhi Hlo.
  apply hex_digit_inj in Hhi; [| assumption ..].
  apply hex_digit_inj in Hlo; [| assumption ..].
  rewrite <- (ascii_nat_embedding a), <- (ascii_nat_embedding b). f_equal. lia.
Qed.

Lemma percent_shape a :
  exists hi lo, percent a = String "%" (String hi (String lo "")).
Proof. by eexists _, _. Qed.

Lemma percent_is_not_safe : always_safe "%"%char = false.
Proof. reflexivity. Qed.

(** X15.  An invoice made of letters, digits and [_.-~] only, as a
    Lightning invoice is, goes into the deep link as it stands. *)
Theorem deep_link_of_plain_invoice invoice :
  all_chars always_safe invoice = true ->
  generate_lightning_deep_link (PStr invoice) = inr ("lightning:" +:+ invoice).
Proof.
  intros Hplain. unfold generate_lightning_deep_link. cbn [quote].
  do 2 f_equal.
  induction invoice as [| a s IH]; [reflexivity |].
  cbn in Hplain. apply andb_prop in Hplain as [Ha Hs].
  cbn [quote_bytes]. rewrite Ha, (IH Hs). reflexivity.
Qed.

Lemma quote_bytes_alphabet s :
  all_chars (fun a => always_safe a || Ascii.eqb a "%") (quote_bytes s "") = true.
Proof.
  induction s as [| a s IH]; [reflexivity |].
  cbn [quote_bytes mem_ascii]. rewrite orb_false_r, all_chars_app, IH, andb_true_r.
  destruct (always_safe a) eqn:Ha.
  - cbn. by rewrite Ha.
  - pose proof (nat_of_ascii_bound a) as Hbound.
    unfold percent. cbn [all_chars].
    rewrite !hex_digit_safe;
      [reflexivity | apply Nat.mod_upper_bound; lia
      | apply Nat.Div0.div_lt_upper_bound; lia].
Qed.

(** X16.  Whenever [generate_lightning_deep_link] returns a link, for
    whatever invoice, the link is "lightning:" followed by letters, digits,
    [_.-~] and [%] only: no quote, angle bracket, space or slash of the
    invoice reaches the page the link is written into. *)
Theorem deep_link_alphabet invoice link :
  generate_lightning_deep_link invoice = inr link ->
  exists quoted,
    link = "lightning:" +:+ quoted
    /\ all_chars (fun a => always_safe a || Ascii.eqb a "%") quoted = true.
Proof.
  unfold generate_lightning_deep_link.
  destruct invoice as [[| | | s | |] |]; cbn [quote]; try discriminate.
  intros [= <-]. exists (quote_bytes s ""). split; [reflexivity | apply quote_bytes_alphabet].
Qed.

Lemma quote_bytes_inj s t : quote_bytes s "" = quote_bytes t "" -> s = t.
Proof.
  revert t. induction s as [| a s IH]; intros [| b t]; cbn [quote_bytes mem_ascii];
    rewrite ?orb_false_r.
  - reflexivity.
  - destruct (always_safe b); discriminate.
  - destruct (always_safe a); discriminate.
  - destruct (percent_shape a) as (ahi & alo & Hpa).
    destruct (percent_shape b) as (bhi & blo & Hpb).
    destruct (always_safe a) eqn:Ha, (always_safe b) eqn:Hb;
      rewrite ?Hpa, ?Hpb, ?append_cons, ?append_empty.
    + intros [= -> Hrest]. f_equal. by apply IH.
    + intros [= -> _]. by rewrite percent_is_not_safe in Ha.
    + intros [= <- _]. by rewrite percent_is_not_safe in Hb.
    + intros [= -> -> Hrest].
      assert (a = b) as -> by (apply percent_inj; congruence).
      f_equal. by apply IH.
Qed.

(** X17.  Two invoices with the same deep link are the same invoice. *)
Theorem deep_link_injective invoice1 invoice2 :
  generate_lightning_deep_link (PStr invoice1)
  = generate_lightning_deep_link (PStr invoice2) ->
  invoice1 = invoice2.
Proof.
  unfold generate_lightning_deep_link. cbn [quote].
  intros [= Hquoted]. by apply quote_bytes_inj.
Qed.

(** ** The link tool and the QR pipeline *)

(** X20.  [get_sms_qr_with_link] of the stand-alone server runs the QR
    pipeline on the stored invoice although it returns no picture: when
    the pipeline raises, the tool raises the same exception and returns no
    link. *)
Theorem link_fails_with_qr charge_id w d invoice e :
  pending_sms w !! KStr charge_id = Some d ->
  Dict.get "lightning_invoice" d = Some invoice ->
  qr_png invoice = inl e ->
  get_sms_qr_with_link charge_id w = (inl e, w).
Proof.
  intros Hd Hinvoice Hqr.
  pose proof (contains_present _ _ _ Hd) as Hpresent.
  run. unfold generate_qr_code. rewrite Hqr. run. reflexivity.
Qed.

(** ** One request per call *)

Definition is_http (ev : event) : bool :=
  match ev with
  | HttpPost _ _ _ | HttpGet _ _ => true
  | TwilioCreate _ _ _ _ _ => false
  end.

(** How many HTTP requests have gone to the provider. *)
Definition requests (w : world) : nat :=
  length (List.filter is_http (outbound w)).

(** A computation that sends at most one request to the provider. *)
Definition at_most_one_request {A} (c : M A) : Prop :=
  forall w, requests (snd (c w)) <= S (requests w).

Lemma send_requests ev w :
  requests (snd (send ev w)) = requests w + (if is_http ev then 1 else 0).
Proof.
  unfold requests, send. cbn [snd outbound].
  rewrite List.filter_app, length_app. cbn. by destruct (is_http ev).
Qed.

Lemma send_keeps_requests ev : is_http ev = false -> keeps requests (send ev).
Proof. intros Hev w. rewrite send_requests, Hev. lia. Qed.

Lemma setitem_keeps_requests k d : keeps requests (registry_setitem k d).
Proof. intros w. reflexivity. Qed.

Lemma setfield_keeps_requests charge_id field v :
  keeps requests (registry_setfield charge_id field v).
Proof. intros w. unfold registry_setfield. by destruct (_ !! _). Qed.

Lemma messages_create_keeps_requests tw twilio body from_ to :
  keeps requests (messages_create tw twilio body from_ to).
Proof.
  unfold messages_create. apply keeps_bind.
  - by apply send_keeps_requests.
  - intros _. destruct tw; auto with keeps.
Qed.

#[local] Hint Resolve setitem_keeps_requests setfield_keeps_requests
  messages_create_keeps_requests : keeps.

Lemma keeps_at_most_one {A} (c : M A) : keeps requests c -> at_most_one_request c.
Proof. intros Hc w. rewrite Hc. lia. Qed.

Lemma at_most_one_bind {A B} (c : M A) (k : A -> M B) :
  keeps requests c -> (forall a, at_most_one_request (k a)) ->
  at_most_one_request (bind c k).
Proof.
  intros Hc Hk w. unfold bind. specialize (Hc w).
  destruct (c w) as [[e | a] w1]; cbn in *.
  - lia.
  - specialize (Hk a w1). lia.
Qed.

Lemma at_most_one_try_except {A} (body : M A) handler :
  at_most_one_request body -> (forall e, keeps requests (handler e)) ->
  at_most_one_request (try_except body handler).
Proof.
  intros Hb Hh w. unfold try_except. specialize (Hb w).
  destruct (body w) as [[e | a] w1]; cbn in *.
  - rewrite Hh. exact Hb.
  - exact Hb.
Qed.

(** The request itself: one event, then what follows must send none. *)
Lemma at_most_one_after_request {A B} ev (arrival : M A) (k : A -> M B) :
  keeps requests arrival -> (forall a, keeps requests (k a)) ->
  at_most_one_request (bind (bind (send ev) (fun _ => arrival)) k).
Proof.
  intros Harrival Hk w. unfold bind at 1 2.
  pose proof (send_requests ev w) as Hsent.
  destruct (send ev w) as [[e | []] w1] eqn:Hsend; cbn [snd] in *.
  - destruct (is_http ev); lia.
  - specialize (Harrival w1).
    destruct (arrival w1) as [[e | a] w2]; cbn [snd] in *.
    + destruct (is_http ev); lia.
    + rewrite Hk. destruct (is_http ev); lia.
Qed.

Ltac request_walk :=
  repeat (intros;
    lazymatch goal with
    | |- at_most_one_request (bind (client_post _ _ _ _) _) =>
        apply at_most_one_after_request; [solve [auto with keeps] | intros; keeps_walk]
    | |- at_most_one_request (bind (client_get _ _ _) _) =>
        apply at_most_one_after_request; [solve [auto with keeps] | intros; keeps_walk]
    | |- at_most_one_request (bind _ _) =>
        apply at_most_one_bind; [solve [auto with keeps] |]
    | |- at_most_one_request (try_except _ _) =>
        apply at_most_one_try_except; [| solve [auto with keeps]]
    | |- at_most_one_request (if ?b then _ else _) => destruct b
    | |- at_most_one_request (match ?x with _ => _ end) => destruct x
    | |- _ => solve [apply keeps_at_most_one; auto with keeps]
    end).

(** X21.  No tool retries: serving a call sends at most one HTTP request
    to the provider, and the two presentation tools send none and leave
    the world exactly as it was. *)
Theorem one_request_per_call c w :
  requests (serve c w) <= S (requests w)
  /\ match c with
     | GetSmsQr _ | GetSmsQrWithLink _ => serve c w = w
     | _ => True
     end.
Proof.
  destruct c as [env net phone_number message user_id | charge_id | charge_id
                | env net tw charge_id | env net charge_id]; cbn [serve].
  - split; [| exact I].
    revert w. change (at_most_one_request
      (create_sms_payment env net phone_number message user_id)).
    unfold create_sms_payment. request_walk.
  - split; [rewrite (get_sms_qr_keeps requests); lia |].
    apply (get_sms_qr_keeps (fun w => w)).
  - split; [rewrite (get_sms_qr_with_link_keeps requests); lia |].
    apply (get_sms_qr_with_link_keeps (fun w => w)).
  - split; [| exact I].
    revert w. change (at_most_one_request (pay_and_send_sms env net tw charge_id)).
    unfold pay_and_send_sms. request_walk.
  - split; [| exact I].
    revert w. change (at_most_one_request (check_charge_status env net charge_id)).
    unfold check_charge_status. request_walk.
Qed.
End Server.

(** ** A run of the service

    The scenario of the specification: a charge for one message to
    [+15551234567], id [ch_1], invoice [lntb1...]; the provider first
    reports it unpaid, then paid. *)

Module Scenario.

(** Stand-ins for the interpreter and the QR library in this run: the only
    string converted to a float is the default price. *)
Definition float_of (s : string) : exn + float :=
  if String.eqb s "0.10" then inr 0.1%float
  else inl (ValueError "could not convert string to float").

Definition repr_of (v : json) : string := "".

Definition png_of (data : pyval) : exn + string := inr "PNG".

Definition env : environ :=
  list_to_map
    [("OPENNODE_API_KEY", "sk_test");
     ("TWILIO_ACCOUNT_SID", "AC1");
     ("TWILIO_AUTH_TOKEN", "token");
     ("TWILIO_PHONE_NUMBER", "+15550001111")].

Definition ok (charge : json) : http_outcome := HttpResponse 200 "" (Some charge).

Definition created : json :=
  JObj [("data",
         JObj [("id", JStr "ch_1");
               ("lightning_invoice",
                JObj [("payreq", JStr "lntb1..."); ("expires_at", JInt 1700003600)]);
               ("hosted_checkout_url", JStr "https://checkout.opennode.com/ch_1")])].

(** The same answer without [expires_at]. *)
Definition created_without_expiry : json :=
  JObj [("data",
         JObj [("id", JStr "ch_1");
               ("lightning_invoice", JObj [("payreq", JStr "lntb1...")]);
               ("hosted_checkout_url", JStr "https://checkout.opennode.com/ch_1")])].

Definition unpaid_data : json :=
  JObj [("id", JStr "ch_1"); ("status", JStr "unpaid");
        ("created_at", JInt 1700000000)].

Definition unpaid : json := JObj [("data", unpaid_data)].

Definition paid : json :=
  JObj [("data",
         JObj [("id", JStr "ch_1"); ("status", JStr "paid");
               ("created_at", JInt 1700000000); ("paid_at", JInt 1700000060)])].

Definition create : call :=
  CreateSmsPayment env (ok created) "+15551234567" "Hello" "anonymous".

(** The world after the charge has been created. *)
Definition awaiting : world := serve_all float_of repr_of png_of [create].

(** The world after the paid charge has been fulfilled with receipt [SM1]. *)
Definition completed : world :=
  serve_all float_of repr_of png_of
    [create; PayAndSendSms env (ok paid) (TwilioMessage (JStr "SM1")) "ch_1"].

Definition twilio_down : twilio_outcome :=
  TwilioRaises (LibraryError "TwilioRestException" "Unable to create record").

(** [quote] with [safe=''] at work: the slash and the space are quoted, the
    unreserved characters are not. *)
Example quote_invoice :
  generate_lightning_deep_link (PStr "lnbc1/a b~c") = inr "lightning:lnbc1%2Fa%20b~c"
  /\ generate_lightning_deep_link PNone
     = inl (TypeError "quote_from_bytes() expected bytes").
Proof. split; reflexivity. Qed.

Lemma ok_answers charge data :
  subscript charge "data" = inr data -> answers (ok charge) charge data.
Proof.
  intros Hdata. exists 200%Z, "". unfold success. repeat split; [lia | lia | exact Hdata].
Qed.

Lemma ok_reports charge data status :
  subscript charge "data" = inr data ->
  subscript data "status" = inr status ->
  reports (ok charge) status.
Proof. intros Hdata Hstatus. exists charge, data. auto using ok_answers. Qed.

Lemma awaiting_reachable : reachable float_of repr_of png_of awaiting.
Proof. apply serve_all_reachable. Qed.

Lemma completed_reachable : reachable float_of repr_of png_of completed.
Proof. apply serve_all_reachable. Qed.

(** The record of [ch_1] before and after the delivery. *)
Definition record (receipt : option json) : pydict :=
  request_info "anonymous" "+15551234567" "Hello" 0.1%float
    (JStr "lntb1...") (JStr "https://checkout.opennode.com/ch_1") receipt.

Lemma awaiting_record : pending_sms awaiting !! KStr "ch_1" = Some (record None).
Proof. vm_compute. reflexivity. Qed.

Lemma completed_record :
  pending_sms completed !! KStr "ch_1" = Some (record (Some (JStr "SM1"))).
Proof. vm_compute. reflexivity. Qed.

(** *** The theorems at this run *)

Lemma unknown_charge_not_found_witness :
  pending_sms awaiting !! KStr "ch_2" = None
  /\ get_sms_qr png_of "ch_2" awaiting = (inl (NotFound "ch_2"), awaiting)
  /\ get_sms_qr_with_link png_of "ch_2" awaiting = (inl (NotFound "ch_2"), awaiting)
  /\ pay_and_send_sms repr_of env (ok paid) (TwilioMessage (JStr "SM1")) "ch_2" awaiting
     = (inl (NotFound "ch_2"), awaiting)
  /\ check_charge_status env (ok paid) "ch_2" awaiting
     = (inl (NotFound "ch_2"), awaiting).
Proof.
  split; [vm_compute; reflexivity |].
  apply unknown_charge_not_found. vm_compute. reflexivity.
Defined.

Lemma unpaid_report_without_effects_witness :
  let run := pay_and_send_sms repr_of env (ok unpaid) (TwilioMessage (JStr "SM1")) "ch_1" awaiting in
  fst run =
    inr [("charge_id", PStr "ch_1");
         ("status", PStr "unpaid");
         ("paid", PBool false);
         ("sms_sent", PBool false);
         ("message", PStr "Payment not received yet (status: unpaid)")]
  /\ pending_sms (snd run) = pending_sms awaiting
  /\ deliveries (snd run) = deliveries awaiting
  /\ outbound (snd run) =
       (outbound awaiting
        ++ [HttpGet "https://api.opennode.com/v1/charge/ch_1"
              [("Authorization", PStr "sk_test");
               ("Content-Type", PStr "application/json")]])%list.
Proof.
  eapply (unpaid_report_without_effects repr_of env (ok unpaid) (TwilioMessage (JStr "SM1"))
           "ch_1" awaiting (record None) _ (JStr "unpaid")).
  - exact awaiting_record.
  - reflexivity.
  - by eapply ok_reports.
  - reflexivity.
Defined.

Lemma failed_delivery_is_retried_witness :
  let run1 := pay_and_send_sms repr_of env (ok paid) twilio_down "ch_1" awaiting in
  let run2 :=
    pay_and_send_sms repr_of env (ok paid) (TwilioMessage (JStr "SM1")) "ch_1" (snd run1) in
  fst run1 = inl (LibraryError "TwilioRestException" "Unable to create record")
  /\ pending_sms (snd run1) = pending_sms awaiting
  /\ pending_sms (snd run1) !! KStr "ch_1" = Some (record None)
  /\ Dict.get "status" (record None) = Some (PStr "pending")
  /\ Dict.get "sms_sid" (record None) = None
  /\ deliveries (snd run1) = S (deliveries awaiting)
  /\ deliveries (snd run2) = S (deliveries (snd run1)).
Proof.
  eapply (failed_delivery_is_retried float_of repr_of png_of env (ok paid) twilio_down
           (ok paid) (TwilioMessage (JStr "SM1")) "ch_1" awaiting (record None)
           _ _ "+15550001111"
           (LibraryError "TwilioRestException" "Unable to create record")
           awaiting_reachable awaiting_record).
  - reflexivity.
  - reflexivity.
  - reflexivity.
  - reflexivity.
  - reflexivity.
  - by eapply ok_reports.
  - by eapply ok_reports.
  - reflexivity.
Defined.

Lemma second_fulfilment_sends_nothing_witness :
  let run1 := pay_and_send_sms repr_of env (ok paid) (TwilioMessage (JStr "SM1")) "ch_1" awaiting in
  let run2 :=
    pay_and_send_sms repr_of env (ok paid) (TwilioMessage (JStr "SM2")) "ch_1" (snd run1) in
  (exists report1,
     fst run1 = inr report1
     /\ Dict.get "sms_sent" report1 = Some (PBool true)
     /\ Dict.get "sms_sid" report1 = Some (PStr "SM1"))
  /\ fst run2 =
       inr [("charge_id", PStr "ch_1");
            ("status", PStr "completed");
            ("paid", PBool true);
            ("sms_sent", PBool true);
            ("message", PStr "SMS already sent for this payment")]
  /\ pending_sms (snd run2) = pending_sms (snd run1)
  /\ (exists d2,
        pending_sms (snd run2) !! KStr "ch_1" = Some d2
        /\ Dict.get "sms_sid" d2 = Some (PStr "SM1"))
  /\ deliveries (snd run2) = S (deliveries awaiting).
Proof.
  eapply (second_fulfilment_sends_nothing float_of repr_of png_of env (ok paid)
           (TwilioMessage (JStr "SM1")) env (ok paid) (TwilioMessage (JStr "SM2"))
           "ch_1" awaiting (record None) _ _ _ "+15550001111" (JStr "SM1")
           awaiting_reachable awaiting_record).
  - reflexivity.
  - reflexivity.
  - reflexivity.
  - reflexivity.
  - reflexivity.
  - by eapply ok_reports.
  - reflexivity.
  - reflexivity.
  - by eapply ok_reports.
Defined.

(** The second report carries no receipt id, where the first one does. *)
Lemma second_report_has_no_receipt :
  fst (pay_and_send_sms repr_of env (ok paid) (TwilioMessage (JStr "SM1")) "ch_1" awaiting)
  = inr [("charge_id", PStr "ch_1");
         ("status", PStr "completed");
         ("paid", PBool true);
         ("sms_sent", PBool true);
         ("sms_sid", PStr "SM1");
         ("to", PStr "+15551234567");
         ("from", PStr "+15550001111");
         ("paid_at", PJson (JInt 1700000060));
         ("message", PStr "Payment received and SMS sent successfully!")]
  /\ fst (pay_and_send_sms repr_of env (ok paid) (TwilioMessage (JStr "SM2")) "ch_1" completed)
     = inr [("charge_id", PStr "ch_1");
            ("status", PStr "completed");
            ("paid", PBool true);
            ("sms_sent", PBool true);
            ("message", PStr "SMS already sent for this payment")]
  /\ completed
     = snd (pay_and_send_sms repr_of env (ok paid) (TwilioMessage (JStr "SM1")) "ch_1" awaiting).
Proof. repeat split; vm_compute; reflexivity. Qed.




(** What C9 says of a record. *)
Definition agree (d : pydict) : Prop :=
  (Dict.get "sent" d = Some (PBool true)
     <-> Dict.get "status" d = Some (PStr "completed"))
  /\ (is_Some (Dict.get "sms_sid" d) <-> Dict.get "sent" d = Some (PBool true))
  /\ ((Dict.get "sent" d = Some (PBool false)
       /\ Dict.get "status" d = Some (PStr "pending")
       /\ Dict.get "sms_sid" d = None)
      \/ (Dict.get "sent" d = Some (PBool true)
          /\ Dict.get "status" d = Some (PStr "completed")
          /\ exists sid, Dict.get "sms_sid" d = Some (PJson sid))).

(** The record of [ch_1] as created, and as marked after the delivery. *)
Lemma sent_status_receipt_agree_witness :
  agree (record None) /\ agree (record (Some (JStr "SM1"))).
Proof.
  split.
  - exact (sent_status_receipt_agree float_of repr_of png_of
             awaiting (KStr "ch_1") (record None)
             awaiting_reachable awaiting_record).
  - exact (sent_status_receipt_agree float_of repr_of png_of
             completed (KStr "ch_1") (record (Some (JStr "SM1")))
             completed_reachable completed_record).
Defined.

Lemma check_charge_status_is_read_only_witness :
  let run := check_charge_status env (ok unpaid) "ch_1" awaiting in
  pending_sms (snd run) = pending_sms awaiting
  /\ deliveries (snd run) = deliveries awaiting
  /\ fst run =
       inr [("charge_id", PStr "ch_1");
            ("payment_status", PStr "unpaid");
            ("sms_sent", PBool false);
            ("phone_number", PStr "+15551234567");
            ("amount", PFloat 0.1%float);
            ("created_at", PJson (JInt 1700000000));
            ("paid_at", PNone)]
  /\ outbound (snd run) =
       (outbound awaiting
        ++ [HttpGet "https://api.opennode.com/v1/charge/ch_1"
              [("Authorization", PStr "sk_test");
               ("Content-Type", PStr "application/json")]])%list.
Proof.
  destruct (check_charge_status_is_read_only env (ok unpaid) "ch_1" awaiting
              (record None) awaiting_record) as (Hregistry & Hdeliveries & Hresult).
  split; [exact Hregistry |]. split; [exact Hdeliveries |].
  eapply (Hresult _ unpaid unpaid_data).
  - reflexivity.
  - by apply ok_answers.
  - reflexivity.
  - reflexivity.
  - reflexivity.
  - reflexivity.
  - reflexivity.
Defined.

Lemma deep_link_quotes_stored_invoice_witness :
  exists html,
    get_sms_qr_with_link png_of "ch_1" awaiting =
      (inr [("deep_link", PStr "lightning:lntb1...");
            ("hosted_checkout_url", PStr "https://checkout.opennode.com/ch_1");
            ("mobile_html", PStr html);
            ("instructions",
             PStr "Scan QR separately, or tap deep_link to open a wallet.")],
       awaiting).
Proof.
  destruct (deep_link_quotes_stored_invoice png_of "ch_1" awaiting
              (record None) awaiting_record) as [_ Hreturns].
  apply (Hreturns "lntb1..." "PNG").
  - reflexivity.
  - reflexivity.
  - intros _. by eexists.
Defined.

(** A second creation for which the provider hands out [ch_1] again. *)
Definition create_again : M pydict :=
  create_sms_payment float_of env (ok created) "+15557654321" "Bye" "bob".

Lemma create_replaces_existing_record_witness :
  (exists result,
     fst (create_again awaiting) = inr result
     /\ Dict.get "charge_id" result = Some (PStr "ch_1"))
  /\ pending_sms (snd (create_again awaiting)) !! KStr "ch_1"
     = Some (request_info "bob" "+15557654321" "Bye" 0.1%float
               (JStr "lntb1...") (JStr "https://checkout.opennode.com/ch_1") None)
  /\ (forall k', k' <> KStr "ch_1" ->
        pending_sms (snd (create_again awaiting)) !! k' = pending_sms awaiting !! k')
  /\ size (pending_sms (snd (create_again awaiting))) = size (pending_sms awaiting).
Proof.
  eapply (create_replaces_existing_record float_of env (ok created)
            "+15557654321" "Bye" "bob" awaiting).
  - exact awaiting_record.
  - reflexivity.
  - reflexivity.
  - by eapply ok_answers.
  - reflexivity.
  - reflexivity.
  - reflexivity.
  - reflexivity.
  - reflexivity.
  - reflexivity.
Defined.

(** The id [ch_1] is a key of the registry, and creating a charge under
    it again returns normally. *)
Lemma duplicate_charge_id_is_accepted :
  pending_sms awaiting !! KStr "ch_1" = Some (record None)
  /\ fst (create_again awaiting)
     = inr [("charge_id", PStr "ch_1");
            ("amount", PFloat 0.1%float);
            ("currency", PStr "USD");
            ("phone_number", PStr "+15557654321");
            ("lightning_invoice", PStr "lntb1...");
            ("hosted_checkout_url", PStr "https://checkout.opennode.com/ch_1");
            ("expires_at", PJson (JInt 1700003600));
            ("instructions",
             PStr "Call get_sms_qr(charge_id) to get QR code, then pay_and_send_sms(charge_id)")]
  /\ pending_sms (snd (create_again awaiting)) !! KStr "ch_1"
     = Some (request_info "bob" "+15557654321" "Bye" 0.1%float
               (JStr "lntb1...") (JStr "https://checkout.opennode.com/ch_1") None).
Proof. repeat split; vm_compute; reflexivity. Qed.

(** C4, at an input where the code departs from it.  The provider answers
    the creation request with a 2xx document that has the id, the invoice
    and the checkout URL but no [expires_at]: [create_sms_payment] raises
    [KeyError('expires_at')], and the registry, empty before the call,
    holds the record of [ch_1] after it. *)
Theorem create_failure_after_registry_write :
  let run :=
    create_sms_payment float_of env (ok created_without_expiry)
      "+15551234567" "Hello" "anonymous" startup in
  fst run = inl (KeyError "expires_at")
  /\ pending_sms startup !! KStr "ch_1" = None
  /\ pending_sms (snd run) !! KStr "ch_1" = Some (record None).
Proof. repeat split; vm_compute; reflexivity. Qed.


(** *** Further properties at this run *)

(** What the creation of [ch_1] returns. *)
Definition created_result : pydict :=
  [("charge_id", PStr "ch_1");
   ("amount", PFloat 0.1%float);
   ("currency", PStr "USD");
   ("phone_number", PStr "+15551234567");
   ("lightning_invoice", PStr "lntb1...");
   ("hosted_checkout_url", PStr "https://checkout.opennode.com/ch_1");
   ("expires_at", PJson (JInt 1700003600));
   ("instructions",
    PStr "Call get_sms_qr(charge_id) to get QR code, then pay_and_send_sms(charge_id)")].

(** What the fulfilment of [ch_1] returns. *)
Definition delivery_report : pydict :=
  [("charge_id", PStr "ch_1");
   ("status", PStr "completed");
   ("paid", PBool true);
   ("sms_sent", PBool true);
   ("sms_sid", PStr "SM1");
   ("to", PStr "+15551234567");
   ("from", PStr "+15550001111");
   ("paid_at", PJson (JInt 1700000060));
   ("message", PStr "Payment received and SMS sent successfully!")].

Definition paid_data : json :=
  JObj [("id", JStr "ch_1"); ("status", JStr "paid");
        ("created_at", JInt 1700000000); ("paid_at", JInt 1700000060)].

Definition headers : pydict :=
  [("Authorization", PStr "sk_test"); ("Content-Type", PStr "application/json")].

(** The environment without the API key, and without the sender number. *)
Definition no_key : environ := delete "OPENNODE_API_KEY" env.

Definition no_sender : environ := delete "TWILIO_PHONE_NUMBER" env.

(** The provider answering with an error status. *)
Definition server_error : http_outcome :=
  HttpResponse 500 "Internal Server Error" None.

(** A QR library that cannot encode what it is given. *)
Definition png_overflow (data : pyval) : exn + string :=
  inl (LibraryError "DataOverflowError" "Invalid version").

Lemma completed_charge_is_never_resent_witness :
  let run :=
    pay_and_send_sms repr_of env (ok paid) (TwilioMessage (JStr "SM2")) "ch_1" completed in
  pending_sms (snd run) = pending_sms completed
  /\ deliveries (snd run) = deliveries completed.
Proof.
  eapply (completed_charge_is_never_resent repr_of env (ok paid) (TwilioMessage (JStr "SM2"))
            "ch_1" completed (record (Some (JStr "SM1"))) (PBool true)).
  - exact completed_record.
  - reflexivity.
  - reflexivity.
Defined.

Lemma create_registers_returned_charge_witness :
  let run :=
    create_sms_payment float_of env (ok created) "+15551234567" "Hello" "anonymous"
      startup in
  exists charge_id k price lightning_invoice hosted,
    Dict.get "charge_id" created_result = Some (PJson charge_id)
    /\ Dict.get "amount" created_result = Some (PFloat price)
    /\ Dict.get "lightning_invoice" created_result = Some (PJson lightning_invoice)
    /\ Dict.get "hosted_checkout_url" created_result = Some (PJson hosted)
    /\ hashable charge_id = inr k
    /\ pending_sms (snd run) !! k
       = Some (request_info "anonymous" "+15551234567" "Hello" price
                 lightning_invoice hosted None)
    /\ forall k', k' <> k -> pending_sms (snd run) !! k' = pending_sms startup !! k'.
Proof.
  apply (create_registers_returned_charge float_of env (ok created)
           "+15551234567" "Hello" "anonymous" startup created_result).
  vm_compute. reflexivity.
Defined.

Lemma missing_api_key_sends_nothing_witness :
  create_sms_payment float_of no_key (ok created) "+15551234567" "Hello" "anonymous" startup
  = (inl (ValueError "OPENNODE_API_KEY not set"), startup)
  /\ pay_and_send_sms repr_of no_key (ok paid) (TwilioMessage (JStr "SM1")) "ch_1" awaiting
     = (inl (ValueError "OPENNODE_API_KEY not set"), awaiting)
  /\ check_charge_status no_key (ok paid) "ch_1" awaiting
     = (inl (ValueError "OPENNODE_API_KEY not set"), awaiting)
  /\ pay_and_send_sms repr_of no_key (ok paid) (TwilioMessage (JStr "SM1")) "ch_2" awaiting
     = (inl (NotFound "ch_2"), awaiting).
Proof.
  destruct (missing_api_key_sends_nothing float_of repr_of no_key)
    as [Hcreate Hlookup]; [vm_compute; reflexivity |].
  split; [apply Hcreate |].
  destruct (Hlookup (ok paid) (TwilioMessage (JStr "SM1")) "ch_1" awaiting)
    as [Hpay Hcheck].
  split; [exact Hpay |]. split; [exact Hcheck |].
  apply (Hlookup (ok paid) (TwilioMessage (JStr "SM1")) "ch_2" awaiting).
Defined.

Lemma missing_twilio_settings_block_delivery_witness :
  pay_and_send_sms repr_of no_sender (ok paid) (TwilioMessage (JStr "SM1")) "ch_1" awaiting
  = (inl (ValueError
            (if unset (no_sender !! "TWILIO_ACCOUNT_SID")
                || unset (no_sender !! "TWILIO_AUTH_TOKEN")
             then "TWILIO credentials not set"
             else "TWILIO_PHONE_NUMBER not set")),
     World (pending_sms awaiting)
       (outbound awaiting ++ [HttpGet (charge_url "ch_1") headers])).
Proof.
  eapply (missing_twilio_settings_block_delivery repr_of no_sender (ok paid)
            (TwilioMessage (JStr "SM1")) "ch_1" awaiting (record None) (PBool false) headers).
  - exact awaiting_record.
  - reflexivity.
  - reflexivity.
  - vm_compute. reflexivity.
  - by eapply ok_reports.
  - vm_compute. reflexivity.
Defined.

Lemma provider_error_status_surfaces_witness :
  let error := ValueError "OpenNode API error: 500 - Internal Server Error" in
  create_sms_payment float_of env server_error "+15551234567" "Hello" "anonymous" startup
  = (inl error,
     World (pending_sms startup)
       (outbound startup
        ++ [HttpPost charges_url
              (charge_payload 0.1%float "+15551234567" "anonymous" 0) headers]))
  /\ pay_and_send_sms repr_of env server_error (TwilioMessage (JStr "SM1")) "ch_1" awaiting
     = (inl error,
        World (pending_sms awaiting)
          (outbound awaiting ++ [HttpGet (charge_url "ch_1") headers]))
  /\ check_charge_status env server_error "ch_1" awaiting
     = (inl (HTTPStatusError 500 "Internal Server Error"),
        World (pending_sms awaiting)
          (outbound awaiting ++ [HttpGet (charge_url "ch_1") headers])).
Proof.
  destruct (provider_error_status_surfaces float_of repr_of env 500%Z
              "Internal Server Error" None headers)
    as [Hcreate Hlookup]; [unfold success; lia | vm_compute; reflexivity |].
  split.
  - apply (Hcreate 0.1%float "+15551234567" "Hello" "anonymous" startup).
    vm_compute. reflexivity.
  - apply (Hlookup (TwilioMessage (JStr "SM1")) "ch_1" awaiting).
    rewrite awaiting_record. by eexists.
Defined.

Lemma created_charge_reports_unsent_witness :
  let creation :=
    create_sms_payment float_of env (ok created) "+15551234567" "Hello" "anonymous"
      startup in
  exists amount,
    Dict.get "amount" created_result = Some amount
    /\ fst (check_charge_status env (ok unpaid) "ch_1" (snd creation))
       = inr [("charge_id", PStr "ch_1");
              ("payment_status", PStr "unpaid");
              ("sms_sent", PBool false);
              ("phone_number", PStr "+15551234567");
              ("amount", amount);
              ("created_at", PJson (JInt 1700000000));
              ("paid_at", PJson (member_or_none unpaid_data "paid_at"))].
Proof.
  eapply (created_charge_reports_unsent float_of env (ok created) "+15551234567"
            "Hello" "anonymous" startup created_result "ch_1" env (ok unpaid)
            headers unpaid unpaid_data (JStr "unpaid") (JInt 1700000000)).
  - vm_compute. reflexivity.
  - reflexivity.
  - vm_compute. reflexivity.
  - by apply ok_answers.
  - reflexivity.
  - reflexivity.
Defined.

Lemma created_charge_has_qr_witness :
  let creation :=
    create_sms_payment float_of env (ok created) "+15551234567" "Hello" "anonymous"
      startup in
  exists invoice,
    Dict.get "lightning_invoice" created_result = Some invoice
    /\ get_sms_qr png_of "ch_1" (snd creation)
       = (match png_of invoice with
          | inr png => inr {| image_data := png; image_format := "png" |}
          | inl e => inl e
          end, snd creation).
Proof.
  eapply (created_charge_has_qr float_of png_of env (ok created) "+15551234567"
            "Hello" "anonymous" startup created_result "ch_1").
  - vm_compute. reflexivity.
  - reflexivity.
Defined.

Lemma delivered_charge_reports_sent_witness :
  let fulfilment :=
    pay_and_send_sms repr_of env (ok paid) (TwilioMessage (JStr "SM1")) "ch_1" awaiting in
  exists phone_number amount,
    fst (check_charge_status env (ok paid) "ch_1" (snd fulfilment))
    = inr [("charge_id", PStr "ch_1");
           ("payment_status", PStr "paid");
           ("sms_sent", PBool true);
           ("phone_number", phone_number);
           ("amount", amount);
           ("created_at", PJson (JInt 1700000000));
           ("paid_at", PJson (member_or_none paid_data "paid_at"))].
Proof.
  eapply (delivered_charge_reports_sent float_of repr_of png_of env (ok paid)
            (TwilioMessage (JStr "SM1")) "ch_1" awaiting delivery_report (PStr "SM1")
            env (ok paid) headers paid paid_data (JStr "paid") (JInt 1700000000)).
  - exact awaiting_reachable.
  - vm_compute. reflexivity.
  - reflexivity.
  - vm_compute. reflexivity.
  - by apply ok_answers.
  - reflexivity.
  - reflexivity.
Defined.

Lemma registered_charges_stay_registered_witness :
  is_Some
    (pending_sms
       (serve_from float_of repr_of png_of awaiting
          [PayAndSendSms env (ok paid) (TwilioMessage (JStr "SM1")) "ch_1";
           CreateSmsPayment env server_error "+15557654321" "Bye" "bob"])
     !! KStr "ch_1").
Proof.
  apply registered_charges_stay_registered.
  rewrite awaiting_record. by eexists.
Defined.

Lemma deep_link_of_plain_invoice_witness :
  generate_lightning_deep_link (PStr "lnbc1pvjluezpp5qqqsyq")
  = inr ("lightning:" +:+ "lnbc1pvjluezpp5qqqsyq").
Proof. apply deep_link_of_plain_invoice. reflexivity. Defined.

Lemma deep_link_alphabet_witness :
  exists quoted,
    "lightning:lnbc1%2Fa%20b~c" = "lightning:" +:+ quoted
    /\ all_chars (fun a => always_safe a || Ascii.eqb a "%") quoted = true.
Proof. apply (deep_link_alphabet (PStr "lnbc1/a b~c")). reflexivity. Defined.

Lemma deep_link_injective_witness :
  generate_lightning_deep_link (PStr "lnbc1/a b")
  = generate_lightning_deep_link (PStr "lnbc1/a b")
  /\ "lnbc1/a b" = "lnbc1/a b".
Proof. split; [reflexivity | apply deep_link_injective; reflexivity]. Defined.

Lemma link_fails_with_qr_witness :
  get_sms_qr_with_link png_overflow "ch_1" awaiting
  = (inl (LibraryError "DataOverflowError" "Invalid version"), awaiting).
Proof.
  apply (link_fails_with_qr png_overflow "ch_1" awaiting (record None)
           (PStr "lntb1...")).
  - exact awaiting_record.
  - reflexivity.
  - reflexivity.
Defined.

End Scenario.

(** * The Smithery variant

    [src/src/mcp_server/server.py] builds the same five tools inside
    [create_server()], around a registry of its own.  The configuration is
    not read from the process environment but from the session:
    [ctx.session_config], a [ConfigSchema].  The tools take [ctx] as an
    optional argument, as in the stand-alone server.  The notifications a
    tool sends to its client through [ctx.info] and [ctx.error] are not part
    of the world modelled here. *)

Module Smithery.

(** [ConfigSchema]: four required strs and the price, a float. *)
Record ConfigSchema := {
  opennode_api_key : string;
  twilio_account_sid : string;
  twilio_auth_token : string;
  twilio_phone_number : string;
  sms_price_usd : float
}.

(** The request context; of it the tools read [session_config] only. *)
Record Context := { session_config : ConfigSchema }.

(** [ctx.session_config], for a [ctx] that may be [None]. *)
Definition session_config_of (ctx : option Context) : exn + ConfigSchema :=
  match ctx with
  | Some c => inr (session_config c)
  | None => inl (AttributeError "'NoneType' object has no attribute 'session_config'")
  end.

Section Server.

(** Python's [repr(v)]. *)
Variable py_repr : json -> string.

(** The qrcode pipeline of [generate_qr_code]. *)
Variable qr_png : pyval -> exn + string.

(** [TwilioClient(account_sid, auth_token)], the constructor of the SDK:
    the client, or the exception the SDK raises for credentials it does not
    accept. *)
Variable twilio_rest_client : string -> string -> exn + TwilioClient.

Definition get_opennode_headers (ctx : option Context) : exn + pydict :=
  match session_config_of ctx with
  | inr config =>
      inr [("Authorization", PStr (opennode_api_key config));
           ("Content-Type", PStr "application/json")]
  | inl e => inl e
  end.

Definition get_twilio_client (ctx : option Context) : exn + TwilioClient :=
  match session_config_of ctx with
  | inr config =>
      twilio_rest_client (twilio_account_sid config) (twilio_auth_token config)
  | inl e => inl e
  end.

Definition generate_qr_code (data : pyval) : exn + Image :=
  match qr_png data with
  | inr png => inr {| image_data := png; image_format := "png" |}
  | inl e => inl e
  end.

Definition generate_lightning_deep_link (invoice : pyval) : exn + string :=
  match quote invoice "" with
  | inr quoted => inr ("lightning:" +:+ quoted)
  | inl e => inl e
  end.

Definition create_sms_payment (ctx : option Context) (net : http_outcome)
    (phone_number message user_id : string) : M pydict :=
  try_except
    ((* price = ctx.session_config.sms_price_usd *)
     config <- lift (session_config_of ctx) ;;
     let price := sms_price_usd config in
     n <- registry_len ;;
     let payload :=
       [("amount", PFloat price);
        ("currency", PStr "USD");
        ("description", PStr ("SMS to " +:+ phone_number));
        ("auto_settle", PBool false);
        ("order_id", PStr ("sms-" +:+ user_id +:+ "-" +:+ pretty n))] in
     headers <- lift (get_opennode_headers ctx) ;;
     response <- client_post net "https://api.opennode.com/v1/charges" payload headers ;;
     raise_for_status response ;;
     charge <- response_json response ;;
     (* charge_id = charge["data"]["id"] *)
     data <- lift (subscript charge "data") ;;
     charge_id <- lift (subscript data "id") ;;
     (* lightning_invoice = charge["data"]["lightning_invoice"]["payreq"] *)
     data <- lift (subscript charge "data") ;;
     invoice <- lift (subscript data "lightning_invoice") ;;
     lightning_invoice <- lift (subscript invoice "payreq") ;;
     (* pending_sms[charge_id] = {...} *)
     data <- lift (subscript charge "data") ;;
     hosted_checkout_url <- lift (subscript data "hosted_checkout_url") ;;
     k <- lift (hashable charge_id) ;;
     registry_setitem k
       [("user_id", PStr user_id);
        ("phone_number", PStr phone_number);
        ("message", PStr message);
        ("amount", PFloat price);
        ("lightning_invoice", PJson lightning_invoice);
        ("hosted_checkout_url", PJson hosted_checkout_url);
        ("status", PStr "pending");
        ("sent", PBool false)] ;;
     (* return {...} *)
     data <- lift (subscript charge "data") ;;
     hosted_checkout_url <- lift (subscript data "hosted_checkout_url") ;;
     data <- lift (subscript charge "data") ;;
     invoice <- lift (subscript data "lightning_invoice") ;;
     expires_at <- lift (subscript invoice "expires_at") ;;
     ret [("charge_id", PJson charge_id);
          ("amount", PFloat price);
          ("currency", PStr "USD");
          ("phone_number", PStr phone_number);
          ("lightning_invoice", PJson lightning_invoice);
          ("hosted_checkout_url", PJson hosted_checkout_url);
          ("expires_at", PJson expires_at);
          ("instructions",
           PStr "Call get_sms_qr(charge_id) to get QR code, then pay_and_send_sms(charge_id)")])
    except_opennode.

Definition get_sms_qr (ctx : option Context) (charge_id : string) : M Image :=
  present <- registry_contains (KStr charge_id) ;;
  if negb present then not_found charge_id else
  lightning_invoice <- registry_getfield charge_id "lightning_invoice" ;;
  lift (generate_qr_code lightning_invoice).

(** The page of [get_sms_qr_with_link] in this file: the same three holes,
    its own indentation, no comments in the script. *)
Definition html_page (deep_link fallback link : string) : string :=
  String.concat nl [
    "";
    "        <!doctype html>";
    "        <html>";
    "          <head>";
    "            <meta name=" +:+ dq +:+ "viewport" +:+ dq +:+ " content=" +:+ dq +:+ "width=device-width,initial-scale=1" +:+ dq +:+ "/>";
    "            <title>Pay with Lightning</title>";
    "            <script>";
    "              function openWallet() {";
    "                window.location = " +:+ dq +:+ deep_link +:+ dq +:+ ";";
    "                setTimeout(function() {";
    "                  " +:+ fallback;
    "                }, 1200);";
    "              }";
    "              window.addEventListener('load', function() {";
    "                openWallet();";
    "              });";
    "            </script>";
    "            <style>body { font-family: sans-serif; text-align:center; padding:20px; }</style>";
    "          </head>";
    "          <body>";
    "            <h2>Pay with Lightning</h2>";
    "            <p>Tap the button below if your wallet didn't open automatically.</p>";
    "            <p><a href=" +:+ dq +:+ deep_link +:+ dq +:+ " style=" +:+ dq +:+ "display:inline-block;padding:12px 18px;background:#111;color:#fff;border-radius:8px;text-decoration:none;" +:+ dq +:+ ">Open wallet</a></p>";
    "            <div id=" +:+ dq +:+ "fallback" +:+ dq +:+ " style=" +:+ dq +:+ "display:none;" +:+ dq +:+ ">";
    "              <p>If your wallet doesn't open, use this link:</p>";
    "              <p><a href=" +:+ dq +:+ link +:+ dq +:+ ">" +:+ link +:+ "</a></p>";
    "            </div>";
    "            <hr/>";
    "            <p style=" +:+ dq +:+ "font-size:0.85em;color:#666;" +:+ dq +:+ ">Or scan the QR code shown by the app.</p>";
    "          </body>";
    "        </html>";
    "        "
  ].

Definition html_snippet (deep_link : string) (hosted_checkout : pyval)
  : exn + string :=
  if truthy hosted_checkout then
    match hosted_checkout with
    | PStr url =>
        inr (html_page deep_link ("window.location = " +:+ "'" +:+ url +:+ "'" +:+ ";") url)
    | _ =>
        inl (TypeError ("can only concatenate str (not " +:+ dq
                        +:+ type_name hosted_checkout +:+ dq +:+ ") to str"))
    end
  else
    inr (html_page deep_link
           "document.getElementById('fallback').style.display='block';"
           deep_link).

Definition get_sms_qr_with_link (ctx : option Context) (charge_id : string)
  : M pydict :=
  present <- registry_contains (KStr charge_id) ;;
  if negb present then not_found charge_id else
  (* data = pending_sms[charge_id]; invoice = data["lightning_invoice"] *)
  registry_getitem charge_id ;;
  invoice <- registry_getfield charge_id "lightning_invoice" ;;
  (* hosted_checkout = data.get("hosted_checkout_url", None) *)
  hosted_checkout <- registry_getfield_or_none charge_id "hosted_checkout_url" ;;
  deep_link <- lift (generate_lightning_deep_link invoice) ;;
  html <- lift (html_snippet deep_link hosted_checkout) ;;
  ret [("deep_link", PStr deep_link);
       ("hosted_checkout_url", hosted_checkout);
       ("mobile_html", PStr html);
       ("instructions", PStr "Scan QR separately, or tap deep_link to open a wallet.")].

Definition pay_and_send_sms (ctx : option Context) (net : http_outcome)
    (tw : twilio_outcome) (charge_id : string) : M pydict :=
  present <- registry_contains (KStr charge_id) ;;
  if negb present then not_found charge_id else
  try_except
    (headers <- lift (get_opennode_headers ctx) ;;
     response <- client_get net ("https://api.opennode.com/v1/charge/" +:+ charge_id) headers ;;
     raise_for_status response ;;
     charge <- response_json response ;;
     (* status = charge["data"]["status"] *)
     data <- lift (subscript charge "data") ;;
     status <- lift (subscript data "status") ;;
     (* sms_request = pending_sms[charge_id] *)
     registry_getitem charge_id ;;
     if ne_str status "paid" then
       ret [("charge_id", PStr charge_id);
            ("status", PJson status);
            ("paid", PBool false);
            ("sms_sent", PBool false);
            ("message",
             PStr ("Payment not received yet (status: " +:+ py_str py_repr status +:+ ")"))]
     else
     sent <- registry_getfield charge_id "sent" ;;
     if negb (truthy sent) then
       twilio <- lift (get_twilio_client ctx) ;;
       (* from_number = ctx.session_config.twilio_phone_number *)
       config <- lift (session_config_of ctx) ;;
       let from_number := PStr (twilio_phone_number config) in
       body <- registry_getfield charge_id "message" ;;
       to <- registry_getfield charge_id "phone_number" ;;
       sid <- messages_create tw twilio body from_number to ;;
       registry_setfield charge_id "sent" (PBool true) ;;
       registry_setfield charge_id "status" (PStr "completed") ;;
       registry_setfield charge_id "sms_sid" (PJson sid) ;;
       to <- registry_getfield charge_id "phone_number" ;;
       data <- lift (subscript charge "data") ;;
       paid_at <- lift (dot_get data "paid_at") ;;
       ret [("charge_id", PStr charge_id);
            ("status", PStr "completed");
            ("paid", PBool true);
            ("sms_sent", PBool true);
            ("sms_sid", PJson sid);
            ("to", to);
            ("from", from_number);
            ("paid_at", PJson paid_at);
            ("message", PStr "Payment received and SMS sent successfully!")]
     else
       ret [("charge_id", PStr charge_id);
            ("status", PStr "completed");
            ("paid", PBool true);
            ("sms_sent", PBool true);
            ("message", PStr "SMS already sent for this payment")])
    except_opennode.

Definition check_charge_status (ctx : option Context) (net : http_outcome)
    (charge_id : string) : M pydict :=
  present <- registry_contains (KStr charge_id) ;;
  if negb present then not_found charge_id else
  (* sms_request = pending_sms[charge_id] *)
  registry_getitem charge_id ;;
  try_except
    (headers <- lift (get_opennode_headers ctx) ;;
     response <- client_get net ("https://api.opennode.com/v1/charge/" +:+ charge_id) headers ;;
     raise_for_status response ;;
     charge <- response_json response ;;
     data <- lift (subscript charge "data") ;;
     payment_status <- lift (subscript data "status") ;;
     sms_sent <- registry_getfield charge_id "sent" ;;
     phone_number <- registry_getfield charge_id "phone_number" ;;
     amount <- registry_getfield charge_id "amount" ;;
     data <- lift (subscript charge "data") ;;
     created_at <- lift (subscript data "created_at") ;;
     data <- lift (subscript charge "data") ;;
     paid_at <- lift (dot_get data "paid_at") ;;
     ret [("charge_id", PStr charge_id);
          ("payment_status", PJson payment_status);
          ("sms_sent", sms_sent);
          ("phone_number", phone_number);
          ("amount", amount);
          ("created_at", PJson created_at);
          ("paid_at", PJson paid_at)])
    raise.

(** ** Runs of this server *)

Inductive call :=
| CreateSmsPayment (ctx : option Context) (net : http_outcome)
    (phone_number message user_id : string)
| GetSmsQr (ctx : option Context) (charge_id : string)
| GetSmsQrWithLink (ctx : option Context) (charge_id : string)
| PayAndSendSms (ctx : option Context) (net : http_outcome) (tw : twilio_outcome)
    (charge_id : string)
| CheckChargeStatus (ctx : option Context) (net : http_outcome) (charge_id : string).

Definition serve (c : call) (w : world) : world :=
  match c with
  | CreateSmsPayment ctx net phone_number message user_id =>
      snd (create_sms_payment ctx net phone_number message user_id w)
  | GetSmsQr ctx charge_id => snd (get_sms_qr ctx charge_id w)
  | GetSmsQrWithLink ctx charge_id => snd (get_sms_qr_with_link ctx charge_id w)
  | PayAndSendSms ctx net tw charge_id =>
      snd (pay_and_send_sms ctx net tw charge_id w)
  | CheckChargeStatus ctx net charge_id =>
      snd (check_charge_status ctx net charge_id w)
  end.

Inductive reachable : world -> Prop :=
| reachable_startup : reachable startup
| reachable_serve c w : reachable w -> reachable (serve c w).

Definition serve_all (cs : list call) : world :=
  fold_left (fun w c => serve c w) cs startup.

(** ** The shape of its registry *)

Create HintDb keeps discriminated.
#[local] Hint Resolve keeps_ret keeps_raise keeps_lift keeps_except_opennode
  keeps_not_found keeps_registry_len keeps_registry_contains
  keeps_registry_getitem keeps_registry_getfield
  keeps_registry_getfield_or_none keeps_arrive keeps_raise_for_status
  keeps_response_json send_keeps_registry send_keeps_deliveries
  setitem_keeps_deliveries setfield_keeps_deliveries
  client_post_keeps_registry client_get_keeps_registry
  client_post_keeps_deliveries client_get_keeps_deliveries
  messages_create_keeps_registry : keeps.

Ltac keeps_walk :=
  repeat (intros;
    lazymatch goal with
    | |- keeps _ (bind _ _) => apply keeps_bind
    | |- keeps _ (try_except _ _) => apply keeps_try_except
    | |- keeps _ (if ?b then _ else _) => destruct b
    | |- keeps _ (match ?x with _ => _ end) => destruct x
    | |- _ => solve [auto with keeps]
    end).

Ltac preserves_walk :=
  repeat (intros;
    lazymatch goal with
    | |- preserves (bind (registry_setfield _ _ _) _) => apply preserves_mark_sent
    | |- preserves (bind (registry_setitem _ _) _) =>
        apply preserves_bind; [apply preserves_setitem |]
    | |- preserves (bind _ _) => apply preserves_bind
    | |- preserves (try_except _ _) => apply preserves_try_except
    | |- preserves (if ?b then _ else _) => destruct b
    | |- preserves (match ?x with _ => _ end) => destruct x
    | |- _ => solve [apply keeps_preserves; auto with keeps]
    end).

Lemma smithery_lookups_keep {T} (obs : world -> T) ctx charge_id :
  keeps obs (get_sms_qr ctx charge_id)
  /\ keeps obs (get_sms_qr_with_link ctx charge_id).
Proof. split; [unfold get_sms_qr | unfold get_sms_qr_with_link]; keeps_walk. Qed.

Lemma smithery_status_keeps ctx net charge_id :
  keeps pending_sms (check_charge_status ctx net charge_id)
  /\ keeps deliveries (check_charge_status ctx net charge_id).
Proof. split; unfold check_charge_status; keeps_walk. Qed.

Lemma smithery_create_preserves ctx net phone_number message user_id :
  preserves (create_sms_payment ctx net phone_number message user_id).
Proof. unfold create_sms_payment. preserves_walk. Qed.

Lemma smithery_pay_preserves ctx net tw charge_id :
  preserves (pay_and_send_sms ctx net tw charge_id).
Proof. unfold pay_and_send_sms. preserves_walk. Qed.

Lemma smithery_serve_preserves c w : registry_ok w -> registry_ok (serve c w).
Proof.
  destruct c; cbn [serve].
  - apply smithery_create_preserves.
  - apply keeps_preserves, smithery_lookups_keep.
  - apply keeps_preserves, smithery_lookups_keep.
  - apply smithery_pay_preserves.
  - apply keeps_preserves, smithery_status_keeps.
Qed.

Lemma smithery_reachable_registry_ok w : reachable w -> registry_ok w.
Proof.
  induction 1 as [| c w _ IH].
  - intros k d. cbn. by rewrite lookup_empty.
  - by apply smithery_serve_preserves.
Qed.

Lemma smithery_serve_all_reachable cs : reachable (serve_all cs).
Proof.
  unfold serve_all. generalize startup reachable_startup.
  induction cs as [| c cs IH]; intros w Hw; cbn.
  - exact Hw.
  - apply IH. by constructor.
Qed.

(** X18.  The registry of the Smithery server keeps the same invariant as
    that of the stand-alone server, whatever contexts its tools are called
    with: in every reachable world each record is either as created
    ([sent=False], status "pending", no [sms_sid]) or as marked after a
    delivery ([sent=True], status "completed", the key [sms_sid] present,
    with the sid of Twilio's message, whatever it is, as its value). *)
Theorem smithery_records_pending_or_completed w k d :
  reachable w ->
  pending_sms w !! k = Some d ->
  (Dict.get "sent" d = Some (PBool false)
   /\ Dict.get "status" d = Some (PStr "pending")
   /\ Dict.get "sms_sid" d = None)
  \/ (Dict.get "sent" d = Some (PBool true)
      /\ Dict.get "status" d = Some (PStr "completed")
      /\ exists sid, Dict.get "sms_sid" d = Some (PJson sid)).
Proof.
  intros Hreach Hd.
  destruct (smithery_reachable_registry_ok w Hreach k d Hd) as
    (user_id & phone_number & message & price & invoice & hosted & receipt & ->).
  destruct receipt as [sid |].
  - right. split; [reflexivity |]. split; [reflexivity | by exists sid].
  - left. repeat split.
Qed.

End Server.

End Smithery.

(** * The two servers side by side *)

Section Variants.

Variable py_float : string -> exn + float.
Variable py_repr : json -> string.
Variable qr_png : pyval -> exn + string.
Variable twilio_rest_client : string -> string -> exn + TwilioClient.

(** The process environment [env] holds the settings of the session
    configuration [config], none of them empty: the stand-alone server run
    in [env] is configured as the Smithery server is by [config]. *)
Definition configured (config : Smithery.ConfigSchema) (env : environ) : Prop :=
  env !! "OPENNODE_API_KEY" = Some (Smithery.opennode_api_key config)
  /\ env !! "TWILIO_ACCOUNT_SID" = Some (Smithery.twilio_account_sid config)
  /\ env !! "TWILIO_AUTH_TOKEN" = Some (Smithery.twilio_auth_token config)
  /\ env !! "TWILIO_PHONE_NUMBER" = Some (Smithery.twilio_phone_number config)
  /\ unset (Some (Smithery.opennode_api_key config)) = false
  /\ unset (Some (Smithery.twilio_account_sid config)) = false
  /\ unset (Some (Smithery.twilio_auth_token config)) = false
  /\ unset (Some (Smithery.twilio_phone_number config)) = false
  /\ get_sms_price py_float env = inr (Smithery.sms_price_usd config)
  /\ twilio_rest_client (Smithery.twilio_account_sid config)
       (Smithery.twilio_auth_token config)
     = inr {| account_sid := Smithery.twilio_account_sid config;
              auth_token := Smithery.twilio_auth_token config |}.

(** Unfolds the tools of both servers and the monad. *)
Ltac exec2 :=
  lazy beta iota zeta delta
    [create_sms_payment get_sms_qr get_sms_qr_with_link pay_and_send_sms
     check_charge_status
     Smithery.create_sms_payment Smithery.get_sms_qr Smithery.get_sms_qr_with_link
     Smithery.pay_and_send_sms Smithery.check_charge_status
     Smithery.session_config_of Smithery.get_opennode_headers
     Smithery.get_twilio_client Smithery.session_config
     bind ret raise lift try_except except_opennode not_found
     registry_len registry_contains registry_setitem registry_getitem
     registry_getfield registry_getfield_or_none registry_setfield
     client_post client_get arrive send raise_for_status response_json
     messages_create negb fst snd];
  cbn [pending_sms outbound status_code text document].

Lemma configured_headers config env :
  configured config env ->
  get_opennode_headers env
  = inr [("Authorization", PStr (Smithery.opennode_api_key config));
         ("Content-Type", PStr "application/json")].
Proof.
  intros (Hkey & _ & _ & _ & Hset & _).
  unfold get_opennode_headers. by rewrite Hkey, Hset.
Qed.

Lemma configured_twilio config env :
  configured config env ->
  get_twilio_client env
  = inr {| account_sid := Smithery.twilio_account_sid config;
           auth_token := Smithery.twilio_auth_token config |}.
Proof.
  intros (_ & Hsid & Htoken & _ & _ & Hsid_set & Htoken_set & _).
  unfold get_twilio_client. by rewrite Hsid, Htoken, Hsid_set, Htoken_set.
Qed.

(** X19.  Given the same settings, one in the session configuration and
    the other in the process environment, the Smithery server and the
    stand-alone server are the same program for creating a charge, for
    fulfilling it, for its status and for its QR code: on every registry,
    for every answer of the provider and of Twilio, the tools of the two
    files return or raise the same thing and leave the same world (the
    notifications through [ctx] aside). *)
Theorem variants_agree config env net tw phone_number message user_id charge_id w :
  configured config env ->
  let ctx := Some {| Smithery.session_config := config |} in
  Smithery.create_sms_payment ctx net phone_number message user_id w
  = create_sms_payment py_float env net phone_number message user_id w
  /\ Smithery.pay_and_send_sms py_repr twilio_rest_client ctx net tw charge_id w
     = pay_and_send_sms py_repr env net tw charge_id w
  /\ Smithery.check_charge_status ctx net charge_id w
     = check_charge_status env net charge_id w
  /\ Smithery.get_sms_qr qr_png ctx charge_id w = get_sms_qr qr_png charge_id w.
Proof.
  intros Hconfigured. cbv zeta.
  pose proof (configured_headers _ _ Hconfigured) as Hheaders.
  pose proof (configured_twilio _ _ Hconfigured) as Htwilio.
  destruct Hconfigured as (_ & _ & _ & Hfrom & _ & _ & _ & Hfrom_set & Hprice & Hclient).
  split; [| split; [| split]].
  - exec2. rewrite Hprice, Hheaders. exec2. reflexivity.
  - exec2. rewrite Hheaders, Htwilio, Hclient, Hfrom, Hfrom_set. exec2. reflexivity.
  - exec2. rewrite Hheaders. exec2. reflexivity.
  - reflexivity.
Qed.

Ltac settle2 :=
  match goal with
  | H : ?x = _ |- context [match ?x with _ => _ end] => rewrite H
  end.

Ltac run2 := repeat (exec2; settle2); exec2.

Lemma smithery_html_snippet_returns deep_link hosted :
  (truthy hosted = true -> exists url, hosted = PStr url) ->
  exists html, Smithery.html_snippet deep_link hosted = inr html.
Proof.
  intros Hstr. unfold Smithery.html_snippet.
  destruct (truthy hosted) eqn:Htruthy; [| by eexists].
  destruct Hstr as [url ->]; [reflexivity |]. by eexists.
Qed.

Lemma html_snippet_needs_str deep_link hosted html :
  html_snippet deep_link hosted = inr html ->
  truthy hosted = true -> exists url, hosted = PStr url.
Proof.
  unfold html_snippet. intros Hhtml Htruthy. rewrite Htruthy in Hhtml.
  destruct hosted as [[| | | url | |] |]; try discriminate Hhtml. by exists url.
Qed.

(** X22.  [get_sms_qr_with_link] of the Smithery server does not run the
    QR pipeline: for a registered charge whose stored invoice
    [generate_lightning_deep_link] accepts and whose stored checkout URL is
    a str or false, it returns that link, the checkout URL, a page and the
    instructions, and changes nothing. *)
Theorem smithery_link_needs_no_picture ctx charge_id w d invoice deep_link :
  pending_sms w !! KStr charge_id = Some d ->
  Dict.get "lightning_invoice" d = Some invoice ->
  Smithery.generate_lightning_deep_link invoice = inr deep_link ->
  let hosted := default PNone (Dict.get "hosted_checkout_url" d) in
  (truthy hosted = true -> exists url, hosted = PStr url) ->
  exists html,
    Smithery.get_sms_qr_with_link ctx charge_id w
    = (inr [("deep_link", PStr deep_link);
            ("hosted_checkout_url", hosted);
            ("mobile_html", PStr html);
            ("instructions",
             PStr "Scan QR separately, or tap deep_link to open a wallet.")],
       w).
Proof.
  intros Hd Hinvoice Hlink hosted Hstr. subst hosted.
  pose proof (contains_present _ _ _ Hd) as Hpresent.
  destruct (smithery_html_snippet_returns deep_link _ Hstr) as [html Hhtml].
  exists html. run2. reflexivity.
Qed.

(** X23.  Whenever the link tool of the stand-alone server returns, that of
    the Smithery server returns too, with the same deep link, the same
    checkout URL and the same instructions, and neither changes the world;
    only the layout of the page differs. *)
Theorem link_variants_agree ctx charge_id w result w' :
  get_sms_qr_with_link qr_png charge_id w = (inr result, w') ->
  exists result',
    Smithery.get_sms_qr_with_link ctx charge_id w = (inr result', w')
    /\ w' = w
    /\ Dict.get "deep_link" result' = Dict.get "deep_link" result
    /\ Dict.get "hosted_checkout_url" result' = Dict.get "hosted_checkout_url" result
    /\ Dict.get "instructions" result' = Dict.get "instructions" result.
Proof.
  exec2.
  destruct (bool_decide (is_Some (pending_sms w !! KStr charge_id))) eqn:Hpresent;
    run2; [| by intros [=]].
  destruct (pending_sms w !! KStr charge_id) as [d |] eqn:Hd; run2; [| by intros [=]].
  destruct (Dict.get "lightning_invoice" d) as [invoice |] eqn:Hinvoice;
    run2; [| by intros [=]].
  unfold generate_qr_code.
  destruct (qr_png invoice) as [e | png]; run2; [by intros [=] |].
  unfold generate_lightning_deep_link, Smithery.generate_lightning_deep_link.
  destruct (quote invoice "") as [e | quoted]; run2; [by intros [=] |].
  destruct (html_snippet _ _) as [e | html] eqn:Hhtml; run2; [by intros [=] |].
  intros [= <- <-].
  destruct (smithery_html_snippet_returns ("lightning:" +:+ quoted) _
              (html_snippet_needs_str _ _ _ Hhtml)) as [html' Hhtml'].
  rewrite Hhtml'. run2. eexists. repeat split.
Qed.

(** X24.  The tools of the Smithery server take [ctx] with the default
    [None], but those that talk to the provider cannot run without it:
    [create_sms_payment], on any registry, and [pay_and_send_sms] and
    [check_charge_status] for a registered charge raise the
    [AttributeError] of the access to [ctx.session_config]; no request is
    sent and the registry is unchanged. *)
Theorem smithery_tools_need_context net :
  let e := AttributeError "'NoneType' object has no attribute 'session_config'" in
  (forall phone_number message user_id w,
     Smithery.create_sms_payment None net phone_number message user_id w = (inl e, w))
  /\ (forall tw charge_id w,
        is_Some (pending_sms w !! KStr charge_id) ->
        Smithery.pay_and_send_sms py_repr twilio_rest_client None net tw charge_id w
        = (inl e, w)
        /\ Smithery.check_charge_status None net charge_id w = (inl e, w)).
Proof.
  cbv zeta. split.
  - reflexivity.
  - intros tw charge_id w [d Hd].
    pose proof (contains_present _ _ _ Hd) as Hpresent.
    split; run2; reflexivity.
Qed.

End Variants.

(** ** A session of the Smithery server

    The run of [Scenario] again, with the settings of its environment in
    the session configuration. *)

Module Session.

Import Scenario.

Definition config : Smithery.ConfigSchema :=
  {| Smithery.opennode_api_key := "sk_test";
     Smithery.twilio_account_sid := "AC1";
     Smithery.twilio_auth_token := "token";
     Smithery.twilio_phone_number := "+15550001111";
     Smithery.sms_price_usd := 0.1%float |}.

Definition ctx : option Smithery.Context :=
  Some {| Smithery.session_config := config |}.

(** The constructor of the Twilio SDK keeps the credentials it is given. *)
Definition rest_client (sid token : string) : exn + TwilioClient :=
  inr {| account_sid := sid; auth_token := token |}.

(** The world after the charge has been created and fulfilled in the
    session. *)
Definition fulfilled : world :=
  Smithery.serve_all repr_of png_of rest_client
    [Smithery.CreateSmsPayment ctx (ok created) "+15551234567" "Hello" "anonymous";
     Smithery.PayAndSendSms ctx (ok paid) (TwilioMessage (JStr "SM1")) "ch_1"].

(** What the link tool of the stand-alone server returns for [ch_1]. *)
Definition linked : pydict :=
  match fst (get_sms_qr_with_link png_of "ch_1" awaiting) with
  | inr result => result
  | inl _ => []
  end.

Lemma session_configured : configured float_of rest_client config env.
Proof. repeat split; vm_compute; reflexivity. Qed.

Lemma smithery_records_pending_or_completed_witness :
  let d := record (Some (JStr "SM1")) in
  (Dict.get "sent" d = Some (PBool false)
   /\ Dict.get "status" d = Some (PStr "pending")
   /\ Dict.get "sms_sid" d = None)
  \/ (Dict.get "sent" d = Some (PBool true)
      /\ Dict.get "status" d = Some (PStr "completed")
      /\ exists sid, Dict.get "sms_sid" d = Some (PJson sid)).
Proof.
  apply (Smithery.smithery_records_pending_or_completed repr_of png_of rest_client
           fulfilled (KStr "ch_1") (record (Some (JStr "SM1")))).
  - apply Smithery.smithery_serve_all_reachable.
  - vm_compute. reflexivity.
Defined.

Lemma variants_agree_witness :
  Smithery.create_sms_payment ctx (ok created) "+15557654321" "Bye" "bob" awaiting
  = create_sms_payment float_of env (ok created) "+15557654321" "Bye" "bob" awaiting
  /\ Smithery.pay_and_send_sms repr_of rest_client ctx (ok created)
       (TwilioMessage (JStr "SM1")) "ch_1" awaiting
     = pay_and_send_sms repr_of env (ok created) (TwilioMessage (JStr "SM1")) "ch_1" awaiting
  /\ Smithery.check_charge_status ctx (ok created) "ch_1" awaiting
     = check_charge_status env (ok created) "ch_1" awaiting
  /\ Smithery.get_sms_qr png_of ctx "ch_1" awaiting = get_sms_qr png_of "ch_1" awaiting.
Proof.
  apply (variants_agree float_of repr_of png_of rest_client config env (ok created)
           (TwilioMessage (JStr "SM1")) "+15557654321" "Bye" "bob" "ch_1" awaiting).
  exact session_configured.
Defined.

Lemma smithery_link_needs_no_picture_witness :
  exists html,
    Smithery.get_sms_qr_with_link ctx "ch_1" awaiting
    = (inr [("deep_link", PStr "lightning:lntb1...");
            ("hosted_checkout_url", PStr "https://checkout.opennode.com/ch_1");
            ("mobile_html", PStr html);
            ("instructions",
             PStr "Scan QR separately, or tap deep_link to open a wallet.")],
       awaiting).
Proof.
  apply (smithery_link_needs_no_picture ctx "ch_1" awaiting (record None)
           (PStr "lntb1...") "lightning:lntb1...").
  - exact awaiting_record.
  - reflexivity.
  - reflexivity.
  - intros _. by eexists.
Defined.

Lemma link_variants_agree_witness :
  exists result,
    Smithery.get_sms_qr_with_link ctx "ch_1" awaiting = (inr result, awaiting)
    /\ awaiting = awaiting
    /\ Dict.get "deep_link" result = Dict.get "deep_link" linked
    /\ Dict.get "hosted_checkout_url" result = Dict.get "hosted_checkout_url" linked
    /\ Dict.get "instructions" result = Dict.get "instructions" linked.
Proof.
  apply (link_variants_agree png_of ctx "ch_1" awaiting linked awaiting).
  vm_compute. reflexivity.
Defined.

Lemma smithery_tools_need_context_witness :
  let e := AttributeError "'NoneType' object has no attribute 'session_config'" in
  Smithery.create_sms_payment None (ok created) "+15551234567" "Hello" "anonymous" startup
  = (inl e, startup)
  /\ Smithery.pay_and_send_sms repr_of rest_client None (ok paid)
       (TwilioMessage (JStr "SM1")) "ch_1" awaiting
     = (inl e, awaiting)
  /\ Smithery.check_charge_status None (ok paid) "ch_1" awaiting = (inl e, awaiting).
Proof.
  split.
  - apply (smithery_tools_need_context repr_of rest_client (ok created)).
  - apply (smithery_tools_need_context repr_of rest_client (ok paid)).
    rewrite awaiting_record. by eexists.
Defined.

End Session.

(** * The stand-alone server under an MCP host

    Served over MCP, a tool receives the request context as [ctx] and
    tells the client what it is doing: [await ctx.info(...)], and
    [await ctx.error(...)] in the [except] clauses.  A notification that
    cannot be delivered raises in the tool.  What the client does with a
    notification is not modelled; whether the awaited call returns or
    raises is.  The two tools that write to the registry are embedded here
    with their context. *)

Module Hosted.

(** The request context: for each message, whether [await ctx.info(message)]
    and [await ctx.error(message)] return ([None]) or raise. *)
Record Context := {
  info : string -> option exn;
  error : string -> option exn
}.

(** What [if ctx: await ctx.info(message)] raises, if anything. *)
Definition info_outcome (ctx : option Context) (message : string) : option exn :=
  match ctx with
  | Some c => info c message
  | None => None
  end.

Definition error_outcome (ctx : option Context) (message : string) : option exn :=
  match ctx with
  | Some c => error c message
  | None => None
  end.

Definition notify (outcome : option exn) : M unit :=
  match outcome with
  | None => ret tt
  | Some e => raise e
  end.

(** [if ctx: await ctx.info(message)]. *)
Definition ctx_info (ctx : option Context) (message : string) : M unit :=
  notify (info_outcome ctx message).

(** [if ctx: await ctx.error(message)]. *)
Definition ctx_error (ctx : option Context) (message : string) : M unit :=
  notify (error_outcome ctx message).

Section Server.

Variable py_float : string -> exn + float.
Variable py_repr : json -> string.

(** Python's [str(e)] of an exception. *)
Variable py_exc_str : exn -> string.

(** The two [except] clauses of [create_sms_payment] and
    [pay_and_send_sms], with their notifications. *)
Definition except_opennode {A} (ctx : option Context) (e : exn) : M A :=
  match e with
  | HTTPStatusError code body =>
      let error_msg := "OpenNode API error: " +:+ pretty code +:+ " - " +:+ body in
      ctx_error ctx error_msg ;;
      raise (ValueError error_msg)
  | _ =>
      ctx_error ctx ("Error: " +:+ py_exc_str e) ;;
      raise e
  end.

(** The [try] block of [create_sms_payment]. *)
Definition create_sms_payment_try (ctx : option Context) (env : environ)
    (net : http_outcome) (phone_number message user_id : string) : M pydict :=
  price <- lift (get_sms_price py_float env) ;;
  n <- registry_len ;;
  let payload :=
    [("amount", PFloat price);
     ("currency", PStr "USD");
     ("description", PStr ("SMS to " +:+ phone_number));
     ("auto_settle", PBool false);
     ("order_id", PStr ("sms-" +:+ user_id +:+ "-" +:+ pretty n))] in
  headers <- lift (get_opennode_headers env) ;;
  response <- client_post net "https://api.opennode.com/v1/charges" payload headers ;;
  raise_for_status response ;;
  charge <- response_json response ;;
  (* charge_id = charge["data"]["id"] *)
  data <- lift (subscript charge "data") ;;
  charge_id <- lift (subscript data "id") ;;
  (* lightning_invoice = charge["data"]["lightning_invoice"]["payreq"] *)
  data <- lift (subscript charge "data") ;;
  invoice <- lift (subscript data "lightning_invoice") ;;
  lightning_invoice <- lift (subscript invoice "payreq") ;;
  (* pending_sms[charge_id] = {...} *)
  data <- lift (subscript charge "data") ;;
  hosted_checkout_url <- lift (subscript data "hosted_checkout_url") ;;
  k <- lift (hashable charge_id) ;;
  registry_setitem k
    [("user_id", PStr user_id);
     ("phone_number", PStr phone_number);
     ("message", PStr message);
     ("amount", PFloat price);
     ("lightning_invoice", PJson lightning_invoice);
     ("hosted_checkout_url", PJson hosted_checkout_url);
     ("status", PStr "pending");
     ("sent", PBool false)] ;;
  (* if ctx: await ctx.info(f"Payment created: {charge_id}") *)
  ctx_info ctx ("Payment created: " +:+ py_str py_repr charge_id) ;;
  (* return {...} *)
  data <- lift (subscript charge "data") ;;
  hosted_checkout_url <- lift (subscript data "hosted_checkout_url") ;;
  data <- lift (subscript charge "data") ;;
  invoice <- lift (subscript data "lightning_invoice") ;;
  expires_at <- lift (subscript invoice "expires_at") ;;
  ret [("charge_id", PJson charge_id);
       ("amount", PFloat price);
       ("currency", PStr "USD");
       ("phone_number", PStr phone_number);
       ("lightning_invoice", PJson lightning_invoice);
       ("hosted_checkout_url", PJson hosted_checkout_url);
       ("expires_at", PJson expires_at);
       ("instructions",
        PStr "Call get_sms_qr(charge_id) to get QR code, then pay_and_send_sms(charge_id)")].

Definition create_sms_payment (ctx : option Context) (env : environ)
    (net : http_outcome) (phone_number message user_id : string) : M pydict :=
  ctx_info ctx ("Creating SMS payment for " +:+ phone_number) ;;
  try_except
    (create_sms_payment_try ctx env net phone_number message user_id)
    (except_opennode ctx).

(** The [try] block of [pay_and_send_sms]. *)
Definition pay_and_send_sms_try (ctx : option Context) (env : environ)
    (net : http_outcome) (tw : twilio_outcome) (charge_id : string) : M pydict :=
  headers <- lift (get_opennode_headers env) ;;
  response <- client_get net ("https://api.opennode.com/v1/charge/" +:+ charge_id) headers ;;
  raise_for_status response ;;
  charge <- response_json response ;;
  (* status = charge["data"]["status"] *)
  data <- lift (subscript charge "data") ;;
  status <- lift (subscript data "status") ;;
  (* sms_request = pending_sms[charge_id] *)
  registry_getitem charge_id ;;
  if ne_str status "paid" then
    ret [("charge_id", PStr charge_id);
         ("status", PJson status);
         ("paid", PBool false);
         ("sms_sent", PBool false);
         ("message",
          PStr ("Payment not received yet (status: " +:+ py_str py_repr status +:+ ")"))]
  else
  sent <- registry_getfield charge_id "sent" ;;
  if negb (truthy sent) then
    twilio <- lift (get_twilio_client env) ;;
    let from_number := env !! "TWILIO_PHONE_NUMBER" in
    if unset from_number then raise (ValueError "TWILIO_PHONE_NUMBER not set") else
    let from_number := PStr (default "" from_number) in
    body <- registry_getfield charge_id "message" ;;
    to <- registry_getfield charge_id "phone_number" ;;
    sid <- messages_create tw twilio body from_number to ;;
    (* Mark as sent *)
    registry_setfield charge_id "sent" (PBool true) ;;
    registry_setfield charge_id "status" (PStr "completed") ;;
    registry_setfield charge_id "sms_sid" (PJson sid) ;;
    (* if ctx: await ctx.info(f"SMS sent successfully: {sms.sid}") *)
    ctx_info ctx ("SMS sent successfully: " +:+ py_str py_repr sid) ;;
    (* return {...} *)
    to <- registry_getfield charge_id "phone_number" ;;
    data <- lift (subscript charge "data") ;;
    paid_at <- lift (dot_get data "paid_at") ;;
    ret [("charge_id", PStr charge_id);
         ("status", PStr "completed");
         ("paid", PBool true);
         ("sms_sent", PBool true);
         ("sms_sid", PJson sid);
         ("to", to);
         ("from", from_number);
         ("paid_at", PJson paid_at);
         ("message", PStr "Payment received and SMS sent successfully!")]
  else
    ret [("charge_id", PStr charge_id);
         ("status", PStr "completed");
         ("paid", PBool true);
         ("sms_sent", PBool true);
         ("message", PStr "SMS already sent for this payment")].

Definition pay_and_send_sms (ctx : option Context) (env : environ)
    (net : http_outcome) (tw : twilio_outcome) (charge_id : string) : M pydict :=
  ctx_info ctx ("Checking payment for " +:+ charge_id) ;;
  present <- registry_contains (KStr charge_id) ;;
  if negb present then not_found charge_id else
  try_except
    (pay_and_send_sms_try ctx env net tw charge_id)
    (except_opennode ctx).

(** ** What an exception leaves behind *)

Ltac exec :=
  lazy beta iota zeta delta
    [create_sms_payment create_sms_payment_try pay_and_send_sms pay_and_send_sms_try
     ctx_info ctx_error notify
     bind ret raise lift try_except not_found
     registry_len registry_contains registry_setitem registry_getitem
     registry_getfield registry_getfield_or_none registry_setfield
     client_post client_get arrive send raise_for_status response_json
     messages_create negb fst snd];
  cbn [pending_sms outbound status_code text document].

Ltac settle :=
  match goal with
  | H : ?x = _ |- context [match ?x with _ => _ end] => rewrite H
  end.

Ltac run := repeat (exec; settle); exec.

(** A notification first: when it raises, nothing else has happened. *)
Lemma after_ctx_info {A} ctx message (k : M A) w :
  (ctx_info ctx message ;; k) w
  = match info_outcome ctx message with
    | Some e => (inl e, w)
    | None => k w
    end.
Proof. unfold bind, ctx_info, notify. by destruct (info_outcome ctx message). Qed.

(** The [except] clauses raise, whatever becomes of their notification,
    and leave the world alone. *)
Lemma except_opennode_raises {A} ctx e w :
  exists e', except_opennode (A := A) ctx e w = (inl e', w).
Proof.
  unfold except_opennode.
  destruct e; cbv zeta; exec;
    match goal with
    | |- context [error_outcome ?c ?m] => destruct (error_outcome c m)
    end; by eexists.
Qed.

(** A [try] block under these clauses: the world is the one the block
    leaves, what the block returns is returned, and when it raises the
    statement raises. *)
Lemma try_except_opennode {A} ctx (body : M A) w :
  snd (try_except body (except_opennode ctx) w) = snd (body w)
  /\ match fst (body w) with
     | inr a => fst (try_except body (except_opennode ctx) w) = inr a
     | inl _ => exists e, fst (try_except body (except_opennode ctx) w) = inl e
     end.
Proof.
  unfold try_except. destruct (body w) as [[e | a] w1]; cbn [fst snd].
  - destruct (except_opennode_raises (A := A) ctx e w1) as [e' ->]. split; [reflexivity |].
    by exists e'.
  - by split.
Qed.

(** Closes a branch in which the block has raised before the store. *)
Ltac no_record := run; left; split; [by eexists | reflexivity].

(** The [try] block of [create_sms_payment] either raises with the registry
    as it was, or it has stored the pending record under the id of the
    answer; it then returns, unless the notification that follows the
    store raises, or the lookup of [expires_at] does. *)
Lemma create_sms_payment_try_paths ctx env net phone_number message user_id w :
  let run := create_sms_payment_try ctx env net phone_number message user_id w in
  ((exists e, fst run = inl e) /\ pending_sms (snd run) = pending_sms w)
  \/ exists price charge data charge_id invoice_obj lightning_invoice hosted k,
       answers net charge data
       /\ subscript data "id" = inr charge_id
       /\ subscript data "lightning_invoice" = inr invoice_obj
       /\ hashable charge_id = inr k
       /\ pending_sms (snd run)
          = <[k := request_info user_id phone_number message price
                     lightning_invoice hosted None]> (pending_sms w)
       /\ match info_outcome ctx ("Payment created: " +:+ py_str py_repr charge_id) with
          | Some e => fst run = inl e
          | None =>
              match subscript invoice_obj "expires_at" with
              | inl e => fst run = inl e
              | inr _ => exists result, fst run = inr result
              end
          end.
Proof.
  cbv zeta.
  destruct (get_sms_price py_float env) as [e0 | price] eqn:Hprice; [no_record |].
  destruct (get_opennode_headers env) as [e0 | headers] eqn:Hheaders; [no_record |].
  destruct net as [e0 | code body document]; [no_record |].
  destruct ((200 <=? code) && (code <=? 299))%Z eqn:Hcode; [| no_record].
  destruct document as [charge |]; [| no_record].
  destruct (subscript charge "data") as [e0 | data] eqn:Hdata; [no_record |].
  destruct (subscript data "id") as [e0 | charge_id] eqn:Hid; [no_record |].
  destruct (subscript data "lightning_invoice") as [e0 | invoice_obj] eqn:Hinvoice;
    [no_record |].
  destruct (subscript invoice_obj "payreq") as [e0 | lightning_invoice] eqn:Hpayreq;
    [no_record |].
  destruct (subscript data "hosted_checkout_url") as [e0 | hosted] eqn:Hhosted;
    [no_record |].
  destruct (hashable charge_id) as [e0 | k] eqn:Hkey; [no_record |].
  right. exists price, charge, data, charge_id, invoice_obj, lightning_invoice, hosted, k.
  split.
  { exists code, body. split; [reflexivity |]. split; [| exact Hdata].
    apply andb_prop in Hcode as [Hlo Hhi]. unfold success.
    split; by apply Z.leb_le. }
  do 3 (split; [assumption |]).
  destruct (info_outcome ctx ("Payment created: " +:+ py_str py_repr charge_id))
    as [e0 |] eqn:Hnote.
  - run. by split.
  - destruct (subscript invoice_obj "expires_at") as [e0 | expires_at] eqn:Hexpires;
      run; (split; [reflexivity |]); [reflexivity | by eexists].
Qed.

(** X6.  Under a host, a call of [create_sms_payment] that raises has
    changed the registry only when it raised after the store: the provider
    has answered with a document from which the record could be built, and
    either the notification "Payment created" that follows the store has
    raised, or the lookup of [expires_at] has.  Any other failure
    (configuration, transport, status code, JSON, missing or unhashable id,
    missing invoice or checkout URL, the first notification) leaves the
    registry as it was. *)
Theorem failed_create_writes_only_after_store ctx env net phone_number message user_id
    w e :
  let run := create_sms_payment ctx env net phone_number message user_id w in
  fst run = inl e ->
  pending_sms (snd run) = pending_sms w
  \/ exists charge data charge_id invoice_obj,
       answers net charge data
       /\ subscript data "id" = inr charge_id
       /\ subscript data "lightning_invoice" = inr invoice_obj
       /\ (is_Some (info_outcome ctx ("Payment created: " +:+ py_str py_repr charge_id))
           \/ exists e', subscript invoice_obj "expires_at" = inl e').
Proof.
  cbv zeta. unfold create_sms_payment. rewrite after_ctx_info.
  destruct (info_outcome ctx ("Creating SMS payment for " +:+ phone_number)) as [e0 |];
    [intros _; by left |].
  destruct (try_except_opennode ctx
              (create_sms_payment_try ctx env net phone_number message user_id) w)
    as [-> Hfst].
  intros Hfailed.
  destruct (create_sms_payment_try_paths ctx env net phone_number message user_id w)
    as [[_ Hsame] |
        (price & charge & data & charge_id & invoice_obj & lightning_invoice & hosted & k
         & Hnet & Hid & Hinvoice & _ & _ & Hrun)].
  - by left.
  - right. exists charge, data, charge_id, invoice_obj.
    do 3 (split; [assumption |]).
    destruct (info_outcome ctx ("Payment created: " +:+ py_str py_repr charge_id))
      as [e0 |]; [left; by eexists |].
    destruct (subscript invoice_obj "expires_at") as [e0 | expires_at];
      [right; by eexists |].
    destruct Hrun as [result Hresult]. rewrite Hresult in Hfst.
    rewrite Hfst in Hfailed. discriminate.
Qed.

(** Closes a branch in which the block has written nothing. *)
Ltac unwritten := run; left; reflexivity.

(** The [try] block of [pay_and_send_sms] either leaves the registry as it
    was, or Twilio has returned a message and the record of the charge has
    been marked with its sid; the block then returns the report with that
    sid, unless the notification that follows the marking raises. *)
Lemma pay_and_send_sms_try_paths ctx env net tw charge_id w :
  let run := pay_and_send_sms_try ctx env net tw charge_id w in
  pending_sms (snd run) = pending_sms w
  \/ exists d sid,
       tw = TwilioMessage sid
       /\ pending_sms w !! KStr charge_id = Some d
       /\ reports net (JStr "paid")
       /\ pending_sms (snd run) = <[KStr charge_id := mark_sent sid d]> (pending_sms w)
       /\ match info_outcome ctx ("SMS sent successfully: " +:+ py_str py_repr sid) with
          | Some e => fst run = inl e
          | None =>
              exists report,
                fst run = inr report
                /\ Dict.get "sms_sid" report = Some (PJson sid)
          end.
Proof.
  cbv zeta.
  destruct (get_opennode_headers env) as [e0 | headers] eqn:Hheaders; [unwritten |].
  destruct net as [e0 | code body document]; [unwritten |].
  destruct ((200 <=? code) && (code <=? 299))%Z eqn:Hcode; [| unwritten].
  destruct document as [charge |]; [| unwritten].
  destruct (subscript charge "data") as [e0 | data] eqn:Hdata; [unwritten |].
  destruct (subscript data "status") as [e0 | status] eqn:Hstatus; [unwritten |].
  destruct (pending_sms w !! KStr charge_id) as [d |] eqn:Hd; [| unwritten].
  destruct (ne_str status "paid") eqn:Hne; [unwritten |].
  apply ne_str_false in Hne as ->.
  pose proof paid_is_paid as Hpaid.
  destruct (Dict.get "sent" d) as [sent |] eqn:Hsent; [| unwritten].
  destruct (truthy sent) eqn:Htruthy; [unwritten |].
  destruct (get_twilio_client env) as [e0 | twilio] eqn:Htwilio; [unwritten |].
  destruct (unset (env !! "TWILIO_PHONE_NUMBER")) eqn:Hnumber; [unwritten |].
  destruct (Dict.get "message" d) as [body0 |] eqn:Hbody; [| unwritten].
  destruct (Dict.get "phone_number" d) as [to |] eqn:Hto; [| unwritten].
  destruct tw as [e0 | sid]; [unwritten |].
  pose proof (dot_get_after_subscript _ _ _ "paid_at" Hstatus) as Hpaid_at.
  right. exists d, sid.
  split; [reflexivity |]. split; [reflexivity |].
  split.
  { exists charge, data. split; [| exact Hstatus].
    exists code, body. split; [reflexivity |]. split; [| exact Hdata].
    apply andb_prop in Hcode as [Hlo Hhi]. unfold success.
    split; by apply Z.leb_le. }
  destruct (info_outcome ctx ("SMS sent successfully: " +:+ py_str py_repr sid))
    as [e0 |] eqn:Hnote.
  all: repeat (exec;
         first [settle | rewrite lookup_insert_eq
               | fold (mark_sent sid d); rewrite get_mark_sent_other by discriminate ]).
  all: exec; rewrite !insert_insert_eq.
  - by split.
  - split; [reflexivity |]. eexists. by split.
Qed.

(** X2.  Under a host, [pay_and_send_sms] writes to the registry only
    after Twilio has returned a message: the registry is unchanged, or the
    record of the charge has been marked with the sid of that message.  A
    call that has marked the record returns a report with that sid, unless
    the notification "SMS sent successfully" that follows the marking
    raises: this is the one way in which the call can raise and leave the
    registry changed. *)
Theorem registry_written_only_with_receipt ctx env net tw charge_id w :
  let run := pay_and_send_sms ctx env net tw charge_id w in
  pending_sms (snd run) = pending_sms w
  \/ exists d sid,
       tw = TwilioMessage sid
       /\ pending_sms w !! KStr charge_id = Some d
       /\ pending_sms (snd run) = <[KStr charge_id := mark_sent sid d]> (pending_sms w)
       /\ match info_outcome ctx ("SMS sent successfully: " +:+ py_str py_repr sid) with
          | Some _ => exists e, fst run = inl e
          | None =>
              exists report,
                fst run = inr report
                /\ Dict.get "sms_sid" report = Some (PJson sid)
          end.
Proof.
  cbv zeta. unfold pay_and_send_sms. rewrite after_ctx_info.
  destruct (info_outcome ctx ("Checking payment for " +:+ charge_id)) as [e0 |];
    [by left |].
  unfold bind, registry_contains, not_found, raise.
  destruct (bool_decide (is_Some (pending_sms w !! KStr charge_id))); cbn [negb];
    [| by left].
  destruct (try_except_opennode ctx (pay_and_send_sms_try ctx env net tw charge_id) w)
    as [Hsnd Hfst].
  rewrite Hsnd.
  destruct (pay_and_send_sms_try_paths ctx env net tw charge_id w)
    as [Hsame | (d & sid & Htw & Hd & _ & Hmarked & Hrun)].
  - by left.
  - right. exists d, sid. do 3 (split; [assumption |]).
    destruct (info_outcome ctx ("SMS sent successfully: " +:+ py_str py_repr sid))
      as [e0 |].
    + rewrite Hrun in Hfst. exact Hfst.
    + destruct Hrun as (report & Hreport & Hsid). rewrite Hreport in Hfst.
      by exists report.
Qed.

End Server.

End Hosted.

(** ** Without a context

    Called with [ctx=None], the two tools are those of the first part. *)

Section WithoutContext.

Variable py_float : string -> exn + float.
Variable py_repr : json -> string.
Variable py_exc_str : exn -> string.

Lemma try_except_ext {A} (body : M A) (handler handler' : exn -> M A) w :
  (forall e w', handler e w' = handler' e w') ->
  try_except body handler w = try_except body handler' w.
Proof.
  intros Hsame. unfold try_except. by destruct (body w) as [[e | a] w'].
Qed.

Lemma except_opennode_without_context {A} e w :
  Hosted.except_opennode (A := A) py_exc_str None e w = except_opennode e w.
Proof. by destruct e. Qed.

Lemma hosted_without_context env net tw phone_number message user_id charge_id w :
  Hosted.create_sms_payment py_float py_repr py_exc_str None env net
    phone_number message user_id w
  = create_sms_payment py_float env net phone_number message user_id w
  /\ Hosted.pay_and_send_sms py_repr py_exc_str None env net tw charge_id w
     = pay_and_send_sms py_repr env net tw charge_id w.
Proof.
  split.
  - unfold Hosted.create_sms_payment, create_sms_payment.
    rewrite Hosted.after_ctx_info. cbn [Hosted.info_outcome].
    rewrite (try_except_ext _ _ except_opennode)
      by apply except_opennode_without_context.
    reflexivity.
  - unfold Hosted.pay_and_send_sms, pay_and_send_sms.
    rewrite Hosted.after_ctx_info. cbn [Hosted.info_outcome].
    unfold bind at 1. unfold bind at 1. unfold registry_contains. cbv beta iota.
    destruct (negb _); [reflexivity |].
    rewrite (try_except_ext _ _ except_opennode)
      by apply except_opennode_without_context.
    reflexivity.
Qed.

End WithoutContext.

(** ** A client that goes away

    The run of [Scenario] under a host whose client is told that the tool
    has started, and is gone when the tool reports its success. *)

Module Away.

Import Scenario.

Definition closed : exn := LibraryError "ClosedResourceError" "client is gone".

Definition ctx : option Hosted.Context :=
  Some {| Hosted.info := fun message =>
            if String.prefix "Payment created" message
               || String.prefix "SMS sent" message
            then Some closed else None;
          Hosted.error := fun _ => None |}.

Definition exc_str (e : exn) : string := "client is gone".

(** The creation of [ch_1] raises, and [ch_1] is registered. *)
Example creation_raises_after_store :
  let run :=
    Hosted.create_sms_payment float_of repr_of exc_str ctx env (ok created)
      "+15551234567" "Hello" "anonymous" startup in
  fst run = inl closed
  /\ pending_sms (snd run) !! KStr "ch_1" = Some (record None).
Proof. split; vm_compute; reflexivity. Qed.

(** The fulfilment of [ch_1] raises, and [ch_1] is marked as sent. *)
Example fulfilment_raises_after_marking :
  let run :=
    Hosted.pay_and_send_sms repr_of exc_str ctx env (ok paid)
      (TwilioMessage (JStr "SM1")) "ch_1" awaiting in
  fst run = inl closed
  /\ pending_sms (snd run) !! KStr "ch_1" = Some (record (Some (JStr "SM1")))
  /\ deliveries (snd run) = S (deliveries awaiting).
Proof. repeat split; vm_compute; reflexivity. Qed.

Lemma failed_create_writes_only_after_store_witness :
  let run :=
    Hosted.create_sms_payment float_of repr_of exc_str ctx env (ok created)
      "+15551234567" "Hello" "anonymous" startup in
  pending_sms (snd run) = pending_sms startup
  \/ exists charge data charge_id invoice_obj,
       answers (ok created) charge data
       /\ subscript data "id" = inr charge_id
       /\ subscript data "lightning_invoice" = inr invoice_obj
       /\ (is_Some (Hosted.info_outcome ctx
                      ("Payment created: " +:+ py_str repr_of charge_id))
           \/ exists e', subscript invoice_obj "expires_at" = inl e').
Proof.
  apply (Hosted.failed_create_writes_only_after_store float_of repr_of exc_str ctx env
           (ok created) "+15551234567" "Hello" "anonymous" startup closed).
  vm_compute. reflexivity.
Defined.

End Away.
